(** * Analytics aggregation engine: a shallow embedding and its properties

    This development embeds the aggregation code of
    [backend/src/repositories/analytics.py] and of
    [backend/src/routes/analytics/routes.py] and proves the properties the
    specification states about it.

    Modelling conventions.
    - A table is the list of its rows; a query is a function on that list.
    - [datetime] values are naive UTC datetimes, kept as integers
      (microseconds since 1970-01-01); [timedelta] values are integers
      (microseconds).  Python holds the years 1 to 9999 only: arithmetic on
      a date or a number of days that the caller supplies raises
      [OverflowError] outside that range.  [now] is the reading of the
      clock, far from both ends of the range; subtracting one of the code's
      constants from it (24 hours, 7, 14, 30 or 90 days) is not checked.
    - [Decimal] values and Python [float] results of ratio computations are
      exact rationals ([Q]); rounding of those results is not modelled.  The
      percentile indices, where a [float] is truncated to an integer, are the
      exception: there the IEEE-754 binary64 product is modelled exactly with
      [SpecFloat].
    - Python exceptions are the [Err] results of a small error monad; a
      division is a partial operation that raises [ZeroDivisionError]. *)

From Stdlib Require Import ZArith QArith Qround List Bool String Lia Permutation Sorted.
From Stdlib Require Import Floats.SpecFloat.
From Stdlib Require Import Lqa.
Import ListNotations.

Local Open Scope Z_scope.

(** ** Python exceptions as an error monad *)

Module Py.

Inductive exn : Type :=
| ZeroDivisionError
| IndexError
| OverflowError
| ValueError
| TypeError
| ArgumentError
| DBAPIError.

Inductive result (A : Type) : Type :=
| Ok (a : A)
| Err (e : exn).

Arguments Ok {A} a.
Arguments Err {A} e.

Definition bind {A B : Type} (m : result A) (k : A -> result B) : result B :=
  match m with
  | Ok a => k a
  | Err e => Err e
  end.

Fixpoint mapM {A B : Type} (f : A -> result B) (l : list A) : result (list B) :=
  match l with
  | [] => Ok []
  | x :: xs =>
      bind (f x) (fun y => bind (mapM f xs) (fun ys => Ok (y :: ys)))
  end.

(** [x / y] on numbers: raises when the divisor is zero. *)
Definition div (x y : Q) : result Q :=
  if Qeq_bool y 0 then Err ZeroDivisionError else Ok (x / y)%Q.

(** [x // y] on integers. *)
Definition floordiv (x y : Z) : result Z :=
  if y =? 0 then Err ZeroDivisionError else Ok (x / y).

(** [l[i]] with Python's negative indices. *)
Definition getitem {A : Type} (l : list A) (i : Z) : result A :=
  let n := Z.of_nat (List.length l) in
  let j := if i <? 0 then i + n else i in
  if (j <? 0) || (n <=? j) then Err IndexError
  else match nth_error l (Z.to_nat j) with
       | Some x => Ok x
       | None => Err IndexError
       end.

(** Truthiness of an optional string: [None] and the empty string are
    false. *)
Definition truthy (s : option string) : bool :=
  match s with
  | Some s' => negb (String.eqb s' EmptyString)
  | None => false
  end.

End Py.

Import Py.

Notation "x <- m ;; k" := (Py.bind m (fun x => k))
  (at level 61, m at next level, right associativity).

(** ** IEEE-754 binary64, as Python's [float] *)

Module Float64.

Definition prec : Z := 53.
Definition emax : Z := 1024.

(** [float(n)] for an integer: round to nearest even; Python raises
    [OverflowError] where the result would be infinite. *)
Definition of_int (n : Z) : result spec_float :=
  match binary_normalize prec emax n 0 false with
  | S754_infinity _ => Err OverflowError
  | f => Ok f
  end.

Definition mul (x y : spec_float) : spec_float := SFmul prec emax x y.

(** [int(x)]: truncation toward zero. *)
Definition to_int (x : spec_float) : result Z :=
  match x with
  | S754_zero _ => Ok 0
  | S754_infinity _ => Err OverflowError
  | S754_nan => Err ValueError
  | S754_finite s m e =>
      let a := match e with
               | Z0 => Zpos m
               | Zpos p => Zpos m * 2 ^ Zpos p
               | Zneg p => Zpos m / 2 ^ Zpos p
               end in
      Ok (if s then - a else a)
  end.

(** The literals [0.95] and [0.99]: the binary64 numbers nearest to
    95/100 and 99/100, [0x1.e666666666666p-1] and
    [0x1.fae147ae147aep-1]. *)
Definition lit_0_95 : spec_float := S754_finite false 8556839292003942 (-53).
Definition lit_0_99 : spec_float := S754_finite false 8917127262193582 (-53).

(** [int(n * c)] for an integer [n] and a float [c]. *)
Definition int_mul (n : Z) (c : spec_float) : result Z :=
  x <- of_int n ;; to_int (mul x c).

(** The meaning of a shift record: [m] has been shifted right by [k] bits;
    the round and sticky bits place the dropped remainder against half of
    the last kept unit. *)
Definition shr_inv (m k : Z) (r : shr_record) : Prop :=
  0 <= shr_m r /\
  exists rem,
    m = shr_m r * 2 ^ k + rem /\ 0 <= rem < 2 ^ k /\
    match shr_r r, shr_s r with
    | false, false => rem = 0
    | false, true => 0 < 2 * rem < 2 ^ k
    | true, false => 2 * rem = 2 ^ k
    | true, true => 2 ^ k < 2 * rem
    end.

End Float64.

(** ** Relational queries over lists of rows *)

Module Sql.

(** A column value, for [ORDER BY] on a column chosen by name. *)
Inductive value : Type :=
| VNull
| VInt (z : Z)
| VNum (q : Q)
| VText (s : string).

(** Ascending order; [NULL] sorts after every value, text compares
    character by character (by code point). *)
Definition value_leb (a b : value) : bool :=
  match a, b with
  | _, VNull => true
  | VNull, _ => false
  | VInt x, VInt y => x <=? y
  | VNum x, VNum y => Qle_bool x y
  | VText x, VText y => String.leb x y
  | _, _ => true
  end.

Section Sorting.
Context {A : Type}.
Variable leb : A -> A -> bool.

Fixpoint insert (x : A) (l : list A) : list A :=
  match l with
  | [] => [x]
  | y :: ys => if leb x y then x :: l else y :: insert x ys
  end.

(** [ORDER BY]: insertion sort; which of several equal rows comes
    first is this model's choice, the database leaves it open. *)
Fixpoint order_by (l : list A) : list A :=
  match l with
  | [] => []
  | x :: xs => insert x (order_by xs)
  end.
End Sorting.

Section Grouping.
Context {K A : Type}.
Variable eqb : K -> K -> bool.

Fixpoint add_to_group (k : K) (a : A) (gs : list (K * list A))
  : list (K * list A) :=
  match gs with
  | [] => [(k, [a])]
  | (k', l) :: gs' =>
      if eqb k k' then (k', l ++ [a]) :: gs'
      else (k', l) :: add_to_group k a gs'
  end.

(** [GROUP BY]: the groups in order of first occurrence, each with its
    rows. *)
Definition group_by (key : A -> K) (l : list A) : list (K * list A) :=
  fold_left (fun gs a => add_to_group (key a) a gs) l [].
End Grouping.

Definition count {A : Type} (l : list A) : Z := Z.of_nat (List.length l).

(** [SUM] is [NULL] over no rows. *)
Definition sum_int (l : list Z) : option Z :=
  match l with
  | [] => None
  | _ => Some (fold_right Z.add 0 l)
  end.

Definition sum_num (l : list Q) : option Q :=
  match l with
  | [] => None
  | _ => Some (fold_right Qplus 0%Q l)
  end.

Definition avg_int (l : list Z) : option Q :=
  match l with
  | [] => None
  | _ => Some (inject_Z (fold_right Z.add 0%Z l) / inject_Z (count l))%Q
  end.

Definition min_int (l : list Z) : option Z :=
  match l with
  | [] => None
  | x :: xs => Some (fold_right Z.min x xs)
  end.

Definition max_int (l : list Z) : option Z :=
  match l with
  | [] => None
  | x :: xs => Some (fold_right Z.max x xs)
  end.

(** The largest value the driver can bind as an integer parameter
    ([int64]). *)
Definition int64_max : Z := 2 ^ 63 - 1.

(** [OFFSET off LIMIT lim]: both are bound as [int64] parameters, so the
    driver rejects a value beyond [int64_max]; the database rejects
    negative arguments. *)
Definition offset_limit {A : Type} (off lim : Z) (l : list A) : result (list A) :=
  if (off <? 0) || (lim <? 0) || (int64_max <? off) || (int64_max <? lim)
  then Err DBAPIError
  else Ok (firstn (Z.to_nat lim) (skipn (Z.to_nat off) l)).

(** Equality of nullable text columns as [GROUP BY] sees it: two [NULL]s
    fall in one group. *)
Definition same_text (a b : option string) : bool :=
  match a, b with
  | Some x, Some y => String.eqb x y
  | None, None => true
  | _, _ => false
  end.

(** [column == literal] in a [WHERE] clause: never true on [NULL]. *)
Definition text_is (a : option string) (lit : string) : bool :=
  match a with
  | Some x => String.eqb x lit
  | None => false
  end.

Definition is_not_null {A : Type} (a : option A) : bool :=
  match a with
  | Some _ => true
  | None => false
  end.

(** [COUNT(DISTINCT column)] over non-null text values. *)
Fixpoint distinct (l : list string) : list string :=
  match l with
  | [] => []
  | x :: xs => if existsb (String.eqb x) xs then distinct xs else x :: distinct xs
  end.

End Sql.

(** [x or 0] on a nullable aggregate. *)
Definition or_zero (x : option Z) : Z :=
  match x with
  | Some z => z
  | None => 0
  end.

Definition or_zero_num (x : option Q) : Q :=
  match x with
  | Some q => q
  | None => 0%Q
  end.

Definition or_unknown (x : option string) : string :=
  match x with
  | Some s => if String.eqb s EmptyString then "Unknown"%string else s
  | None => "Unknown"%string
  end.

(** ** Time *)

Definition datetime : Type := Z.
Definition timedelta : Type := Z.

Definition microseconds_per_day : Z := 86400000000.
Definition timedelta_hours (h : Z) : timedelta := h * 3600000000.
Definition timedelta_days (d : Z) : timedelta := d * microseconds_per_day.

(** [timedelta.days]: the whole days of a normalised [timedelta]. *)
Definition days (t : timedelta) : Z := t / microseconds_per_day.

(** [datetime.min] and [datetime.max]: 0001-01-01T00:00:00 and
    9999-12-31T23:59:59.999999. *)
Definition datetime_min : datetime := -62135596800000000.
Definition datetime_max : datetime := 253402300799999999.

Definition in_datetime_range (d : Z) : bool :=
  (datetime_min <=? d) && (d <=? datetime_max).

(** [d - delta] on a [datetime]: raises [OverflowError] when the result is
    not a date of the years 1 to 9999. *)
Definition datetime_sub (d : datetime) (delta : timedelta) : result datetime :=
  if in_datetime_range (d - delta) then Ok (d - delta) else Err OverflowError.

(** [timedelta(days=n)]: raises [OverflowError] beyond 999999999 days. *)
Definition timedelta_max_days : Z := 999999999.

Definition timedelta_of_days (n : Z) : result timedelta :=
  if Z.abs n <=? timedelta_max_days then Ok (timedelta_days n) else Err OverflowError.

(** [start_date = end_date - delta] when no start date is given. *)
Definition default_start (start_date : option datetime) (end_date : datetime)
  (delta : timedelta) : result datetime :=
  match start_date with
  | Some s => Ok s
  | None => datetime_sub end_date delta
  end.

(** ** Data model ([models/__init__.py], [utils/enums.py]) *)

Module ExecutionStatus.
Inductive t : Type := pending | running | success | failure | timeout | cancelled.

Definition eqb (a b : t) : bool :=
  match a, b with
  | pending, pending | running, running | success, success
  | failure, failure | timeout, timeout | cancelled, cancelled => true
  | _, _ => false
  end.

(** Position in the enumeration, the order the database sorts by. *)
Definition rank (a : t) : Z :=
  match a with
  | pending => 0 | running => 1 | success => 2
  | failure => 3 | timeout => 4 | cancelled => 5
  end.
End ExecutionStatus.

Module BudgetScope.
Inductive t : Type := user | agent | flow | global_.

Definition value (s : t) : string :=
  match s with
  | user => "user" | agent => "agent" | flow => "flow" | global_ => "global"
  end.
End BudgetScope.

Module BudgetAlertType.
Inductive t : Type := warning | hard_stop.
End BudgetAlertType.

Module AgentExecution.
Record t : Type := {
  id : string;
  request_id : string;
  session_id : string;
  agent_id : option string;
  agent_type : option string;
  agent_name : option string;
  user_id : option string;
  model_config_id : option string;
  model_name : option string;
  started_at : datetime;
  completed_at : option datetime;
  status : ExecutionStatus.t;
  error_message : option string;
  error_type : option string;
  input_tokens : Z;
  output_tokens : Z;
  total_tokens : Z;
  execution_time_ms : Z;
  llm_time_ms : option Z;
  cost_usd : Q;
  parent_execution_id : option string;
  query_preview : option string;
  created_at : datetime;
  updated_at : datetime
}.
End AgentExecution.

Module BudgetAlert.
Record t : Type := {
  id : string;
  user_id : string;
  scope : BudgetScope.t;
  scope_id : option string;
  threshold_usd : Q;
  period_days : Z;
  alert_type : BudgetAlertType.t;
  alert_at_percentage : Z;
  is_active : bool;
  current_spend_usd : Q
}.
End BudgetAlert.

(** ** Result objects ([schemas/api/analytics/dto.py]) *)

Module AgentExecutionSummaryDTO.
Record t : Type := {
  id : string;
  request_id : string;
  session_id : string;
  agent_name : option string;
  agent_type : option string;
  model_name : option string;
  status : ExecutionStatus.t;
  execution_time_ms : Z;
  total_tokens : Z;
  cost_usd : Q;
  started_at : datetime;
  completed_at : option datetime;
  query_preview : option string
}.
End AgentExecutionSummaryDTO.

Module PaginatedExecutionsDTO.
Record t : Type := {
  items : list AgentExecutionSummaryDTO.t;
  total : Z;
  page : Z;
  page_size : Z;
  total_pages : Z
}.
End PaginatedExecutionsDTO.

Module TopAgentDTO.
Record t : Type := {
  agent_name : string;
  agent_id : option string;
  agent_type : option string;
  execution_count : Z;
  success_count : Z;
  failure_count : Z;
  success_rate : Q;
  avg_execution_time_ms : Q;
  total_tokens : Z;
  total_cost_usd : Q
}.
End TopAgentDTO.

Module CostBreakdownDTO.
Record t : Type := {
  name : string;
  category : string;
  total_cost_usd : Q;
  percentage : Q;
  execution_count : Z;
  total_tokens : Z
}.
End CostBreakdownDTO.

Module AnalyticsOverviewDTO.
Record t : Type := {
  total_executions : Z;
  successful_executions : Z;
  failed_executions : Z;
  success_rate : Q;
  avg_execution_time_ms : Q;
  p50_execution_time_ms : Z;
  p95_execution_time_ms : Z;
  p99_execution_time_ms : Z;
  total_input_tokens : Z;
  total_output_tokens : Z;
  total_tokens : Z;
  total_cost_usd : Q;
  estimated_monthly_cost_usd : Q;
  executions_change_percent : option Q;
  execution_time_change_percent : option Q;
  success_rate_change_percent : option Q;
  cost_change_percent : option Q;
  active_agents_count : Z;
  top_agents : list TopAgentDTO.t;
  cost_by_model : list CostBreakdownDTO.t
}.
End AnalyticsOverviewDTO.

Module AgentStatsDTO.
Record t : Type := {
  agent_id : string;
  agent_name : string;
  agent_type : option string;
  total_executions : Z;
  successful_executions : Z;
  failed_executions : Z;
  timeout_executions : Z;
  success_rate : Q;
  avg_execution_time_ms : Q;
  min_execution_time_ms : Z;
  max_execution_time_ms : Z;
  avg_input_tokens : Q;
  avg_output_tokens : Q;
  total_tokens : Z;
  total_cost_usd : Q;
  avg_cost_per_execution_usd : Q;
  last_executed_at : option datetime;
  first_executed_at : option datetime
}.
End AgentStatsDTO.

Module CostForecastDTO.
Inductive trend : Type := increasing | decreasing | stable.

Record t : Type := {
  current_period_cost_usd : Q;
  projected_monthly_cost_usd : Q;
  projected_weekly_cost_usd : Q;
  daily_average_cost_usd : Q;
  cost_trend : trend;
  trend_percentage : Q
}.
End CostForecastDTO.

(** ** [AgentExecutionRepository] ([repositories/analytics.py]) *)

Definition table : Type := list AgentExecution.t.

(** [if user_id: filters.append(model.user_id == user_id)] *)
Definition user_filter (user_id : option string) (r : AgentExecution.t) : bool :=
  match user_id with
  | Some u => if truthy user_id then Sql.text_is (AgentExecution.user_id r) u else true
  | None => true
  end.

(** [CASE WHEN status = s THEN 1 ELSE 0 END] *)
Definition case_status (s : ExecutionStatus.t) (r : AgentExecution.t) : Z :=
  if ExecutionStatus.eqb (AgentExecution.status r) s then 1 else 0.

Definition count_status (s : ExecutionStatus.t) (rows : table) : option Z :=
  Sql.sum_int (map (case_status s) rows).

(** [part / whole * 100] *)
Definition percent_of (part whole : Q) : result Q :=
  x <- Py.div part whole ;; Ok (x * 100)%Q.

(** [x > y] and [x < y] on numbers. *)
Definition num_gt (x y : Q) : bool := negb (Qle_bool x y).
Definition num_lt (x y : Q) : bool := negb (Qle_bool y x).

(** [x > 0] *)
Definition positive_num (x : Q) : bool := num_gt x 0.

Definition summary_of (r : AgentExecution.t) : AgentExecutionSummaryDTO.t :=
  {| AgentExecutionSummaryDTO.id := AgentExecution.id r;
     AgentExecutionSummaryDTO.request_id := AgentExecution.request_id r;
     AgentExecutionSummaryDTO.session_id := AgentExecution.session_id r;
     AgentExecutionSummaryDTO.agent_name := AgentExecution.agent_name r;
     AgentExecutionSummaryDTO.agent_type := AgentExecution.agent_type r;
     AgentExecutionSummaryDTO.model_name := AgentExecution.model_name r;
     AgentExecutionSummaryDTO.status := AgentExecution.status r;
     AgentExecutionSummaryDTO.execution_time_ms := AgentExecution.execution_time_ms r;
     AgentExecutionSummaryDTO.total_tokens := AgentExecution.total_tokens r;
     AgentExecutionSummaryDTO.cost_usd := AgentExecution.cost_usd r;
     AgentExecutionSummaryDTO.started_at := AgentExecution.started_at r;
     AgentExecutionSummaryDTO.completed_at := AgentExecution.completed_at r;
     AgentExecutionSummaryDTO.query_preview := AgentExecution.query_preview r |}.

Definition opt_text (x : option string) : Sql.value :=
  match x with
  | Some s => Sql.VText s
  | None => Sql.VNull
  end.

Definition opt_int (x : option Z) : Sql.value :=
  match x with
  | Some z => Sql.VInt z
  | None => Sql.VNull
  end.

(** The columns of the table by name, as [ORDER BY] reads them. *)
Definition column (name : string) : option (AgentExecution.t -> Sql.value) :=
  if String.eqb name "id" then Some (fun r => Sql.VText (AgentExecution.id r))
  else if String.eqb name "request_id" then
    Some (fun r => Sql.VText (AgentExecution.request_id r))
  else if String.eqb name "session_id" then
    Some (fun r => Sql.VText (AgentExecution.session_id r))
  else if String.eqb name "agent_id" then
    Some (fun r => opt_text (AgentExecution.agent_id r))
  else if String.eqb name "agent_type" then
    Some (fun r => opt_text (AgentExecution.agent_type r))
  else if String.eqb name "agent_name" then
    Some (fun r => opt_text (AgentExecution.agent_name r))
  else if String.eqb name "user_id" then
    Some (fun r => opt_text (AgentExecution.user_id r))
  else if String.eqb name "model_config_id" then
    Some (fun r => opt_text (AgentExecution.model_config_id r))
  else if String.eqb name "model_name" then
    Some (fun r => opt_text (AgentExecution.model_name r))
  else if String.eqb name "started_at" then
    Some (fun r => Sql.VInt (AgentExecution.started_at r))
  else if String.eqb name "completed_at" then
    Some (fun r => opt_int (AgentExecution.completed_at r))
  else if String.eqb name "status" then
    Some (fun r => Sql.VInt (ExecutionStatus.rank (AgentExecution.status r)))
  else if String.eqb name "error_message" then
    Some (fun r => opt_text (AgentExecution.error_message r))
  else if String.eqb name "error_type" then
    Some (fun r => opt_text (AgentExecution.error_type r))
  else if String.eqb name "input_tokens" then
    Some (fun r => Sql.VInt (AgentExecution.input_tokens r))
  else if String.eqb name "output_tokens" then
    Some (fun r => Sql.VInt (AgentExecution.output_tokens r))
  else if String.eqb name "total_tokens" then
    Some (fun r => Sql.VInt (AgentExecution.total_tokens r))
  else if String.eqb name "execution_time_ms" then
    Some (fun r => Sql.VInt (AgentExecution.execution_time_ms r))
  else if String.eqb name "llm_time_ms" then
    Some (fun r => opt_int (AgentExecution.llm_time_ms r))
  else if String.eqb name "cost_usd" then
    Some (fun r => Sql.VNum (AgentExecution.cost_usd r))
  else if String.eqb name "parent_execution_id" then
    Some (fun r => opt_text (AgentExecution.parent_execution_id r))
  else if String.eqb name "query_preview" then
    Some (fun r => opt_text (AgentExecution.query_preview r))
  else if String.eqb name "created_at" then
    Some (fun r => Sql.VInt (AgentExecution.created_at r))
  else if String.eqb name "updated_at" then
    Some (fun r => Sql.VInt (AgentExecution.updated_at r))
  else None.

Definition is_column (name : string) : bool :=
  match column name with
  | Some _ => true
  | None => false
  end.

(** Attributes of the mapped class that are not columns: its two
    relationships and the [metadata] and [registry] of the declarative
    base. *)
Definition other_attribute (name : string) : bool :=
  String.eqb name "traces" || String.eqb name "token_usages"
  || String.eqb name "metadata" || String.eqb name "registry".

(** [sort_column = getattr(self.model, sort_by, self.model.started_at)]
    followed by [query.order_by(...)]: a column name sorts by that column, a
    name that is no attribute falls back to [started_at], and an attribute
    that is not a column is refused by [order_by] ([ArgumentError] for
    [metadata]; the other three are given the same outcome).  Names of
    Python's object protocol are attributes too and are not listed; the
    properties of the listing are stated for column names. *)
Definition sort_column (sort_by : string) : result (AgentExecution.t -> Sql.value) :=
  match column sort_by with
  | Some c => Ok c
  | None =>
      if other_attribute sort_by then Err ArgumentError
      else Ok (fun r => Sql.VInt (AgentExecution.started_at r))
  end.

(** The optional filters of [list_paginated]. *)
Record list_filters : Type := {
  f_user_id : option string;
  f_agent_id : option string;
  f_agent_type : option string;
  f_model_name : option string;
  f_status : option ExecutionStatus.t;
  f_start_date : option datetime;
  f_end_date : option datetime
}.

Definition text_filter (arg : option string) (col : AgentExecution.t -> option string)
  (r : AgentExecution.t) : bool :=
  match arg with
  | Some v => if truthy arg then Sql.text_is (col r) v else true
  | None => true
  end.

Definition list_where (f : list_filters) (r : AgentExecution.t) : bool :=
  text_filter (f_user_id f) AgentExecution.user_id r
  && text_filter (f_agent_id f) AgentExecution.agent_id r
  && text_filter (f_agent_type f) AgentExecution.agent_type r
  && text_filter (f_model_name f) AgentExecution.model_name r
  && match f_status f with
     | Some s => ExecutionStatus.eqb (AgentExecution.status r) s
     | None => true
     end
  && match f_start_date f with
     | Some d => d <=? AgentExecution.started_at r
     | None => true
     end
  && match f_end_date f with
     | Some d => AgentExecution.started_at r <=? d
     | None => true
     end.

Definition list_paginated (db : table) (f : list_filters)
  (page page_size : Z) (sort_by sort_order : string)
  : result PaginatedExecutionsDTO.t :=
  let matching := filter (list_where f) db in
  let total := Sql.count matching in
  sort_column <- sort_column sort_by ;;
  let asc a b := Sql.value_leb (sort_column a) (sort_column b) in
  let sorted :=
    if String.eqb sort_order "desc"
    then Sql.order_by (fun a b => asc b a) matching
    else Sql.order_by asc matching in
  let offset := (page - 1) * page_size in
  items <- Sql.offset_limit offset page_size sorted ;;
  total_pages <- Py.floordiv (total + page_size - 1) page_size ;;
  Ok {| PaginatedExecutionsDTO.items := map summary_of items;
        PaginatedExecutionsDTO.total := total;
        PaginatedExecutionsDTO.page := page;
        PaginatedExecutionsDTO.page_size := page_size;
        PaginatedExecutionsDTO.total_pages := total_pages |}.

(** The window filter of [get_overview]: [started_at >= start_date],
    [started_at <= end_date] and the owner. *)
Definition overview_filters (user_id : option string) (start_date end_date : datetime)
  (r : AgentExecution.t) : bool :=
  (start_date <=? AgentExecution.started_at r)
  && (AgentExecution.started_at r <=? end_date)
  && user_filter user_id r.

(** The filter of the comparison window: [started_at >= prev_start],
    [started_at < prev_end] and the owner. *)
Definition prev_filters (user_id : option string) (prev_start prev_end : datetime)
  (r : AgentExecution.t) : bool :=
  (prev_start <=? AgentExecution.started_at r)
  && (AgentExecution.started_at r <? prev_end)
  && user_filter user_id r.

(** The percentile query: positive execution times of the window, ascending. *)
Definition overview_times (rows : table) : list Z :=
  Sql.order_by Z.leb
    (map AgentExecution.execution_time_ms
       (filter (fun r => AgentExecution.execution_time_ms r >? 0) rows)).

(** [times[len(times) // 2] if times else 0] *)
Definition p50 (times : list Z) : result Z :=
  match times with
  | [] => Ok 0
  | _ => i <- Py.floordiv (Sql.count times) 2 ;; Py.getitem times i
  end.

(** [times[int(len(times) * c)] if times else 0] *)
Definition percentile (c : spec_float) (times : list Z) : result Z :=
  match times with
  | [] => Ok 0
  | _ => i <- Float64.int_mul (Sql.count times) c ;; Py.getitem times i
  end.

Definition p95 : list Z -> result Z := percentile Float64.lit_0_95.
Definition p99 : list Z -> result Z := percentile Float64.lit_0_99.

Definition agent_key : Type := option string * option string * option string.

Definition agent_key_eqb (a b : agent_key) : bool :=
  let '(n1, i1, t1) := a in
  let '(n2, i2, t2) := b in
  Sql.same_text n1 n2 && Sql.same_text i1 i2 && Sql.same_text t1 t2.

Definition agent_key_of (r : AgentExecution.t) : agent_key :=
  (AgentExecution.agent_name r, AgentExecution.agent_id r, AgentExecution.agent_type r).

Definition sum_cost (rows : table) : option Q :=
  Sql.sum_num (map AgentExecution.cost_usd rows).

Definition sum_tokens (rows : table) : option Z :=
  Sql.sum_int (map AgentExecution.total_tokens rows).

Definition avg_time (rows : table) : option Q :=
  Sql.avg_int (map AgentExecution.execution_time_ms rows).

(** One row of the top-agents query turned into its result object. *)
Definition top_agent (g : agent_key * table) : result TopAgentDTO.t :=
  let '((name, aid, atype), rows) := g in
  let count := Sql.count rows in
  let success_count := count_status ExecutionStatus.success rows in
  rate <- (if count >? 0
           then percent_of (inject_Z (or_zero success_count)) (inject_Z count)
           else Ok 0%Q) ;;
  Ok {| TopAgentDTO.agent_name := or_unknown name;
        TopAgentDTO.agent_id := aid;
        TopAgentDTO.agent_type := atype;
        TopAgentDTO.execution_count := count;
        TopAgentDTO.success_count := or_zero success_count;
        TopAgentDTO.failure_count := or_zero (count_status ExecutionStatus.failure rows);
        TopAgentDTO.success_rate := rate;
        TopAgentDTO.avg_execution_time_ms := or_zero_num (avg_time rows);
        TopAgentDTO.total_tokens := or_zero (sum_tokens rows);
        TopAgentDTO.total_cost_usd := or_zero_num (sum_cost rows) |}.

(** The top-agents query: named agents of the window grouped by name, id
    and type, most executions first, ten rows. *)
Definition top_agents_query (rows : table) : list (agent_key * table) :=
  firstn 10
    (Sql.order_by (fun a b => Sql.count (snd b) <=? Sql.count (snd a))
       (Sql.group_by agent_key_eqb agent_key_of
          (filter (fun r => Sql.is_not_null (AgentExecution.agent_name r)) rows))).

(** One row of a cost query turned into its result object;
    [row.cost / total_cost] needs a cost that is not [NULL]. *)
Definition cost_percentage (cost : option Q) (total_cost : Q) : result Q :=
  if positive_num total_cost
  then match cost with
       | Some c => percent_of c total_cost
       | None => Err TypeError
       end
  else Ok 0%Q.

Definition cost_breakdown (total_cost : Q) (g : option string * table)
  : result CostBreakdownDTO.t :=
  let '(model, rows) := g in
  pct <- cost_percentage (sum_cost rows) total_cost ;;
  Ok {| CostBreakdownDTO.name := or_unknown model;
        CostBreakdownDTO.category := "model";
        CostBreakdownDTO.total_cost_usd := or_zero_num (sum_cost rows);
        CostBreakdownDTO.percentage := pct;
        CostBreakdownDTO.execution_count := Sql.count rows;
        CostBreakdownDTO.total_tokens := or_zero (sum_tokens rows) |}.

Definition by_cost_desc {K : Type} (a b : K * table) : bool :=
  Qle_bool (or_zero_num (sum_cost (snd b))) (or_zero_num (sum_cost (snd a))).

(** The cost-by-model query: rows with a model name grouped by it, highest
    cost first. *)
Definition model_cost_query (rows : table) : list (option string * table) :=
  Sql.order_by by_cost_desc
    (Sql.group_by Sql.same_text AgentExecution.model_name
       (filter (fun r => Sql.is_not_null (AgentExecution.model_name r)) rows)).

Definition calc_change (current previous : Q) : result (option Q) :=
  if Qeq_bool previous 0 then Ok None
  else x <- Py.div (current - previous) previous ;; Ok (Some (x * 100)%Q).

Definition active_agents (rows : table) : Z :=
  Sql.count
    (Sql.distinct
       (flat_map (fun r => match AgentExecution.agent_id r with
                           | Some a => [a]
                           | None => []
                           end) rows)).

(** [total_cost * 30 if period_length.days == 1
     else total_cost * 30 / max(period_length.days, 1)] *)
Definition estimated_monthly_cost (total_cost : Q) (period_length : timedelta)
  : result Q :=
  if days period_length =? 1 then Ok (total_cost * 30)%Q
  else Py.div (total_cost * 30)%Q (inject_Z (Z.max (days period_length) 1)).

Definition get_overview (now : datetime) (db : table) (user_id : option string)
  (start_date end_date : option datetime) : result AnalyticsOverviewDTO.t :=
  let end_date := match end_date with
                  | Some e => e
                  | None => now
                  end in
  start_date <- default_start start_date end_date (timedelta_hours 24) ;;
  let rows := filter (overview_filters user_id start_date end_date) db in
  let total_executions := Sql.count rows in
  let successful_executions := or_zero (count_status ExecutionStatus.success rows) in
  let failed_executions := or_zero (count_status ExecutionStatus.failure rows) in
  success_rate <-
    (if total_executions >? 0
     then percent_of (inject_Z successful_executions) (inject_Z total_executions)
     else Ok 0%Q) ;;
  let times := overview_times rows in
  p50 <- p50 times ;;
  p95 <- p95 times ;;
  p99 <- p99 times ;;
  top_agents <- mapM top_agent (top_agents_query rows) ;;
  let total_cost := or_zero_num (sum_cost rows) in
  cost_by_model <- mapM (cost_breakdown total_cost) (model_cost_query rows) ;;
  let period_length := end_date - start_date in
  prev_start <- datetime_sub start_date period_length ;;
  let prev_end := start_date in
  let prev_rows := filter (prev_filters user_id prev_start prev_end) db in
  let prev_total := Sql.count prev_rows in
  let prev_successful := or_zero (count_status ExecutionStatus.success prev_rows) in
  prev_success_rate <-
    (if prev_total >? 0
     then percent_of (inject_Z prev_successful) (inject_Z prev_total)
     else Ok 0%Q) ;;
  let prev_avg_time := or_zero_num (avg_time prev_rows) in
  let prev_cost := or_zero_num (sum_cost prev_rows) in
  let active_agents := active_agents rows in
  estimated <- estimated_monthly_cost total_cost period_length ;;
  executions_change <- calc_change (inject_Z total_executions) (inject_Z prev_total) ;;
  execution_time_change <- calc_change (or_zero_num (avg_time rows)) prev_avg_time ;;
  success_rate_change <- calc_change success_rate prev_success_rate ;;
  cost_change <- calc_change total_cost prev_cost ;;
  Ok {| AnalyticsOverviewDTO.total_executions := total_executions;
        AnalyticsOverviewDTO.successful_executions := successful_executions;
        AnalyticsOverviewDTO.failed_executions := failed_executions;
        AnalyticsOverviewDTO.success_rate := success_rate;
        AnalyticsOverviewDTO.avg_execution_time_ms := or_zero_num (avg_time rows);
        AnalyticsOverviewDTO.p50_execution_time_ms := p50;
        AnalyticsOverviewDTO.p95_execution_time_ms := p95;
        AnalyticsOverviewDTO.p99_execution_time_ms := p99;
        AnalyticsOverviewDTO.total_input_tokens :=
          or_zero (Sql.sum_int (map AgentExecution.input_tokens rows));
        AnalyticsOverviewDTO.total_output_tokens :=
          or_zero (Sql.sum_int (map AgentExecution.output_tokens rows));
        AnalyticsOverviewDTO.total_tokens := or_zero (sum_tokens rows);
        AnalyticsOverviewDTO.total_cost_usd := total_cost;
        AnalyticsOverviewDTO.estimated_monthly_cost_usd := estimated;
        AnalyticsOverviewDTO.executions_change_percent := executions_change;
        AnalyticsOverviewDTO.execution_time_change_percent := execution_time_change;
        AnalyticsOverviewDTO.success_rate_change_percent := success_rate_change;
        AnalyticsOverviewDTO.cost_change_percent := cost_change;
        AnalyticsOverviewDTO.active_agents_count := active_agents;
        AnalyticsOverviewDTO.top_agents := top_agents;
        AnalyticsOverviewDTO.cost_by_model := cost_by_model |}.

(** [get_agent_stats]: the first row of the statistics of one agent grouped
    by name and type, or nothing when no row matches. *)
Definition agent_stats_filters (agent_id : string) (user_id : option string)
  (start_date end_date : datetime) (r : AgentExecution.t) : bool :=
  Sql.text_is (AgentExecution.agent_id r) agent_id
  && (start_date <=? AgentExecution.started_at r)
  && (AgentExecution.started_at r <=? end_date)
  && user_filter user_id r.

Definition stats_key_eqb (a b : option string * option string) : bool :=
  Sql.same_text (fst a) (fst b) && Sql.same_text (snd a) (snd b).

Definition get_agent_stats (now : datetime) (db : table) (agent_id : string)
  (user_id : option string) (start_date end_date : option datetime)
  : result (option AgentStatsDTO.t) :=
  let end_date := match end_date with Some e => e | None => now end in
  start_date <- default_start start_date end_date (timedelta_days 30) ;;
  let rows := filter (agent_stats_filters agent_id user_id start_date end_date) db in
  let groups :=
    Sql.group_by stats_key_eqb
      (fun r => (AgentExecution.agent_name r, AgentExecution.agent_type r)) rows in
  match groups with
  | [] => Ok None
  | ((name, atype), stats) :: _ =>
      let total := Sql.count stats in
      let successful := or_zero (count_status ExecutionStatus.success stats) in
      let total_cost := or_zero_num (sum_cost stats) in
      success_rate <-
        (if total >? 0 then percent_of (inject_Z successful) (inject_Z total)
         else Ok 0%Q) ;;
      avg_cost <-
        (if total >? 0 then Py.div total_cost (inject_Z total) else Ok 0%Q) ;;
      Ok (Some
        {| AgentStatsDTO.agent_id := agent_id;
           AgentStatsDTO.agent_name := or_unknown name;
           AgentStatsDTO.agent_type := atype;
           AgentStatsDTO.total_executions := total;
           AgentStatsDTO.successful_executions := successful;
           AgentStatsDTO.failed_executions :=
             or_zero (count_status ExecutionStatus.failure stats);
           AgentStatsDTO.timeout_executions :=
             or_zero (count_status ExecutionStatus.timeout stats);
           AgentStatsDTO.success_rate := success_rate;
           AgentStatsDTO.avg_execution_time_ms := or_zero_num (avg_time stats);
           AgentStatsDTO.min_execution_time_ms :=
             or_zero (Sql.min_int (map AgentExecution.execution_time_ms stats));
           AgentStatsDTO.max_execution_time_ms :=
             or_zero (Sql.max_int (map AgentExecution.execution_time_ms stats));
           AgentStatsDTO.avg_input_tokens :=
             or_zero_num (Sql.avg_int (map AgentExecution.input_tokens stats));
           AgentStatsDTO.avg_output_tokens :=
             or_zero_num (Sql.avg_int (map AgentExecution.output_tokens stats));
           AgentStatsDTO.total_tokens := or_zero (sum_tokens stats);
           AgentStatsDTO.total_cost_usd := total_cost;
           AgentStatsDTO.avg_cost_per_execution_usd := avg_cost;
           AgentStatsDTO.last_executed_at :=
             Sql.max_int (map AgentExecution.started_at stats);
           AgentStatsDTO.first_executed_at :=
             Sql.min_int (map AgentExecution.started_at stats) |})
  end.

(** [get_cost_summary]: the rows of its two breakdowns. *)
Record cost_by_model_row : Type := {
  cm_model : string;
  cm_cost_usd : Q;
  cm_execution_count : Z;
  cm_percentage : Q
}.

Record cost_by_agent_row : Type := {
  ca_agent_name : string;
  ca_agent_id : option string;
  ca_cost_usd : Q;
  ca_execution_count : Z;
  ca_percentage : Q
}.

Record cost_summary : Type := {
  cs_total_cost_usd : Q;
  cs_period_days : Z;
  cs_by_model : list cost_by_model_row;
  cs_by_agent : list cost_by_agent_row
}.

Definition agent_cost_key_eqb (a b : option string * option string) : bool :=
  Sql.same_text (fst a) (fst b) && Sql.same_text (snd a) (snd b).

Definition get_cost_summary (now : datetime) (db : table) (user_id : option string)
  (start_date end_date : option datetime) : result cost_summary :=
  let end_date := match end_date with Some e => e | None => now end in
  start_date <- default_start start_date end_date (timedelta_days 30) ;;
  let rows := filter (overview_filters user_id start_date end_date) db in
  let total_cost := or_zero_num (sum_cost rows) in
  by_model <-
    mapM (fun g : option string * table =>
            pct <- cost_percentage (sum_cost (snd g)) total_cost ;;
            Ok {| cm_model := or_unknown (fst g);
                  cm_cost_usd := or_zero_num (sum_cost (snd g));
                  cm_execution_count := Sql.count (snd g);
                  cm_percentage := pct |})
         (Sql.order_by by_cost_desc
            (Sql.group_by Sql.same_text AgentExecution.model_name rows)) ;;
  by_agent <-
    mapM (fun g : (option string * option string) * table =>
            pct <- cost_percentage (sum_cost (snd g)) total_cost ;;
            Ok {| ca_agent_name := or_unknown (fst (fst g));
                  ca_agent_id := snd (fst g);
                  ca_cost_usd := or_zero_num (sum_cost (snd g));
                  ca_execution_count := Sql.count (snd g);
                  ca_percentage := pct |})
         (Sql.order_by by_cost_desc
            (Sql.group_by agent_cost_key_eqb
               (fun r => (AgentExecution.agent_name r, AgentExecution.agent_id r))
               rows)) ;;
  Ok {| cs_total_cost_usd := total_cost;
        cs_period_days := days (end_date - start_date);
        cs_by_model := by_model;
        cs_by_agent := by_agent |}.

(** The two windows of [get_cost_forecast]. *)
Definition forecast_current (now : datetime) (user_id : option string)
  (r : AgentExecution.t) : bool :=
  (now - timedelta_days 7 <=? AgentExecution.started_at r) && user_filter user_id r.

Definition forecast_prev (now : datetime) (user_id : option string)
  (r : AgentExecution.t) : bool :=
  (now - timedelta_days 7 - timedelta_days 7 <=? AgentExecution.started_at r)
  && (AgentExecution.started_at r <? now - timedelta_days 7)
  && user_filter user_id r.

Definition get_cost_forecast (now : datetime) (db : table) (user_id : option string)
  : result CostForecastDTO.t :=
  let current_cost := or_zero_num (sum_cost (filter (forecast_current now user_id) db)) in
  let prev_cost := or_zero_num (sum_cost (filter (forecast_prev now user_id) db)) in
  daily_avg <- Py.div current_cost 7 ;;
  let weekly_projected := current_cost in
  let monthly_projected := (daily_avg * 30)%Q in
  change_trend <-
    (if positive_num prev_cost
     then change <- percent_of (current_cost - prev_cost)%Q prev_cost ;;
          Ok (change,
              if num_gt change 10 then CostForecastDTO.increasing
              else if num_lt change (-10) then CostForecastDTO.decreasing
              else CostForecastDTO.stable)
     else Ok (0%Q, CostForecastDTO.stable)) ;;
  Ok {| CostForecastDTO.current_period_cost_usd := current_cost;
        CostForecastDTO.projected_monthly_cost_usd := monthly_projected;
        CostForecastDTO.projected_weekly_cost_usd := weekly_projected;
        CostForecastDTO.daily_average_cost_usd := daily_avg;
        CostForecastDTO.cost_trend := snd change_trend;
        CostForecastDTO.trend_percentage := fst change_trend |}.

(** ** [BudgetAlertRepository] *)

Definition get_active_by_user (alerts : list BudgetAlert.t) (user_id : string)
  : list BudgetAlert.t :=
  filter (fun a => String.eqb (BudgetAlert.user_id a) user_id && BudgetAlert.is_active a)
         alerts.

(** [start_date = datetime.utcnow() - timedelta(days=alert.period_days)]:
    the number of days comes from the alert, so both steps are checked. *)
Definition period_start (now : datetime) (alert : BudgetAlert.t) : result datetime :=
  delta <- timedelta_of_days (BudgetAlert.period_days alert) ;;
  datetime_sub now delta.

(** The spend filter of one alert: the owner, the rolling period, and the
    agent when the scope is ["agent"] with a scope id. *)
Definition budget_filters (start_date : datetime) (user_id : string) (alert : BudgetAlert.t)
  (r : AgentExecution.t) : bool :=
  Sql.text_is (AgentExecution.user_id r) user_id
  && (start_date <=? AgentExecution.started_at r)
  && (if String.eqb (BudgetScope.value (BudgetAlert.scope alert)) "agent"
         && Sql.is_not_null (BudgetAlert.scope_id alert)
      then match BudgetAlert.scope_id alert with
           | Some a => Sql.text_is (AgentExecution.agent_id r) a
           | None => true
           end
      else true).

(** [Decimal(str(result.scalar() or 0))] *)
Definition spend_since (start_date : datetime) (db : table) (user_id : string)
  (alert : BudgetAlert.t) : Q :=
  or_zero_num (sum_cost (filter (budget_filters start_date user_id alert) db)).

(** The spend of an alert whose period starts at a representable date. *)
Definition current_spend (now : datetime) (db : table) (user_id : string)
  (alert : BudgetAlert.t) : Q :=
  spend_since (now - timedelta_days (BudgetAlert.period_days alert)) db user_id alert.

(** [threshold_usd * Decimal(str(alert_at_percentage)) / 100] *)
Definition alert_threshold (alert : BudgetAlert.t) : result Q :=
  Py.div (BudgetAlert.threshold_usd alert * inject_Z (BudgetAlert.alert_at_percentage alert))%Q
         100.

Fixpoint check_alerts (now : datetime) (db : table) (user_id : string)
  (alerts : list BudgetAlert.t) : result (list (BudgetAlert.t * Q)) :=
  match alerts with
  | [] => Ok []
  | alert :: rest =>
      start_date <- period_start now alert ;;
      let spend := spend_since start_date db user_id alert in
      threshold <- alert_threshold alert ;;
      exceeded <- check_alerts now db user_id rest ;;
      Ok (if Qle_bool threshold spend then (alert, spend) :: exceeded else exceeded)
  end.

Definition check_budget_exceeded (now : datetime) (alerts : list BudgetAlert.t)
  (db : table) (user_id : string) : result (list (BudgetAlert.t * Q)) :=
  check_alerts now db user_id (get_active_by_user alerts user_id).

(** ** Routes ([routes/analytics/routes.py]) *)

Definition parse_period (now : datetime) (period : string) : datetime * datetime :=
  if String.eqb period "24h" then (now - timedelta_hours 24, now)
  else if String.eqb period "7d" then (now - timedelta_days 7, now)
  else if String.eqb period "30d" then (now - timedelta_days 30, now)
  else if String.eqb period "90d" then (now - timedelta_days 90, now)
  else (now - timedelta_hours 24, now).

(** [if start_date and end_date: pass
     else: start_date, end_date = parse_period(period)] *)
Definition route_window (now : datetime) (period : string)
  (start_date end_date : option datetime) : datetime * datetime :=
  match start_date, end_date with
  | Some s, Some e => (s, e)
  | _, _ => parse_period now period
  end.

(** What an export carries; the CSV and JSON text around it is not
    modelled. *)
Inductive export : Type :=
| CsvExport (rows : list AgentExecutionSummaryDTO.t)
| JsonExport (period_start period_end : datetime) (total_records : Z)
             (executions : list AgentExecutionSummaryDTO.t).

Definition export_items (e : export) : list AgentExecutionSummaryDTO.t :=
  match e with
  | CsvExport rows => rows
  | JsonExport _ _ _ executions => executions
  end.

Definition export_filters (user : string) (start_date end_date : datetime)
  : list_filters :=
  {| f_user_id := Some user;
     f_agent_id := None;
     f_agent_type := None;
     f_model_name := None;
     f_status := None;
     f_start_date := Some start_date;
     f_end_date := Some end_date |}.

Definition export_analytics_data (now : datetime) (db : table) (user : string)
  (format period : string) (start_date end_date : option datetime) : result export :=
  let '(start_date, end_date) := route_window now period start_date end_date in
  paginated <-
    list_paginated db (export_filters user start_date end_date)
                   1 10000 "started_at" "desc" ;;
  if String.eqb format "csv"
  then Ok (CsvExport (PaginatedExecutionsDTO.items paginated))
  else Ok (JsonExport start_date end_date
             (PaginatedExecutionsDTO.total paginated)
             (PaginatedExecutionsDTO.items paginated)).

Record model_comparison : Type := {
  mc_model_name : option string;
  mc_execution_count : Z;
  mc_success_count : Z;
  mc_success_rate : Q;
  mc_avg_execution_time_ms : Q;
  mc_avg_tokens : Q;
  mc_total_tokens : Z;
  mc_total_cost_usd : Q
}.

Definition compare_filters (user : string) (start_date end_date : datetime)
  (r : AgentExecution.t) : bool :=
  Sql.text_is (AgentExecution.user_id r) user
  && (start_date <=? AgentExecution.started_at r)
  && (AgentExecution.started_at r <=? end_date)
  && Sql.is_not_null (AgentExecution.model_name r).

Definition model_comparison_of (g : option string * table) : result model_comparison :=
  let '(model, rows) := g in
  let execution_count := Sql.count rows in
  let success_count := or_zero (count_status ExecutionStatus.success rows) in
  rate <- (if execution_count >? 0
           then percent_of (inject_Z success_count) (inject_Z execution_count)
           else Ok 0%Q) ;;
  Ok {| mc_model_name := model;
        mc_execution_count := execution_count;
        mc_success_count := success_count;
        mc_success_rate := rate;
        mc_avg_execution_time_ms := or_zero_num (avg_time rows);
        mc_avg_tokens := or_zero_num (Sql.avg_int (map AgentExecution.total_tokens rows));
        mc_total_tokens := or_zero (sum_tokens rows);
        mc_total_cost_usd := or_zero_num (sum_cost rows) |}.

Definition compare_models (now : datetime) (db : table) (user : string)
  (period : string) (start_date end_date : option datetime)
  : result (list model_comparison) :=
  let '(start_date, end_date) := route_window now period start_date end_date in
  mapM model_comparison_of
    (Sql.order_by (fun a b => Sql.count (snd b) <=? Sql.count (snd a))
       (Sql.group_by Sql.same_text AgentExecution.model_name
          (filter (compare_filters user start_date end_date) db))).

(** ** Further repository functions ([repositories/analytics.py]) *)

(** [get_by_request_id]: the executions of a request, oldest first. *)
Definition get_by_request_id (db : table) (request_id : string) : table :=
  Sql.order_by
    (fun a b => AgentExecution.started_at a <=? AgentExecution.started_at b)
    (filter (fun r => String.eqb (AgentExecution.request_id r) request_id) db).

(** [get_by_session_id]: the executions of a session, newest first, cut at
    [limit]. *)
Definition get_by_session_id (db : table) (session_id : string) (limit : Z)
  : result table :=
  Sql.offset_limit 0 limit
    (Sql.order_by
       (fun a b => AgentExecution.started_at b <=? AgentExecution.started_at a)
       (filter (fun r => String.eqb (AgentExecution.session_id r) session_id) db)).

Module ExecutionTraceStepType.
Inductive t : Type :=
  thought | action | observation | agent_invoke | tool_call | final_answer.
End ExecutionTraceStepType.

Module TokenUsage.
Record t : Type := {
  id : string;
  execution_id : string;
  component : string;
  step_number : option Z;
  input_tokens : Z;
  output_tokens : Z;
  model : option string;
  cost_usd : Q
}.
End TokenUsage.

Module ExecutionTrace.
Record t : Type := {
  id : string;
  execution_id : string;
  step_number : Z;
  step_type : ExecutionTraceStepType.t;
  content : option string;
  invoked_agent_id : option string;
  invoked_agent_name : option string;
  timestamp : datetime;
  duration_ms : Z;
  input_tokens : option Z;
  output_tokens : option Z
}.
End ExecutionTrace.

(** [TokenUsageRepository.get_by_execution]: the usage records of an
    execution by step number; records without a step number come last. *)
Definition token_usages_by_execution (usages : list TokenUsage.t) (execution_id : string)
  : list TokenUsage.t :=
  Sql.order_by
    (fun a b => Sql.value_leb (opt_int (TokenUsage.step_number a))
                              (opt_int (TokenUsage.step_number b)))
    (filter (fun u => String.eqb (TokenUsage.execution_id u) execution_id) usages).

(** [ExecutionTraceRepository.get_by_execution]: the trace of an execution
    by step number. *)
Definition traces_by_execution (traces : list ExecutionTrace.t) (execution_id : string)
  : list ExecutionTrace.t :=
  Sql.order_by
    (fun a b => ExecutionTrace.step_number a <=? ExecutionTrace.step_number b)
    (filter (fun t => String.eqb (ExecutionTrace.execution_id t) execution_id) traces).

(** The three analytics tables. *)
Record database : Type := {
  executions : table;
  traces : list ExecutionTrace.t;
  token_usages : list TokenUsage.t
}.

(** An execution with its related rows loaded ([selectinload]). *)
Record execution_details : Type := {
  d_execution : AgentExecution.t;
  d_traces : list ExecutionTrace.t;
  d_token_usages : list TokenUsage.t
}.

(** [get_with_details]: the first execution with the id, with its traces
    and token usages. *)
Definition get_with_details (db : database) (execution_id : string)
  : option execution_details :=
  match filter (fun r => String.eqb (AgentExecution.id r) execution_id) (executions db) with
  | [] => None
  | e :: _ =>
      Some {| d_execution := e;
              d_traces :=
                filter (fun t => String.eqb (ExecutionTrace.execution_id t)
                                            (AgentExecution.id e)) (traces db);
              d_token_usages :=
                filter (fun u => String.eqb (TokenUsage.execution_id u)
                                            (AgentExecution.id e)) (token_usages db) |}
  end.

(** ** Further routes ([routes/analytics/routes.py]) *)

(** What a route answers: its result, an [HTTPException] with its status
    code, or an exception that escapes the handler. *)
Inductive response (A : Type) : Type :=
| Success (a : A)
| HTTPException (status_code : Z) (detail : string)
| Unhandled (e : exn).

Arguments Success {A} a.
Arguments HTTPException {A} status_code detail.
Arguments Unhandled {A} e.

Definition respond {A : Type} (m : result A) : response A :=
  match m with
  | Ok a => Success a
  | Err e => Unhandled e
  end.

(** [GET /overview] *)
Definition get_analytics_overview (now : datetime) (db : table) (user period : string)
  (start_date end_date : option datetime) : response AnalyticsOverviewDTO.t :=
  let '(start_date, end_date) := route_window now period start_date end_date in
  respond (get_overview now db (Some user) (Some start_date) (Some end_date)).

(** The query parameters of [GET /executions]; [page] and [page_size]
    carry the bounds [ge=1] and [ge=1, le=100], which the framework checks
    before the handler runs (status 422). *)
Record list_query : Type := {
  q_period : string;
  q_start_date : option datetime;
  q_end_date : option datetime;
  q_agent_id : option string;
  q_agent_type : option string;
  q_model_name : option string;
  q_status : option ExecutionStatus.t;
  q_page : Z;
  q_page_size : Z;
  q_sort_by : string;
  q_sort_order : string
}.

Definition list_executions (now : datetime) (db : table) (user : string) (q : list_query)
  : response PaginatedExecutionsDTO.t :=
  if (q_page q <? 1) || (q_page_size q <? 1) || (100 <? q_page_size q)
  then HTTPException 422 "validation error"
  else
    let '(start_date, end_date) :=
      route_window now (q_period q) (q_start_date q) (q_end_date q) in
    respond
      (list_paginated db
         {| f_user_id := Some user;
            f_agent_id := q_agent_id q;
            f_agent_type := q_agent_type q;
            f_model_name := q_model_name q;
            f_status := q_status q;
            f_start_date := Some start_date;
            f_end_date := Some end_date |}
         (q_page q) (q_page_size q) (q_sort_by q) (q_sort_order q)).

(** [GET /executions/{execution_id}]: the detail view keeps the execution
    row and its related rows; the field-by-field copies into the result
    objects are not spelled out.  The owner column holds a UUID or NULL, so
    [if execution.user_id] asks whether the row has an owner. *)
Definition get_execution_details (db : database) (user execution_id : string)
  : response execution_details :=
  match get_with_details db execution_id with
  | None => HTTPException 404 "Execution not found"
  | Some d =>
      match AgentExecution.user_id (d_execution d) with
      | Some owner =>
          if negb (String.eqb owner user) then HTTPException 403 "Access denied"
          else Success d
      | None => Success d
      end
  end.

(** [GET /agents/{agent_id}/stats] *)
Definition get_agent_stats_route (now : datetime) (db : table) (user agent_id period : string)
  (start_date end_date : option datetime) : response AgentStatsDTO.t :=
  let '(start_date, end_date) := route_window now period start_date end_date in
  match get_agent_stats now db agent_id (Some user) (Some start_date) (Some end_date) with
  | Ok (Some stats) => Success stats
  | Ok None => HTTPException 404 "No data found for this agent"
  | Err e => Unhandled e
  end.

(** [GET /budgets]: the caller's active alerts. *)
Definition list_budget_alerts (alerts : list BudgetAlert.t) (user : string)
  : list BudgetAlert.t :=
  get_active_by_user alerts user.

(** [PATCH /budgets/{alert_id}] and [DELETE /budgets/{alert_id}].  The
    generic [get], [update] and [delete] of the repository base class are
    parameters: the routes are modelled for any store behind them. *)
Section BudgetRoutes.
Variable store : Type.
Variable patch : Type.
Variable crud_get : store -> string -> option BudgetAlert.t.
Variable crud_update : store -> BudgetAlert.t -> patch -> store * BudgetAlert.t.
Variable crud_delete : store -> string -> store.

Definition update_budget_alert (db : store) (user alert_id : string) (alert_data : patch)
  : store * response BudgetAlert.t :=
  match crud_get db alert_id with
  | None => (db, HTTPException 404 "Budget alert not found")
  | Some alert =>
      if negb (String.eqb (BudgetAlert.user_id alert) user)
      then (db, HTTPException 403 "Access denied")
      else let '(db', updated) := crud_update db alert alert_data in
           (db', Success updated)
  end.

Definition delete_budget_alert (db : store) (user alert_id : string)
  : store * response string :=
  match crud_get db alert_id with
  | None => (db, HTTPException 404 "Budget alert not found")
  | Some alert =>
      if negb (String.eqb (BudgetAlert.user_id alert) user)
      then (db, HTTPException 403 "Access denied")
      else (crud_delete db alert_id, Success alert_id)
  end.
End BudgetRoutes.

(** Rows the percentile code can index: a Python list holds far fewer than
    [2^47] entries. *)
Definition fits_in_memory (db : table) : Prop := Sql.count db < 2 ^ 47.

(** ** Windows and ranges *)

(** The window of the overview: the end defaults to the current time, the
    start to 24 hours before the end. *)
Definition overview_window (now : datetime) (start_date end_date : option datetime)
  : datetime * datetime :=
  let end_date := match end_date with
                  | Some e => e
                  | None => now
                  end in
  let start_date := match start_date with
                    | Some s => s
                    | None => end_date - timedelta_hours 24
                    end in
  (start_date, end_date).

(** The window of the agent statistics and of the cost summary: the end
    defaults to the current time, the start to 30 days before the end. *)
Definition month_window (now : datetime) (start_date end_date : option datetime)
  : datetime * datetime :=
  let end_date := match end_date with
                  | Some e => e
                  | None => now
                  end in
  let start_date := match start_date with
                    | Some s => s
                    | None => end_date - timedelta_days 30
                    end in
  (start_date, end_date).

(** A date Python can hold: between 0001-01-01T00:00:00 and
    9999-12-31T23:59:59.999999, in microseconds since 1970-01-01. *)
Definition representable (d : datetime) : Prop :=
  -62135596800000000 <= d <= 253402300799999999.

(** The dates the overview computes are dates Python can hold: the start
    of the window and the start of the comparison window. *)
Definition window_representable (now : datetime) (start_date end_date : option datetime)
  : Prop :=
  let start := fst (overview_window now start_date end_date) in
  let stop := snd (overview_window now start_date end_date) in
  representable start /\ representable (start - (stop - start)).

(** The rolling period of an alert is one Python can compute: at most
    999999999 days, starting at a date it can hold. *)
Definition period_representable (now : datetime) (alert : BudgetAlert.t) : Prop :=
  (-999999999 <= BudgetAlert.period_days alert <= 999999999) /\
  representable (now - BudgetAlert.period_days alert * 86400000000).

(** ** Predicates on result rows *)

(** The success rate of a top-agents row is the guarded percentage of its
    own counts. *)

Definition top_agent_rate_ok (t : TopAgentDTO.t) : Prop :=
  (0 < TopAgentDTO.execution_count t ->
   TopAgentDTO.success_rate t
   = (inject_Z (TopAgentDTO.success_count t)
      / inject_Z (TopAgentDTO.execution_count t) * 100)%Q) /\
  (TopAgentDTO.execution_count t = 0 -> TopAgentDTO.success_rate t = 0%Q).

(** The share of a cost row is the guarded percentage of its own cost in
    the total. *)
Definition cost_share_ok (total_cost : Q) (c : CostBreakdownDTO.t) : Prop :=
  ((0 < total_cost)%Q ->
   CostBreakdownDTO.percentage c
   = (CostBreakdownDTO.total_cost_usd c / total_cost * 100)%Q) /\
  (total_cost == 0 -> CostBreakdownDTO.percentage c = 0%Q).

(** A computation that stops on a division whose divisor is zero. *)
Definition divides_by_zero {A : Type} (m : result A) : Prop :=
  m = Err ZeroDivisionError.

(** The success rate of a model-comparison row is the guarded percentage of
    its own counts. *)
Definition model_rate_ok (m : model_comparison) : Prop :=
  (0 < mc_execution_count m ->
   mc_success_rate m
   = (inject_Z (mc_success_count m) / inject_Z (mc_execution_count m) * 100)%Q) /\
  (mc_execution_count m = 0 -> mc_success_rate m = 0%Q).

(** The share of a cost-summary row is the guarded percentage of its own
    cost in the total. *)
Definition share_ok (total_cost cost pct : Q) : Prop :=
  ((0 < total_cost)%Q -> pct = (cost / total_cost * 100)%Q) /\
  (total_cost == 0 -> pct = 0%Q).


(** The alert with its scope restriction removed: a user-level alert over
    the same period. *)
Definition unscoped (alert : BudgetAlert.t) : BudgetAlert.t :=
  {| BudgetAlert.id := BudgetAlert.id alert;
     BudgetAlert.user_id := BudgetAlert.user_id alert;
     BudgetAlert.scope := BudgetScope.user;
     BudgetAlert.scope_id := None;
     BudgetAlert.threshold_usd := BudgetAlert.threshold_usd alert;
     BudgetAlert.period_days := BudgetAlert.period_days alert;
     BudgetAlert.alert_type := BudgetAlert.alert_type alert;
     BudgetAlert.alert_at_percentage := BudgetAlert.alert_at_percentage alert;
     BudgetAlert.is_active := BudgetAlert.is_active alert;
     BudgetAlert.current_spend_usd := BudgetAlert.current_spend_usd alert |}.


(** The value a listing sorted by a column name is ordered on. *)
Definition sort_key (sort_by : string) (r : AgentExecution.t) : Sql.value :=
  match column sort_by with
  | Some c => c r
  | None => Sql.VInt (AgentExecution.started_at r)
  end.

(** The matching executions in the order [list_paginated] pages through. *)
Definition listing (db : table) (f : list_filters) (sort_by sort_order : string) : table :=
  let asc a b := Sql.value_leb (sort_key sort_by a) (sort_key sort_by b) in
  if String.eqb sort_order "desc"
  then Sql.order_by (fun a b => asc b a) (filter (list_where f) db)
  else Sql.order_by asc (filter (list_where f) db).

(** The order of a listing: descending on the sort column exactly when the
    sort order is ["desc"], ascending for every other word. *)
Definition listing_order (sort_by sort_order : string) (a b : AgentExecution.t) : Prop :=
  if String.eqb sort_order "desc"
  then Sql.value_leb (sort_key sort_by b) (sort_key sort_by a) = true
  else Sql.value_leb (sort_key sort_by a) (sort_key sort_by b) = true.

(** Values of one column are of one kind, apart from [NULL]. *)
Definition same_kind (a b : Sql.value) : Prop :=
  match a, b with
  | Sql.VNull, _ | _, Sql.VNull => True
  | Sql.VInt _, Sql.VInt _ | Sql.VNum _, Sql.VNum _ | Sql.VText _, Sql.VText _ => True
  | _, _ => False
  end.

(** No two of the rows tie on the sort column: the order of the listing is
    then the only one the database can return. *)
Definition no_ties (sort_by : string) (rows : table) : Prop :=
  ForallOrdPairs
    (fun a b => Sql.value_leb (sort_key sort_by a) (sort_key sort_by b)
                && Sql.value_leb (sort_key sort_by b) (sort_key sort_by a) = false)
    rows.

(** The filters [GET /executions] builds from its query. *)
Definition query_filters (now : datetime) (user : string) (q : list_query) : list_filters :=
  let window := route_window now (q_period q) (q_start_date q) (q_end_date q) in
  {| f_user_id := Some user;
     f_agent_id := q_agent_id q;
     f_agent_type := q_agent_type q;
     f_model_name := q_model_name q;
     f_status := q_status q;
     f_start_date := Some (fst window);
     f_end_date := Some (snd window) |}.

(** Filters that scope by owner only. *)
Definition owner_filters (user_id : option string) : list_filters :=
  {| f_user_id := user_id;
     f_agent_id := None;
     f_agent_type := None;
     f_model_name := None;
     f_status := None;
     f_start_date := None;
     f_end_date := None |}.

Definition sample_query : list_query :=
  {| q_period := "24h";
     q_start_date := Some 0;
     q_end_date := Some 100;
     q_agent_id := None;
     q_agent_type := None;
     q_model_name := None;
     q_status := None;
     q_page := 1;
     q_page_size := 20;
     q_sort_by := "started_at";
     q_sort_order := "desc" |}.

(** Order of optional step numbers: ascending, a missing number after
    every number. *)
Definition step_le (a b : option Z) : Prop :=
  match a, b with
  | _, None => True
  | None, Some _ => False
  | Some x, Some y => x <= y
  end.

(** ** Sample data *)

Definition sample_execution (name : string) (agent : option string)
  (started : datetime) (st : ExecutionStatus.t) (ms : Z) (cost : Q)
  : AgentExecution.t :=
  {| AgentExecution.id := name;
     AgentExecution.request_id := "req";
     AgentExecution.session_id := "ses";
     AgentExecution.agent_id := agent;
     AgentExecution.agent_type := Some "genai"%string;
     AgentExecution.agent_name := agent;
     AgentExecution.user_id := Some "u1"%string;
     AgentExecution.model_config_id := None;
     AgentExecution.model_name := Some "gpt"%string;
     AgentExecution.started_at := started;
     AgentExecution.completed_at := Some (started + ms * 1000);
     AgentExecution.status := st;
     AgentExecution.error_message := None;
     AgentExecution.error_type := None;
     AgentExecution.input_tokens := 7;
     AgentExecution.output_tokens := 5;
     AgentExecution.total_tokens := 12;
     AgentExecution.execution_time_ms := ms;
     AgentExecution.llm_time_ms := Some (ms / 2);
     AgentExecution.cost_usd := cost;
     AgentExecution.parent_execution_id := None;
     AgentExecution.query_preview := None;
     AgentExecution.created_at := started;
     AgentExecution.updated_at := started + ms * 1000 |}.

Definition sample_db : table :=
  [ sample_execution "e1" (Some "a1"%string) 10 ExecutionStatus.success 30 0.50;
    sample_execution "e2" (Some "a2"%string) 20 ExecutionStatus.failure 0 0;
    sample_execution "e3" (Some "a1"%string) 30 ExecutionStatus.success 10 0.25;
    sample_execution "e4" None 100 ExecutionStatus.success 20 79.24 ].

Definition sample_alert : BudgetAlert.t :=
  {| BudgetAlert.id := "b1";
     BudgetAlert.user_id := "u1";
     BudgetAlert.scope := BudgetScope.flow;
     BudgetAlert.scope_id := Some "f1"%string;
     BudgetAlert.threshold_usd := 100;
     BudgetAlert.period_days := 30;
     BudgetAlert.alert_type := BudgetAlertType.warning;
     BudgetAlert.alert_at_percentage := 80;
     BudgetAlert.is_active := true;
     BudgetAlert.current_spend_usd := 0 |}.

(** The sample alert with a period of a million days. *)
Definition sample_long_alert : BudgetAlert.t :=
  {| BudgetAlert.id := "b2";
     BudgetAlert.user_id := "u1";
     BudgetAlert.scope := BudgetScope.user;
     BudgetAlert.scope_id := None;
     BudgetAlert.threshold_usd := 100;
     BudgetAlert.period_days := 1000000;
     BudgetAlert.alert_type := BudgetAlertType.warning;
     BudgetAlert.alert_at_percentage := 80;
     BudgetAlert.is_active := true;
     BudgetAlert.current_spend_usd := 0 |}.

Definition sample_filters : list_filters :=
  {| f_user_id := Some "u1"%string;
     f_agent_id := None;
     f_agent_type := None;
     f_model_name := None;
     f_status := None;
     f_start_date := Some 0;
     f_end_date := Some 100 |}.

(** * Properties *)

(** ** Binary64 rounding and the percentile indices *)

Module Float64Facts.
Import Float64.

Lemma digits2_pos_bounds (p : positive) :
  2 ^ (Zpos (digits2_pos p) - 1) <= Zpos p < 2 ^ Zpos (digits2_pos p).
Proof.
  induction p as [p IH | p IH | ]; simpl digits2_pos.
  - rewrite Pos2Z.inj_succ.
    replace (Z.succ (Zpos (digits2_pos p)) - 1) with (Z.succ (Zpos (digits2_pos p) - 1)) by lia.
    rewrite !Z.pow_succ_r by lia. lia.
  - rewrite Pos2Z.inj_succ.
    replace (Z.succ (Zpos (digits2_pos p)) - 1) with (Z.succ (Zpos (digits2_pos p) - 1)) by lia.
    rewrite !Z.pow_succ_r by lia. lia.
  - simpl. lia.
Qed.

Lemma digits2_pos_unique (p : positive) (k : Z) :
  2 ^ (k - 1) <= Zpos p < 2 ^ k -> Zpos (digits2_pos p) = k.
Proof.
  intros [Hlo Hhi].
  pose proof (digits2_pos_bounds p) as [Blo Bhi].
  assert (Hk : 0 < k).
  { destruct (Z_lt_le_dec 0 k) as [|Hle]; [assumption|].
    destruct (Z.eq_dec k 0) as [->|Hne]; [simpl in Hhi; lia|].
    rewrite Z.pow_neg_r in Hhi by lia. lia. }
  destruct (Z_lt_le_dec (Zpos (digits2_pos p)) k) as [Hlt|Hge].
  - assert (2 ^ Zpos (digits2_pos p) <= 2 ^ (k - 1)) by (apply Z.pow_le_mono_r; lia). lia.
  - destruct (Z_lt_le_dec k (Zpos (digits2_pos p))) as [Hlt|Hle]; [|lia].
    assert (2 ^ k <= 2 ^ (Zpos (digits2_pos p) - 1)) by (apply Z.pow_le_mono_r; lia). lia.
Qed.

Lemma shr_inv_init (m : Z) : 0 <= m -> shr_inv m 0 (Build_shr_record m false false).
Proof.
  intros Hm. split; [assumption|]. exists 0. cbn [shr_m shr_r shr_s]. rewrite Z.pow_0_r. lia.
Qed.

Lemma shr_inv_step (m k : Z) (r : shr_record) :
  0 <= k -> shr_inv m k r -> shr_inv m (k + 1) (shr_1 r).
Proof.
  intros Hk [Hq [rem [Hm [Hrem Hloc]]]].
  assert (HW : 0 < 2 ^ k) by (apply Z.pow_pos_nonneg; lia).
  replace (k + 1) with (Z.succ k) by lia.
  destruct r as [q b s]; cbn [shr_m shr_r shr_s] in *.
  destruct q as [|[q|q|]|q]; try lia; unfold shr_inv; cbn [shr_1 shr_m shr_r shr_s];
    (split; [lia|]); rewrite Z.pow_succ_r by lia.
  - exists rem. destruct b, s; cbn [orb]; lia.
  - exists (2 ^ k + rem). destruct b, s; cbn [orb]; lia.
  - exists rem. destruct b, s; cbn [orb]; lia.
  - exists (2 ^ k + rem). destruct b, s; cbn [orb]; lia.
Qed.

Lemma shr_inv_iter (m : Z) (p : positive) :
  forall (k : Z) (r : shr_record),
    0 <= k -> shr_inv m k r -> shr_inv m (k + Zpos p) (iter_pos shr_1 p r).
Proof.
  induction p as [p IH | p IH | ]; intros k r Hk Hr; simpl iter_pos.
  - replace (k + Zpos p~1) with (k + 1 + Zpos p + Zpos p) by lia.
    apply IH; [lia|]. apply IH; [lia|]. apply shr_inv_step; assumption.
  - replace (k + Zpos p~0) with (k + Zpos p + Zpos p) by lia.
    apply IH; [lia|]. apply IH; assumption.
  - apply shr_inv_step; assumption.
Qed.

Lemma round_nearest_even_bounds (m k : Z) (r : shr_record) :
  0 <= k -> shr_inv m k r ->
  let m' := round_nearest_even (shr_m r) (loc_of_shr_record r) in
  shr_m r <= m' <= shr_m r + 1 /\
  2 * m - 2 ^ k <= 2 * (m' * 2 ^ k) <= 2 * m + 2 ^ k /\
  shr_m r * 2 ^ k <= m < (shr_m r + 1) * 2 ^ k.
Proof.
  intros Hk [Hq [rem [Hm [Hrem Hloc]]]].
  assert (HW : 0 < 2 ^ k) by (apply Z.pow_pos_nonneg; lia).
  destruct r as [q b s]; cbn [shr_m shr_r shr_s] in *.
  destruct b, s; cbn [loc_of_shr_record round_nearest_even]; try destruct (Z.even q); nia.
Qed.

Lemma fexp_normal (x : Z) : -1021 <= x -> fexp prec emax x = x - 53.
Proof. intros Hx. unfold fexp, emin, prec, emax. lia. Qed.

(** Rounding a positive integer [P] of [D > 53] bits, scaled by [2^e], to a
    binary64 number: the mantissa is [P] shifted by [D - 53] bits and
    rounded to nearest even; a carry out of the mantissa is renormalised. *)
Lemma binary_round_aux_wide (P : positive) (e D : Z) :
  Zpos (digits2_pos P) = D -> 53 < D -> -1021 <= D + e -> e + D - 53 < 970 ->
  exists m2 : Z,
    2 ^ 52 <= m2 <= 2 ^ 53 /\
    2 * Zpos P - 2 ^ (D - 53) <= 2 * (m2 * 2 ^ (D - 53)) <= 2 * Zpos P + 2 ^ (D - 53) /\
    exists (m' : positive) (e' : Z),
      binary_round_aux prec emax false (Zpos P) e loc_Exact = S754_finite false m' e' /\
      ((Zpos m' = m2 /\ e' = e + D - 53) \/
       (m2 = 2 ^ 53 /\ Zpos m' = 2 ^ 52 /\ e' = e + D - 52)).
Proof.
  intros HD HD53 Hlo Hhi.
  pose proof (digits2_pos_bounds P) as HP. rewrite HD in HP.
  unfold binary_round_aux, shr_fexp.
  cbn [Zdigits2 shr_record_of_loc]. rewrite HD.
  rewrite fexp_normal by lia.
  replace (D + e - 53 - e) with (D - 53) by lia.
  destruct (D - 53) as [|sh|sh] eqn:Hsh; try lia.
  cbn [shr].
  pose proof (shr_inv_iter (Zpos P) sh 0 _ (Z.le_refl 0)
                (shr_inv_init (Zpos P) ltac:(lia))) as Hinv.
  rewrite Z.add_0_l in Hinv.
  set (r := iter_pos shr_1 sh _) in *.
  pose proof (round_nearest_even_bounds (Zpos P) (Zpos sh) r (Pos2Z.is_nonneg sh) Hinv)
    as (Hm2 & Hrnd & Hq).
  set (m2 := round_nearest_even (shr_m r) (loc_of_shr_record r)) in *.
  cbv zeta in Hm2, Hrnd.
  assert (HW : 0 < 2 ^ Zpos sh) by (apply Z.pow_pos_nonneg; lia).
  assert (Hsplit : 2 ^ D = 2 ^ 53 * 2 ^ Zpos sh).
  { rewrite <- Z.pow_add_r by lia. f_equal. lia. }
  assert (Hsplit' : 2 ^ (D - 1) = 2 ^ 52 * 2 ^ Zpos sh).
  { rewrite <- Z.pow_add_r by lia. f_equal. lia. }
  assert (Hq52 : 2 ^ 52 <= shr_m r < 2 ^ 53) by nia.
  exists m2. split; [lia|]. split; [exact Hrnd|].
  destruct (Z.eq_dec m2 (2 ^ 53)) as [Heq|Hne].
  - exists (4503599627370496%positive), (e + Zpos sh + 1).
    split.
    + rewrite Heq.
      change (Zdigits2 (2 ^ 53)) with 54.
      rewrite fexp_normal by lia.
      replace (54 + (e + Zpos sh) - 53 - (e + Zpos sh)) with 1 by lia.
      cbn [shr iter_pos]. change (2 ^ 53) with (Zpos (4503599627370496~0)).
      cbn [shr_1 shr_m orb].
      replace (e + Zpos sh + 1 <=? emax - prec) with true
        by (symmetry; apply Z.leb_le; unfold emax, prec; lia).
      reflexivity.
    + right. repeat split; [assumption | lia].
  - destruct m2 as [|p2|p2] eqn:Em2; try lia.
    exists p2, (e + Zpos sh). split.
    + assert (Hd2 : Zpos (digits2_pos p2) = 53) by (apply digits2_pos_unique; lia).
      cbn [Zdigits2]. rewrite Hd2.
      rewrite fexp_normal by lia.
      replace (53 + (e + Zpos sh) - 53 - (e + Zpos sh)) with 0 by lia.
      cbn [shr shr_m].
      replace (e + Zpos sh <=? emax - prec) with true
        by (symmetry; apply Z.leb_le; unfold emax, prec; lia).
      reflexivity.
    + left. split; [reflexivity | lia].
Qed.

Lemma binary_round_aux_exact (m : positive) (e : Z) :
  Zpos (digits2_pos m) = 53 -> -1074 <= e <= 971 ->
  binary_round_aux prec emax false (Zpos m) e loc_Exact = S754_finite false m e.
Proof.
  intros Hd He.
  unfold binary_round_aux, shr_fexp.
  cbn [Zdigits2 shr_record_of_loc]. rewrite Hd.
  rewrite fexp_normal by lia.
  replace (53 + e - 53 - e) with 0 by lia.
  cbn [shr shr_m loc_of_shr_record round_nearest_even Zdigits2 shr_record_of_loc].
  rewrite Hd. rewrite fexp_normal by lia.
  replace (53 + e - 53 - e) with 0 by lia.
  cbn [shr shr_m].
  replace (e <=? emax - prec) with true
    by (symmetry; apply Z.leb_le; unfold emax, prec; lia).
  reflexivity.
Qed.

Lemma iter_xO_pow (p k : positive) :
  Zpos (Pos.iter xO p k) = Zpos p * 2 ^ Zpos k.
Proof.
  induction k as [|k IH] using Pos.peano_ind.
  - simpl. lia.
  - rewrite Pos.iter_succ, Pos2Z.inj_xO, IH, Pos2Z.inj_succ, Z.pow_succ_r by lia. lia.
Qed.

(** [float(n)] is exact below [2^53]: the mantissa is [n] shifted left to
    53 bits. *)
Lemma of_int_exact (n : Z) :
  0 < n < 2 ^ 53 ->
  exists (N : positive) (e : Z),
    of_int n = Ok (S754_finite false N e) /\
    Zpos N = n * 2 ^ (- e) /\ 2 ^ 52 <= Zpos N < 2 ^ 53 /\ -52 <= e <= 0.
Proof.
  intros Hn. destruct n as [|p|p]; try lia.
  pose proof (digits2_pos_bounds p) as Hb.
  set (d := Zpos (digits2_pos p)) in *.
  assert (Hd : 0 < d <= 53).
  { split; [subst d; lia|].
    destruct (Z_lt_le_dec 53 d) as [Hlt|]; [|assumption].
    assert (2 ^ 53 <= 2 ^ (d - 1)) by (apply Z.pow_le_mono_r; lia). lia. }
  unfold of_int, binary_normalize, binary_round, shl_align.
  fold d. rewrite fexp_normal by lia.
  destruct (d + 0 - 53 - 0) as [|k|k] eqn:Hk; try lia.
  - exists p, 0. rewrite binary_round_aux_exact by (fold d; lia).
    assert (Hd53 : d = 53) by lia. rewrite Hd53 in Hb.
    change (53 - 1) with 52 in Hb. repeat split; lia.
  - assert (Hpow : 2 ^ 53 = 2 ^ d * 2 ^ Zpos k).
    { rewrite <- Z.pow_add_r by lia. f_equal. lia. }
    assert (Hpow' : 2 ^ 52 = 2 ^ (d - 1) * 2 ^ Zpos k).
    { rewrite <- Z.pow_add_r by lia. f_equal. lia. }
    assert (HW : 0 < 2 ^ Zpos k) by (apply Z.pow_pos_nonneg; lia).
    assert (HN : 2 ^ 52 <= Zpos (Pos.iter xO p k) < 2 ^ 53).
    { rewrite iter_xO_pow. nia. }
    exists (Pos.iter xO p k), (d + 0 - 53).
    rewrite binary_round_aux_exact by (try apply digits2_pos_unique; lia).
    repeat split; try lia.
    rewrite iter_xO_pow. f_equal. f_equal. lia.
Qed.

Lemma to_int_neg (m : positive) (e : Z) :
  e < 0 -> to_int (S754_finite false m e) = Ok (Zpos m / 2 ^ (- e)).
Proof.
  intros He. destruct e as [|p|p]; try lia. reflexivity.
Qed.

(** The integer part of the binary64 product of a normalised mantissa with
    a constant, as a quotient of the rounded 53-bit product. *)
Lemma to_int_mul_finite (N M : positive) (e : Z) :
  2 ^ 52 <= Zpos N < 2 ^ 53 -> 2 ^ 52 <= Zpos M < 2 ^ 53 -> -52 <= e <= -2 ->
  exists D m2 : Z,
    (D = 105 \/ D = 106) /\
    2 ^ (D - 1) <= Zpos N * Zpos M < 2 ^ D /\
    2 * (Zpos N * Zpos M) - 2 ^ (D - 53)
      <= 2 * (m2 * 2 ^ (D - 53)) <= 2 * (Zpos N * Zpos M) + 2 ^ (D - 53) /\
    to_int (mul (S754_finite false N e) (S754_finite false M (-53)))
      = Ok (m2 / (2 ^ (- e) * 2 ^ (106 - D))).
Proof.
  intros HN HM He.
  pose proof (digits2_pos_bounds (N * M)) as HP.
  set (D := Zpos (digits2_pos (N * M))) in *.
  rewrite Pos2Z.inj_mul in HP.
  assert (HD : D = 105 \/ D = 106).
  { assert (2 ^ 104 <= Zpos N * Zpos M < 2 ^ 106) by (change (2 ^ 104) with (2 ^ 52 * 2 ^ 52);
      change (2 ^ 106) with (2 ^ 53 * 2 ^ 53); nia).
    assert (0 < D) by (subst D; lia).
    destruct (Z_lt_le_dec D 105) as [Hlt|Hge].
    { assert (2 ^ D <= 2 ^ 104) by (apply Z.pow_le_mono_r; lia). lia. }
    destruct (Z_lt_le_dec 106 D) as [Hlt|Hle]; [|lia].
    assert (2 ^ 106 <= 2 ^ (D - 1)) by (apply Z.pow_le_mono_r; lia). lia. }
  destruct (binary_round_aux_wide (N * M) (e + -53) D eq_refl) as
    (m2 & Hm2 & Hrnd & m' & e' & Hmul & Hcase); try lia.
  rewrite Pos2Z.inj_mul in Hrnd.
  exists D, m2. split; [exact HD|]. split; [exact HP|]. split; [exact Hrnd|].
  unfold mul, SFmul. cbn [xorb]. rewrite Hmul.
  assert (HA : 0 < 2 ^ (- e)) by (apply Z.pow_pos_nonneg; lia).
  assert (Hexp : 2 ^ (- (e + -53 + D - 53)) = 2 ^ (- e) * 2 ^ (106 - D)).
  { rewrite <- Z.pow_add_r by lia. f_equal. lia. }
  destruct Hcase as [[Hm' He'] | (Hm253 & Hm' & He')].
  - rewrite to_int_neg by lia. rewrite Hm', He', Hexp. reflexivity.
  - rewrite to_int_neg by lia. rewrite Hm', He', Hm253, <- Hexp.
    replace (- (e + -53 + D - 53)) with (Z.succ (- (e + -53 + D - 52))) by lia.
    rewrite Z.pow_succ_r by lia.
    change (2 ^ 53) with (2 * 2 ^ 52).
    rewrite Z.div_mul_cancel_l; [reflexivity | | lia].
    apply Z.pow_nonzero; lia.
Qed.


(** [int(n * c)] is the exact floor of [a * n / 100] for the two constants
    the percentile code uses, for every length below [2^47]. *)
Lemma int_mul_percent (a : Z) (M : positive) (n : Z) :
  (a = 95 /\ M = 8556839292003942%positive) \/
  (a = 99 /\ M = 8917127262193582%positive) ->
  0 < n < 2 ^ 47 ->
  int_mul n (S754_finite false M (-53)) = Ok (a * n / 100).
Proof.
  intros Hc Hn.
  assert (H47 : 2 ^ 47 < 2 ^ 53) by reflexivity.
  destruct (of_int_exact n) as (N & e & Hof & HN & HNr & He); [lia|].
  assert (He6 : e <= -6).
  { destruct (Z_lt_le_dec (-6) e) as [Hgt|]; [|assumption].
    assert (Hle : 2 ^ (- e) <= 2 ^ 5) by (apply Z.pow_le_mono_r; lia).
    change (2 ^ 5) with 32 in Hle. change (2 ^ 47) with 140737488355328 in Hn.
    change (2 ^ 52) with 4503599627370496 in HNr. nia. }
  assert (HA : 2 ^ 6 <= 2 ^ (- e)) by (apply Z.pow_le_mono_r; lia).
  unfold int_mul. rewrite Hof. cbn [bind].
  destruct (to_int_mul_finite N M e) as (D & m2 & HD & HP & Hrnd & Hres);
    [lia | destruct Hc as [[_ ->] | [_ ->]]; lia | lia |].
  rewrite Hres. f_equal.
  set (A := 2 ^ (- e)) in *.
  pose proof (Z.div_mod (a * n) 100 ltac:(lia)) as Hdm.
  pose proof (Z.mod_pos_bound (a * n) 100 ltac:(lia)) as Hmod.
  set (q := a * n / 100) in *.
  set (r := (a * n) mod 100) in *.
  assert (HaN : a * Zpos N = 100 * (q * A) + r * A) by (rewrite HN; nia).
  assert (HrA : 0 <= r * A <= 99 * A) by nia.
  set (Q' := q * A) in *. set (R' := r * A) in *.
  symmetry. apply Z.div_unique_pos with (r := m2 - q * (A * 2 ^ (106 - D))).
  - replace (q * (A * 2 ^ (106 - D))) with (Q' * 2 ^ (106 - D)) by (subst Q'; ring).
    change (2 ^ 6) with 64 in HA. change (2 ^ 53) with 9007199254740992 in HNr.
    change (2 ^ 52) with 4503599627370496 in HNr.
    clearbody Q' R' A. clear Hres Hof HN Hdm Hmod He He6 H47 Hn.
    destruct HD as [-> | ->];
      [ change (2 ^ (106 - 105)) with 2;
        change (2 ^ (105 - 53)) with 4503599627370496 in Hrnd;
        change (2 ^ (105 - 1)) with 20282409603651670423947251286016 in HP;
        change (2 ^ 105) with 40564819207303340847894502572032 in HP
      | change (2 ^ (106 - 106)) with 1;
        change (2 ^ (106 - 53)) with 9007199254740992 in Hrnd;
        change (2 ^ (106 - 1)) with 40564819207303340847894502572032 in HP;
        change (2 ^ 106) with 81129638414606681695789005144064 in HP ];
      (destruct Hc as [[-> ->] | [-> ->]]; lia).
  - ring.
Qed.

End Float64Facts.

(** ** The error monad and list access *)

Lemma getitem_nth {A : Type} (l : list A) (i : Z) (d : A) :
  0 <= i < Z.of_nat (List.length l) ->
  Py.getitem l i = Ok (nth (Z.to_nat i) l d).
Proof.
  intros Hi. unfold Py.getitem.
  destruct (i <? 0) eqn:Hneg; [apply Z.ltb_lt in Hneg; lia|].
  rewrite Hneg. cbn [orb].
  destruct (Z.of_nat (List.length l) <=? i) eqn:Hge; [apply Z.leb_le in Hge; lia|].
  destruct (nth_error l (Z.to_nat i)) as [x|] eqn:Hnth.
  - f_equal. symmetry. apply nth_error_nth. exact Hnth.
  - apply nth_error_None in Hnth. lia.
Qed.

Lemma mapM_Forall2 {A B : Type} (f : A -> result B) (P : A -> B -> Prop) (l : list A) :
  (forall x, In x l -> exists y, f x = Ok y /\ P x y) ->
  exists ys, mapM f l = Ok ys /\ Forall2 P l ys.
Proof.
  induction l as [|x xs IH]; intros Hf.
  - exists []. split; [reflexivity | constructor].
  - destruct (Hf x (or_introl eq_refl)) as (y & Hy & HP).
    destruct IH as (ys & Hys & HF); [intros z Hz; apply Hf; right; exact Hz|].
    exists (y :: ys). cbn [mapM]. rewrite Hy. cbn [Py.bind]. rewrite Hys.
    split; [reflexivity | constructor; assumption].
Qed.

Lemma div_nonzero (x y : Q) : ~ y == 0 -> Py.div x y = Ok (x / y)%Q.
Proof.
  intros Hy. unfold Py.div.
  destruct (Qeq_bool y 0) eqn:E; [|reflexivity].
  apply Qeq_bool_eq in E. contradiction.
Qed.

Lemma inject_Z_nonzero (z : Z) : z <> 0 -> ~ inject_Z z == 0.
Proof.
  intros Hz H. apply Hz. unfold Qeq in H. cbn in H. lia.
Qed.

(** A guarded percentage never divides by zero: it is the quotient when
    the count is positive and 0 otherwise. *)
Lemma guarded_percent (part total : Z) :
  (if total >? 0 then percent_of (inject_Z part) (inject_Z total) else Ok 0%Q)
  = Ok (if total >? 0 then inject_Z part / inject_Z total * 100 else 0)%Q.
Proof.
  destruct (total >? 0) eqn:E; [|reflexivity].
  unfold percent_of. rewrite div_nonzero; [reflexivity|].
  apply inject_Z_nonzero. apply Z.gtb_lt in E. lia.
Qed.

Lemma positive_num_spec (x : Q) : positive_num x = true <-> (0 < x)%Q.
Proof.
  unfold positive_num, num_gt. rewrite negb_true_iff.
  split; intros H.
  - apply Qnot_le_lt. intros Hle. apply Qle_bool_iff in Hle. congruence.
  - destruct (Qle_bool x 0) eqn:E; [|reflexivity].
    apply Qle_bool_iff in E. exfalso. exact (Qlt_not_le _ _ H E).
Qed.

Lemma positive_num_nonzero (x : Q) : positive_num x = true -> ~ x == 0.
Proof.
  intros H Heq. apply positive_num_spec in H. rewrite Heq in H.
  exact (Qlt_irrefl 0 H).
Qed.

Lemma calc_change_eq (current previous : Q) :
  calc_change current previous
  = Ok (if Qeq_bool previous 0 then None
        else Some ((current - previous) / previous * 100)%Q).
Proof.
  unfold calc_change. destruct (Qeq_bool previous 0) eqn:E; [reflexivity|].
  rewrite div_nonzero; [reflexivity|]. apply Qeq_bool_neq. exact E.
Qed.

Lemma estimated_monthly_cost_eq (total_cost : Q) (period_length : timedelta) :
  estimated_monthly_cost total_cost period_length
  = Ok (if days period_length =? 1 then (total_cost * 30)%Q
        else (total_cost * 30 / inject_Z (Z.max (days period_length) 1))%Q).
Proof.
  unfold estimated_monthly_cost.
  destruct (days period_length =? 1); [reflexivity|].
  apply div_nonzero. apply inject_Z_nonzero. lia.
Qed.

(** ** Queries *)

Lemma insert_perm {A : Type} (leb : A -> A -> bool) (x : A) (l : list A) :
  Permutation (Sql.insert leb x l) (x :: l).
Proof.
  induction l as [|y ys IH]; cbn [Sql.insert].
  - apply Permutation_refl.
  - destruct (leb x y).
    + apply Permutation_refl.
    + eapply perm_trans; [apply perm_skip, IH | apply perm_swap].
Qed.

Lemma order_by_perm {A : Type} (leb : A -> A -> bool) (l : list A) :
  Permutation (Sql.order_by leb l) l.
Proof.
  induction l as [|x xs IH]; cbn [Sql.order_by].
  - apply perm_nil.
  - eapply perm_trans; [apply insert_perm | apply perm_skip, IH].
Qed.

Lemma order_by_length {A : Type} (leb : A -> A -> bool) (l : list A) :
  List.length (Sql.order_by leb l) = List.length l.
Proof. apply Permutation_length, order_by_perm. Qed.

Lemma insert_sorted (x : Z) (l : list Z) :
  StronglySorted Z.le l -> StronglySorted Z.le (Sql.insert Z.leb x l).
Proof.
  induction 1 as [|y ys Hs IH Hall]; cbn [Sql.insert].
  - repeat constructor.
  - destruct (x <=? y) eqn:E.
    + apply Z.leb_le in E. constructor.
      * constructor; assumption.
      * constructor; [exact E|].
        eapply Forall_impl; [|exact Hall]. intros z Hz. cbn in Hz. lia.
    + apply Z.leb_gt in E. constructor; [exact IH|].
      eapply Permutation_Forall; [apply Permutation_sym, insert_perm|].
      constructor; [lia | exact Hall].
Qed.

Lemma order_by_sorted (l : list Z) : StronglySorted Z.le (Sql.order_by Z.leb l).
Proof.
  induction l as [|x xs IH]; cbn [Sql.order_by].
  - constructor.
  - apply insert_sorted, IH.
Qed.

Lemma add_to_group_nonempty {K A : Type} (eqb : K -> K -> bool) (k : K) (a : A)
  (gs : list (K * list A)) :
  Forall (fun g => snd g <> []) gs ->
  Forall (fun g => snd g <> []) (Sql.add_to_group eqb k a gs).
Proof.
  induction 1 as [|[k' l] gs' Hg Hgs IH]; cbn [Sql.add_to_group].
  - constructor; [discriminate | constructor].
  - destruct (eqb k k').
    + constructor; [|exact Hgs]. cbn. destruct l; discriminate.
    + constructor; assumption.
Qed.

(** Every group of a [GROUP BY] has at least one row. *)
Lemma group_by_nonempty {K A : Type} (eqb : K -> K -> bool) (key : A -> K) (l : list A) :
  Forall (fun g => snd g <> []) (Sql.group_by eqb key l).
Proof.
  unfold Sql.group_by.
  assert (H : forall gs, Forall (fun g : K * list A => snd g <> []) gs ->
              Forall (fun g : K * list A => snd g <> [])
                (fold_left (fun gs a => Sql.add_to_group eqb (key a) a gs) l gs)).
  { induction l as [|x xs IH]; intros gs Hgs; cbn [fold_left].
    - exact Hgs.
    - apply IH, add_to_group_nonempty, Hgs. }
  apply H. constructor.
Qed.

Lemma sum_cost_nonempty (rows : table) :
  rows <> [] -> exists c, sum_cost rows = Some c.
Proof.
  intros H. destruct rows as [|r rs]; [contradiction|].
  eexists. reflexivity.
Qed.

(** ** Percentiles *)

Lemma p50_eq (times : list Z) :
  p50 times = Ok (nth (Z.to_nat (Sql.count times / 2)) times 0).
Proof.
  destruct times as [|t ts]; [reflexivity|].
  set (l := t :: ts). unfold p50. cbn [Py.floordiv Z.eqb Py.bind]. subst l.
  cbv beta iota. cbn [Py.floordiv Z.eqb Py.bind].
  apply getitem_nth. unfold Sql.count.
  assert (0 < Z.of_nat (List.length (t :: ts))) by (cbn [List.length]; lia).
  split; [apply Z.div_pos; lia | apply Z.div_lt_upper_bound; lia].
Qed.

Lemma percentile_eq (a : Z) (M : positive) (times : list Z) :
  (a = 95 /\ M = 8556839292003942%positive) \/
  (a = 99 /\ M = 8917127262193582%positive) ->
  Sql.count times < 2 ^ 47 ->
  percentile (S754_finite false M (-53)) times
  = Ok (nth (Z.to_nat (a * Sql.count times / 100)) times 0).
Proof.
  intros Hc Hn. destruct times as [|t ts]; [cbn; rewrite Z.mul_0_r; reflexivity|].
  assert (Hpos : 0 < Sql.count (t :: ts)) by (unfold Sql.count; cbn [List.length]; lia).
  unfold percentile.
  rewrite (Float64Facts.int_mul_percent a M) by (auto; lia).
  cbn [Py.bind]. apply getitem_nth. fold (Sql.count (t :: ts)).
  assert (0 < a < 100) by (destruct Hc as [[-> _] | [-> _]]; lia).
  split; [apply Z.div_pos; nia | apply Z.div_lt_upper_bound; nia].
Qed.

Lemma overview_times_count (rows : table) :
  Sql.count (overview_times rows) <= Sql.count rows.
Proof.
  unfold overview_times, Sql.count.
  rewrite order_by_length, length_map.
  apply Nat2Z.inj_le, filter_length_le.
Qed.

Lemma filter_count_le {A : Type} (f : A -> bool) (l : list A) :
  Sql.count (filter f l) <= Sql.count l.
Proof. unfold Sql.count. apply Nat2Z.inj_le, filter_length_le. Qed.

(** ** Rows of the grouped queries *)

Lemma top_agent_ok (g : agent_key * table) :
  exists t, top_agent g = Ok t /\ top_agent_rate_ok t.
Proof.
  destruct g as [[[name aid] atype] rows]. unfold top_agent.
  rewrite guarded_percent. cbn [Py.bind].
  eexists. split; [reflexivity|].
  unfold top_agent_rate_ok. cbn.
  split; intros H.
  - apply Z.gtb_lt in H. rewrite H. reflexivity.
  - rewrite H. reflexivity.
Qed.

Lemma cost_percentage_ok (rows : table) (total_cost : Q) :
  rows <> [] ->
  exists pct, cost_percentage (sum_cost rows) total_cost = Ok pct /\
    ((0 < total_cost)%Q -> pct = (or_zero_num (sum_cost rows) / total_cost * 100)%Q) /\
    (total_cost == 0 -> pct = 0%Q).
Proof.
  intros Hne. destruct (sum_cost_nonempty rows Hne) as [c Hc].
  unfold cost_percentage. rewrite Hc. cbn [or_zero_num].
  destruct (positive_num total_cost) eqn:E.
  - unfold percent_of. rewrite div_nonzero by (apply positive_num_nonzero; exact E).
    cbn [Py.bind]. eexists. split; [reflexivity|]. split; [reflexivity|].
    intros H0. exfalso. exact (positive_num_nonzero _ E H0).
  - eexists. split; [reflexivity|]. split; [|reflexivity].
    intros Hpos. apply positive_num_spec in Hpos. congruence.
Qed.

Lemma cost_breakdown_ok (total_cost : Q) (g : option string * table) :
  snd g <> [] ->
  exists c, cost_breakdown total_cost g = Ok c /\ cost_share_ok total_cost c.
Proof.
  destruct g as [model rows]. cbn [snd]. intros Hne.
  destruct (cost_percentage_ok rows total_cost Hne) as (pct & Hpct & Hpos & Hzero).
  unfold cost_breakdown. rewrite Hpct. cbn [Py.bind].
  eexists. split; [reflexivity|]. split; cbn; assumption.
Qed.

Lemma Forall2_Forall_r {A B : Type} (P : B -> Prop) (l : list A) (l' : list B) :
  Forall2 (fun _ y => P y) l l' -> Forall P l'.
Proof. induction 1; constructor; assumption. Qed.

Lemma top_agents_ok (rows : table) :
  exists tops, mapM top_agent (top_agents_query rows) = Ok tops /\
               Forall top_agent_rate_ok tops.
Proof.
  destruct (mapM_Forall2 top_agent (fun _ t => top_agent_rate_ok t)
              (top_agents_query rows)) as (tops & Htops & HF).
  - intros g _. apply top_agent_ok.
  - exists tops. split; [exact Htops | eapply Forall2_Forall_r; exact HF].
Qed.

Lemma model_cost_query_nonempty (rows : table) :
  Forall (fun g => snd g <> []) (model_cost_query rows).
Proof.
  unfold model_cost_query.
  eapply Permutation_Forall; [apply Permutation_sym, order_by_perm|].
  apply group_by_nonempty.
Qed.

Lemma cost_by_model_ok (rows : table) (total_cost : Q) :
  exists costs, mapM (cost_breakdown total_cost) (model_cost_query rows) = Ok costs /\
                Forall (cost_share_ok total_cost) costs.
Proof.
  pose proof (model_cost_query_nonempty rows) as Hne.
  rewrite Forall_forall in Hne.
  destruct (mapM_Forall2 (cost_breakdown total_cost)
              (fun _ c => cost_share_ok total_cost c)
              (model_cost_query rows)) as (costs & Hcosts & HF).
  - intros g Hg. apply cost_breakdown_ok, Hne, Hg.
  - exists costs. split; [exact Hcosts | eapply Forall2_Forall_r; exact HF].
Qed.

(** ** Dates in range *)

Lemma datetime_sub_ok (d : datetime) (delta : timedelta) :
  representable (d - delta) -> datetime_sub d delta = Ok (d - delta).
Proof.
  unfold representable, datetime_sub, in_datetime_range, datetime_min, datetime_max.
  intros [Hlo Hhi].
  apply Z.leb_le in Hlo, Hhi. rewrite Hlo, Hhi. reflexivity.
Qed.

Lemma datetime_sub_inv (d : datetime) (delta : timedelta) (r : datetime) :
  datetime_sub d delta = Ok r -> r = d - delta /\ representable r.
Proof.
  unfold representable, datetime_sub, in_datetime_range, datetime_min, datetime_max.
  destruct (_ && _) eqn:E; [|discriminate].
  intros H. inversion H; subst. apply andb_true_iff in E. destruct E as [Hlo Hhi].
  apply Z.leb_le in Hlo, Hhi. auto.
Qed.

Lemma datetime_sub_cases (d : datetime) (delta : timedelta) :
  datetime_sub d delta = Ok (d - delta) \/ datetime_sub d delta = Err OverflowError.
Proof. unfold datetime_sub. destruct (in_datetime_range _); auto. Qed.

Lemma default_start_ok (start_date : option datetime) (stop : datetime) (delta : timedelta) :
  representable (match start_date with Some s => s | None => stop - delta end) ->
  default_start start_date stop delta
  = Ok (match start_date with Some s => s | None => stop - delta end).
Proof.
  destruct start_date as [s|]; cbn [default_start]; [reflexivity|].
  apply datetime_sub_ok.
Qed.

Lemma default_start_cases (start_date : option datetime) (stop : datetime)
  (delta : timedelta) :
  default_start start_date stop delta
  = Ok (match start_date with Some s => s | None => stop - delta end) \/
  default_start start_date stop delta = Err OverflowError.
Proof.
  destruct start_date as [s|]; cbn [default_start]; [left; reflexivity|].
  apply datetime_sub_cases.
Qed.

Lemma overview_dates (now : datetime) (start_date end_date : option datetime) :
  window_representable now start_date end_date ->
  let start := fst (overview_window now start_date end_date) in
  let stop := snd (overview_window now start_date end_date) in
  stop = match end_date with Some e => e | None => now end /\
  default_start start_date stop (timedelta_hours 24) = Ok start /\
  datetime_sub start (stop - start) = Ok (start - (stop - start)).
Proof.
  intros [Hs Hp]. cbv zeta. split; [reflexivity|]. split.
  - apply default_start_ok. exact Hs.
  - apply datetime_sub_ok. exact Hp.
Qed.

(** ** The overview, field by field

    Below [2^47] rows every step of [get_overview] returns, and the result
    object is the one spelled out here. *)

Lemma get_overview_run (now : datetime) (db : table) (user_id : option string)
  (start_date end_date : option datetime) :
  fits_in_memory db ->
  window_representable now start_date end_date ->
  let start := fst (overview_window now start_date end_date) in
  let stop := snd (overview_window now start_date end_date) in
  let rows := filter (overview_filters user_id start stop) db in
  let prev_rows := filter (prev_filters user_id (start - (stop - start)) start) db in
  let times := overview_times rows in
  let total := Sql.count rows in
  let successful := or_zero (count_status ExecutionStatus.success rows) in
  let rate := (if total >? 0 then inject_Z successful / inject_Z total * 100 else 0)%Q in
  let prev_total := Sql.count prev_rows in
  let prev_successful := or_zero (count_status ExecutionStatus.success prev_rows) in
  let prev_rate :=
    (if prev_total >? 0 then inject_Z prev_successful / inject_Z prev_total * 100
     else 0)%Q in
  let total_cost := or_zero_num (sum_cost rows) in
  let change current previous :=
    if Qeq_bool previous 0 then None
    else Some ((current - previous) / previous * 100)%Q in
  exists tops costs,
    Forall top_agent_rate_ok tops /\
    Forall (cost_share_ok total_cost) costs /\
    get_overview now db user_id start_date end_date
    = Ok {| AnalyticsOverviewDTO.total_executions := total;
            AnalyticsOverviewDTO.successful_executions := successful;
            AnalyticsOverviewDTO.failed_executions :=
              or_zero (count_status ExecutionStatus.failure rows);
            AnalyticsOverviewDTO.success_rate := rate;
            AnalyticsOverviewDTO.avg_execution_time_ms := or_zero_num (avg_time rows);
            AnalyticsOverviewDTO.p50_execution_time_ms :=
              nth (Z.to_nat (Sql.count times / 2)) times 0;
            AnalyticsOverviewDTO.p95_execution_time_ms :=
              nth (Z.to_nat (95 * Sql.count times / 100)) times 0;
            AnalyticsOverviewDTO.p99_execution_time_ms :=
              nth (Z.to_nat (99 * Sql.count times / 100)) times 0;
            AnalyticsOverviewDTO.total_input_tokens :=
              or_zero (Sql.sum_int (map AgentExecution.input_tokens rows));
            AnalyticsOverviewDTO.total_output_tokens :=
              or_zero (Sql.sum_int (map AgentExecution.output_tokens rows));
            AnalyticsOverviewDTO.total_tokens := or_zero (sum_tokens rows);
            AnalyticsOverviewDTO.total_cost_usd := total_cost;
            AnalyticsOverviewDTO.estimated_monthly_cost_usd :=
              if days (stop - start) =? 1 then (total_cost * 30)%Q
              else (total_cost * 30 / inject_Z (Z.max (days (stop - start)%Z) 1))%Q;
            AnalyticsOverviewDTO.executions_change_percent :=
              change (inject_Z total) (inject_Z prev_total);
            AnalyticsOverviewDTO.execution_time_change_percent :=
              change (or_zero_num (avg_time rows)) (or_zero_num (avg_time prev_rows));
            AnalyticsOverviewDTO.success_rate_change_percent := change rate prev_rate;
            AnalyticsOverviewDTO.cost_change_percent :=
              change total_cost (or_zero_num (sum_cost prev_rows));
            AnalyticsOverviewDTO.active_agents_count := active_agents rows;
            AnalyticsOverviewDTO.top_agents := tops;
            AnalyticsOverviewDTO.cost_by_model := costs |}.
Proof.
  intros Hfit Hrep. unfold get_overview.
  destruct (overview_dates now start_date end_date Hrep) as (Hstop & Hstart & Hprev).
  rewrite <- Hstop, Hstart. cbn [Py.bind]. rewrite Hprev.
  destruct (overview_window now start_date end_date) as [start stop].
  cbn [fst snd]. cbv zeta.
  set (rows := filter (overview_filters user_id start stop) db).
  assert (Htimes : Sql.count (overview_times rows) < 2 ^ 47).
  { pose proof (overview_times_count rows).
    pose proof (filter_count_le (overview_filters user_id start stop) db).
    unfold fits_in_memory in Hfit. fold rows in H0. lia. }
  destruct (top_agents_ok rows) as (tops & Htops & HFt).
  destruct (cost_by_model_ok rows (or_zero_num (sum_cost rows))) as (costs & Hcosts & HFc).
  exists tops, costs. split; [exact HFt|]. split; [exact HFc|].
  rewrite !guarded_percent. cbn [Py.bind].
  rewrite p50_eq. cbn [Py.bind].
  unfold p95, p99, Float64.lit_0_95, Float64.lit_0_99.
  rewrite (percentile_eq 95) by (auto; lia). cbn [Py.bind].
  rewrite (percentile_eq 99) by (auto; lia). cbn [Py.bind].
  rewrite Htops. cbn [Py.bind]. rewrite Hcosts. cbn [Py.bind].
  rewrite guarded_percent. cbn [Py.bind].
  rewrite estimated_monthly_cost_eq. cbn [Py.bind].
  rewrite !calc_change_eq. cbn [Py.bind].
  reflexivity.
Qed.

Lemma Qfloor_percent (a : positive) (n : Z) :
  Qfloor ((Zpos a # 100) * inject_Z n) = Zpos a * n / 100.
Proof. unfold Qfloor, Qmult, inject_Z. cbn [Qnum Qden]. reflexivity. Qed.

Lemma Qfloor_half (n : Z) : Qfloor (0.50 * inject_Z n) = n / 2.
Proof.
  change (0.50)%Q with (50 # 100). rewrite Qfloor_percent.
  replace (50 * n) with (n * 50) by lia. change 100 with (2 * 50).
  rewrite Z.div_mul_cancel_r by lia. reflexivity.
Qed.

Lemma nth_error_nth_in {A : Type} (l : list A) (i : nat) (d : A) :
  (i < List.length l)%nat -> nth_error l i = Some (nth i l d).
Proof. intros Hi. apply nth_error_nth'. exact Hi. Qed.

(** * The claims *)

(** C1.  The overview's percentile times: the execution times strictly
    greater than 0 of the filtered executions are collected and sorted
    ascending into [times], of length [n]; p50, p95 and p99 are the elements
    of [times] at the indices floor(0.50 n), floor(0.95 n) and floor(0.99 n),
    and each is 0 when [times] is empty.  The indices are computed in
    binary64 by the code; they equal the exact floors for every table below
    [2^47] rows.  The overview returns for every window whose start and
    whose comparison window Python can hold as dates. *)
Theorem overview_percentiles (now : datetime) (db : table) (user_id : option string)
  (start_date end_date : option datetime) :
  fits_in_memory db ->
  window_representable now start_date end_date ->
  let window := overview_window now start_date end_date in
  let rows := filter (overview_filters user_id (fst window) (snd window)) db in
  exists dto times,
    get_overview now db user_id start_date end_date = Ok dto /\
    Permutation times
      (filter (fun t => t >? 0) (map AgentExecution.execution_time_ms rows)) /\
    StronglySorted Z.le times /\
    let n := Z.of_nat (List.length times) in
    (n = 0 ->
     AnalyticsOverviewDTO.p50_execution_time_ms dto = 0 /\
     AnalyticsOverviewDTO.p95_execution_time_ms dto = 0 /\
     AnalyticsOverviewDTO.p99_execution_time_ms dto = 0) /\
    (0 < n ->
     nth_error times (Z.to_nat (Qfloor (0.50 * inject_Z n)))
       = Some (AnalyticsOverviewDTO.p50_execution_time_ms dto) /\
     nth_error times (Z.to_nat (Qfloor (0.95 * inject_Z n)))
       = Some (AnalyticsOverviewDTO.p95_execution_time_ms dto) /\
     nth_error times (Z.to_nat (Qfloor (0.99 * inject_Z n)))
       = Some (AnalyticsOverviewDTO.p99_execution_time_ms dto)).
Proof.
  intros Hfit Hrep window rows.
  destruct (get_overview_run now db user_id start_date end_date Hfit Hrep)
    as (tops & costs & _ & _ & Hrun).
  fold window in Hrun. fold rows in Hrun.
  eexists. exists (overview_times rows).
  split; [exact Hrun|]. cbn [AnalyticsOverviewDTO.p50_execution_time_ms
    AnalyticsOverviewDTO.p95_execution_time_ms AnalyticsOverviewDTO.p99_execution_time_ms].
  split.
  { unfold overview_times. rewrite filter_map_swap. apply order_by_perm. }
  split; [apply order_by_sorted|].
  fold (Sql.count (overview_times rows)).
  set (times := overview_times rows). set (n := Sql.count times).
  cbv zeta. split.
  - intros Hn. rewrite Hn.
    assert (times = []) as -> by (destruct times; [reflexivity | discriminate]).
    repeat split.
  - intros Hn.
    rewrite Qfloor_half.
    change (0.95)%Q with (95 # 100). change (0.99)%Q with (99 # 100).
    rewrite !Qfloor_percent.
    assert (Hlen : forall i, 0 <= i < n -> (Z.to_nat i < List.length times)%nat).
    { intros i Hi. unfold n, Sql.count in Hi. lia. }
    repeat split; apply nth_error_nth_in, Hlen.
    + split; [apply Z.div_pos; lia | apply Z.div_lt_upper_bound; lia].
    + split; [apply Z.div_pos; lia | apply Z.div_lt_upper_bound; lia].
    + split; [apply Z.div_pos; lia | apply Z.div_lt_upper_bound; lia].
Qed.

(** ** The other aggregation operations return *)

Lemma guarded_div (x : Q) (total : Z) :
  (if total >? 0 then Py.div x (inject_Z total) else Ok 0%Q)
  = Ok (if total >? 0 then x / inject_Z total else 0)%Q.
Proof.
  destruct (total >? 0) eqn:E; [|reflexivity].
  apply div_nonzero, inject_Z_nonzero. apply Z.gtb_lt in E. lia.
Qed.

Lemma get_agent_stats_ok (now : datetime) (db : table) (agent_id : string)
  (user_id : option string) (start_date end_date : option datetime) (start : datetime) :
  default_start start_date (match end_date with Some e => e | None => now end)
                (timedelta_days 30) = Ok start ->
  exists r, get_agent_stats now db agent_id user_id start_date end_date = Ok r /\
    match r with
    | None => True
    | Some st =>
        (0 < AgentStatsDTO.total_executions st ->
         AgentStatsDTO.success_rate st
         = (inject_Z (AgentStatsDTO.successful_executions st)
            / inject_Z (AgentStatsDTO.total_executions st) * 100)%Q) /\
        (AgentStatsDTO.total_executions st = 0 -> AgentStatsDTO.success_rate st = 0%Q) /\
        (0 < AgentStatsDTO.total_executions st ->
         AgentStatsDTO.avg_cost_per_execution_usd st
         = (AgentStatsDTO.total_cost_usd st
            / inject_Z (AgentStatsDTO.total_executions st))%Q) /\
        (AgentStatsDTO.total_executions st = 0 ->
         AgentStatsDTO.avg_cost_per_execution_usd st = 0%Q)
    end.
Proof.
  intros Hstart. unfold get_agent_stats. cbv zeta. rewrite Hstart. cbn [Py.bind].
  destruct (Sql.group_by _ _ _) as [|[[name atype] stats] rest].
  - exists None. split; [reflexivity | exact I].
  - rewrite guarded_percent. cbn [Py.bind]. rewrite guarded_div. cbn [Py.bind].
    eexists. split; [reflexivity|]. cbn. repeat split; intros H.
    + apply Z.gtb_lt in H. rewrite H. reflexivity.
    + rewrite H. reflexivity.
    + apply Z.gtb_lt in H. rewrite H. reflexivity.
    + rewrite H. reflexivity.
Qed.

Lemma cost_rows_ok {K B : Type} (total_cost : Q) (mk : K * table -> Q -> B)
  (P : B -> Prop) (gs : list (K * table)) :
  Forall (fun g => snd g <> []) gs ->
  (forall g pct, share_ok total_cost (or_zero_num (sum_cost (snd g))) pct -> P (mk g pct)) ->
  exists rows,
    mapM (fun g => pct <- cost_percentage (sum_cost (snd g)) total_cost ;; Ok (mk g pct)) gs
    = Ok rows /\ Forall P rows.
Proof.
  intros Hne HP. rewrite Forall_forall in Hne.
  destruct (mapM_Forall2
              (fun g => pct <- cost_percentage (sum_cost (snd g)) total_cost ;; Ok (mk g pct))
              (fun _ b => P b) gs) as (rows & Hrows & HF).
  - intros g Hg.
    destruct (cost_percentage_ok (snd g) total_cost (Hne g Hg)) as (pct & Hpct & Hshare).
    rewrite Hpct. cbn [Py.bind]. eexists. split; [reflexivity|].
    apply HP. exact Hshare.
  - exists rows. split; [exact Hrows | eapply Forall2_Forall_r; exact HF].
Qed.

Lemma ordered_groups_nonempty {K A : Type} (leb : K * list A -> K * list A -> bool)
  (eqb : K -> K -> bool) (key : A -> K) (l : list A) :
  Forall (fun g => snd g <> []) (Sql.order_by leb (Sql.group_by eqb key l)).
Proof.
  eapply Permutation_Forall; [apply Permutation_sym, order_by_perm|].
  apply group_by_nonempty.
Qed.

Lemma get_cost_summary_ok (now : datetime) (db : table) (user_id : option string)
  (start_date end_date : option datetime) (start : datetime) :
  default_start start_date (match end_date with Some e => e | None => now end)
                (timedelta_days 30) = Ok start ->
  exists cs, get_cost_summary now db user_id start_date end_date = Ok cs /\
    Forall (fun r => share_ok (cs_total_cost_usd cs) (cm_cost_usd r) (cm_percentage r))
           (cs_by_model cs) /\
    Forall (fun r => share_ok (cs_total_cost_usd cs) (ca_cost_usd r) (ca_percentage r))
           (cs_by_agent cs).
Proof.
  intros Hstart. unfold get_cost_summary. cbv zeta. rewrite Hstart. cbn [Py.bind].
  set (rows := filter _ db). set (total_cost := or_zero_num (sum_cost rows)).
  match goal with
  | |- context [mapM ?f (Sql.order_by ?leb (Sql.group_by ?eqb ?key rows))] =>
      destruct (cost_rows_ok total_cost
                  (fun (g : option string * table) pct =>
                     {| cm_model := or_unknown (fst g);
                        cm_cost_usd := or_zero_num (sum_cost (snd g));
                        cm_execution_count := Sql.count (snd g);
                        cm_percentage := pct |})
                  (fun r => share_ok total_cost (cm_cost_usd r) (cm_percentage r))
                  (Sql.order_by leb (Sql.group_by eqb key rows)))
        as (by_model & Hm & HFm);
        [apply ordered_groups_nonempty | intros g pct H; exact H |]
  end.
  rewrite Hm. cbn [Py.bind].
  match goal with
  | |- context [mapM ?f (Sql.order_by ?leb (Sql.group_by ?eqb ?key rows))] =>
      destruct (cost_rows_ok total_cost
                  (fun (g : (option string * option string) * table) pct =>
                     {| ca_agent_name := or_unknown (fst (fst g));
                        ca_agent_id := snd (fst g);
                        ca_cost_usd := or_zero_num (sum_cost (snd g));
                        ca_execution_count := Sql.count (snd g);
                        ca_percentage := pct |})
                  (fun r => share_ok total_cost (ca_cost_usd r) (ca_percentage r))
                  (Sql.order_by leb (Sql.group_by eqb key rows)))
        as (by_agent & Ha & HFa);
        [apply ordered_groups_nonempty | intros g pct H; exact H |]
  end.
  rewrite Ha. cbn [Py.bind].
  eexists. split; [reflexivity|]. cbn. split; assumption.
Qed.

Lemma model_comparison_ok (g : option string * table) :
  exists m, model_comparison_of g = Ok m /\ model_rate_ok m.
Proof.
  destruct g as [model rows]. unfold model_comparison_of.
  rewrite guarded_percent. cbn [Py.bind].
  eexists. split; [reflexivity|]. unfold model_rate_ok. cbn.
  split; intros H.
  - apply Z.gtb_lt in H. rewrite H. reflexivity.
  - rewrite H. reflexivity.
Qed.

Lemma compare_models_ok (now : datetime) (db : table) (user period : string)
  (start_date end_date : option datetime) :
  exists ms, compare_models now db user period start_date end_date = Ok ms /\
             Forall model_rate_ok ms.
Proof.
  unfold compare_models.
  destruct (route_window now period start_date end_date) as [s e].
  match goal with
  | |- context [mapM _ ?gs] =>
      destruct (mapM_Forall2 model_comparison_of (fun _ m => model_rate_ok m) gs)
        as (ms & Hms & HF); [intros g _; apply model_comparison_ok|]
  end.
  exists ms. split; [exact Hms | eapply Forall2_Forall_r; exact HF].
Qed.

Lemma alert_threshold_eq (alert : BudgetAlert.t) :
  alert_threshold alert
  = Ok (BudgetAlert.threshold_usd alert
        * inject_Z (BudgetAlert.alert_at_percentage alert) / 100)%Q.
Proof. reflexivity. Qed.

Lemma get_cost_forecast_run (now : datetime) (db : table) (user_id : option string) :
  let current := or_zero_num (sum_cost (filter (forecast_current now user_id) db)) in
  let prev := or_zero_num (sum_cost (filter (forecast_prev now user_id) db)) in
  let change := (if positive_num prev then (current - prev) / prev * 100 else 0)%Q in
  get_cost_forecast now db user_id
  = Ok {| CostForecastDTO.current_period_cost_usd := current;
          CostForecastDTO.projected_monthly_cost_usd := (current / 7 * 30)%Q;
          CostForecastDTO.projected_weekly_cost_usd := current;
          CostForecastDTO.daily_average_cost_usd := (current / 7)%Q;
          CostForecastDTO.cost_trend :=
            if positive_num prev
            then if num_gt change 10 then CostForecastDTO.increasing
                 else if num_lt change (-10) then CostForecastDTO.decreasing
                 else CostForecastDTO.stable
            else CostForecastDTO.stable;
          CostForecastDTO.trend_percentage := change |}.
Proof.
  cbv zeta. unfold get_cost_forecast.
  rewrite div_nonzero by (intros H; discriminate H). cbn [Py.bind].
  destruct (positive_num (or_zero_num (sum_cost (filter (forecast_prev now user_id) db))))
    eqn:E.
  - unfold percent_of. rewrite div_nonzero by (apply positive_num_nonzero; exact E).
    cbn [Py.bind fst snd]. reflexivity.
  - cbn [Py.bind fst snd]. reflexivity.
Qed.

Lemma sum_cost_fold (rows : table) :
  or_zero_num (sum_cost rows) = fold_right Qplus 0%Q (map AgentExecution.cost_usd rows).
Proof. destruct rows; reflexivity. Qed.

Lemma period_start_ok (now : datetime) (alert : BudgetAlert.t) :
  period_representable now alert ->
  period_start now alert = Ok (now - timedelta_days (BudgetAlert.period_days alert)).
Proof.
  intros [Hdays Hrep]. unfold period_start, timedelta_of_days, timedelta_max_days.
  destruct (Z.abs _ <=? 999999999) eqn:E; [|apply Z.leb_gt in E; lia].
  cbn [Py.bind]. apply datetime_sub_ok. exact Hrep.
Qed.

Lemma period_start_cases (now : datetime) (alert : BudgetAlert.t) :
  period_start now alert = Ok (now - timedelta_days (BudgetAlert.period_days alert)) \/
  period_start now alert = Err OverflowError.
Proof.
  unfold period_start, timedelta_of_days.
  destruct (Z.abs _ <=? _); cbn [Py.bind]; [apply datetime_sub_cases | auto].
Qed.

Lemma check_alerts_spec (now : datetime) (db : table) (user_id : string)
  (alerts : list BudgetAlert.t) :
  Forall (period_representable now) alerts ->
  exists exceeded,
    check_alerts now db user_id alerts = Ok exceeded /\
    forall alert spend,
      In (alert, spend) exceeded <->
      In alert alerts /\
      spend = current_spend now db user_id alert /\
      (BudgetAlert.threshold_usd alert
       * inject_Z (BudgetAlert.alert_at_percentage alert) / 100 <= spend)%Q.
Proof.
  induction alerts as [|a rest IH]; intros Hall.
  - exists []. split; [reflexivity|]. intros alert spend. cbn. tauto.
  - inversion Hall as [|? ? Ha Hrest]; subst.
    destruct (IH Hrest) as (ex & Hex & Hspec).
    cbn [check_alerts]. rewrite (period_start_ok now a Ha). cbn [Py.bind].
    fold (current_spend now db user_id a).
    rewrite alert_threshold_eq. cbn [Py.bind].
    rewrite Hex. cbn [Py.bind].
    eexists. split; [reflexivity|]. intros alert spend.
    destruct (Qle_bool _ (current_spend now db user_id a)) eqn:E.
    + apply Qle_bool_iff in E. cbn [In]. rewrite Hspec. split.
      * intros [Heq | (Hin & Hsp & Hle)].
        -- inversion Heq; subst. auto.
        -- auto.
      * intros ([-> | Hin] & Hsp & Hle).
        -- left. rewrite Hsp. reflexivity.
        -- right. auto.
    + rewrite Hspec. cbn [In]. split.
      * intros (Hin & Hsp & Hle). auto.
      * intros ([-> | Hin] & Hsp & Hle); [|auto].
        exfalso. rewrite Hsp in Hle. apply Qle_bool_iff in Hle. congruence.
Qed.

Lemma check_alerts_cases (now : datetime) (db : table) (user_id : string)
  (alerts : list BudgetAlert.t) :
  (exists exceeded, check_alerts now db user_id alerts = Ok exceeded) \/
  check_alerts now db user_id alerts = Err OverflowError.
Proof.
  induction alerts as [|a rest IH]; [left; eexists; reflexivity|].
  cbn [check_alerts].
  destruct (period_start_cases now a) as [-> | ->]; [|right; reflexivity].
  cbn [Py.bind]. rewrite alert_threshold_eq. cbn [Py.bind].
  destruct IH as [(ex & ->) | ->]; cbn [Py.bind];
    [left; eexists; reflexivity | right; reflexivity].
Qed.

(** ** No division by zero, whatever the table *)

Lemma getitem_cases {A : Type} (l : list A) (i : Z) :
  (exists x, Py.getitem l i = Ok x) \/ Py.getitem l i = Err IndexError.
Proof.
  unfold Py.getitem. cbv zeta.
  destruct (_ || _); [right; reflexivity|].
  destruct (nth_error _ _); [left; eexists; reflexivity | right; reflexivity].
Qed.

Lemma percentile_no_division (c : spec_float) (times : list Z) :
  ~ divides_by_zero (percentile c times).
Proof.
  unfold divides_by_zero, percentile. destruct times as [|t ts]; [discriminate|].
  unfold Float64.int_mul, Float64.of_int.
  destruct (binary_normalize _ _ _ _ _); cbn [Py.bind]; try discriminate;
    (destruct (Float64.mul _ c); cbn [Float64.to_int Py.bind]; try discriminate;
     match goal with
     | |- Py.getitem ?l ?i <> _ =>
         destruct (getitem_cases l i) as [[x ->] | ->]; discriminate
     end).
Qed.

Lemma bind_no_division {A B : Type} (m : result A) (k : A -> result B) :
  ~ divides_by_zero m -> (forall a, m = Ok a -> ~ divides_by_zero (k a)) ->
  ~ divides_by_zero (Py.bind m k).
Proof.
  unfold divides_by_zero. intros Hm Hk. destruct m as [a|e]; cbn [Py.bind].
  - apply Hk. reflexivity.
  - intros H. apply Hm. inversion H. reflexivity.
Qed.

Lemma get_overview_no_division (now : datetime) (db : table) (user_id : option string)
  (start_date end_date : option datetime) :
  ~ divides_by_zero (get_overview now db user_id start_date end_date).
Proof.
  unfold get_overview. cbv zeta.
  set (stop := match end_date with Some e => e | None => now end).
  destruct (default_start_cases start_date stop (timedelta_hours 24)) as [-> | ->];
    [|discriminate].
  set (start := match start_date with Some s => s | None => _ end).
  cbn [Py.bind].
  set (rows := filter (overview_filters user_id start stop) db).
  destruct (top_agents_ok rows) as (tops & Htops & _).
  destruct (cost_by_model_ok rows (or_zero_num (sum_cost rows))) as (costs & Hcosts & _).
  rewrite guarded_percent. cbn [Py.bind]. rewrite p50_eq. cbn [Py.bind].
  apply bind_no_division; [apply percentile_no_division|]. intros v95 _.
  apply bind_no_division; [apply percentile_no_division|]. intros v99 _.
  rewrite Htops. cbn [Py.bind]. rewrite Hcosts. cbn [Py.bind].
  destruct (datetime_sub_cases start (stop - start)) as [-> | ->]; [|discriminate].
  cbn [Py.bind]. rewrite guarded_percent. cbn [Py.bind].
  rewrite estimated_monthly_cost_eq. cbn [Py.bind].
  rewrite !calc_change_eq. cbn [Py.bind]. discriminate.
Qed.

Lemma no_division_when_ok {A : Type} (m : result A) (P : A -> Prop) :
  (exists a, m = Ok a /\ P a) -> ~ divides_by_zero m.
Proof. intros (a & -> & _). discriminate. Qed.

Lemma get_agent_stats_no_division (now : datetime) (db : table) (agent_id : string)
  (user_id : option string) (start_date end_date : option datetime) :
  ~ divides_by_zero (get_agent_stats now db agent_id user_id start_date end_date).
Proof.
  destruct (default_start_cases start_date
              (match end_date with Some e => e | None => now end) (timedelta_days 30))
    as [H | H].
  - eapply no_division_when_ok, get_agent_stats_ok, H.
  - unfold divides_by_zero, get_agent_stats. cbv zeta. rewrite H. discriminate.
Qed.

Lemma get_cost_summary_no_division (now : datetime) (db : table) (user_id : option string)
  (start_date end_date : option datetime) :
  ~ divides_by_zero (get_cost_summary now db user_id start_date end_date).
Proof.
  destruct (default_start_cases start_date
              (match end_date with Some e => e | None => now end) (timedelta_days 30))
    as [H | H].
  - eapply no_division_when_ok, get_cost_summary_ok, H.
  - unfold divides_by_zero, get_cost_summary. cbv zeta. rewrite H. discriminate.
Qed.


(** C2.  Every ratio of the aggregation outputs is guarded: a success rate
    is successful/total*100 when the total is positive and is exactly 0
    (not an undefined value) when the total is 0; a cost share is
    group_cost/total_cost*100 when the total cost is positive and 0 when it
    is 0; and no aggregation operation (overview, agent statistics, cost
    summary, cost forecast, model comparison, budget check) stops on a
    division by zero, for any table and any dates.  The overview, the agent
    statistics and the cost summary return their result whenever the dates
    they compute are dates Python can hold. *)
Theorem ratios_guarded (now : datetime) (db : table) (alerts : list BudgetAlert.t)
  (user_id : option string) (user agent_id period : string)
  (start_date end_date : option datetime) :
  (fits_in_memory db ->
   window_representable now start_date end_date ->
   exists dto,
     get_overview now db user_id start_date end_date = Ok dto /\
     (0 < AnalyticsOverviewDTO.total_executions dto ->
      AnalyticsOverviewDTO.success_rate dto
      = (inject_Z (AnalyticsOverviewDTO.successful_executions dto)
         / inject_Z (AnalyticsOverviewDTO.total_executions dto) * 100)%Q) /\
     (AnalyticsOverviewDTO.total_executions dto = 0 ->
      AnalyticsOverviewDTO.success_rate dto = 0%Q) /\
     Forall top_agent_rate_ok (AnalyticsOverviewDTO.top_agents dto) /\
     Forall (cost_share_ok (AnalyticsOverviewDTO.total_cost_usd dto))
            (AnalyticsOverviewDTO.cost_by_model dto)) /\
  (representable (fst (month_window now start_date end_date)) ->
   exists stats,
     get_agent_stats now db agent_id user_id start_date end_date = Ok stats /\
     match stats with
     | None => True
     | Some st =>
         (0 < AgentStatsDTO.total_executions st ->
          AgentStatsDTO.success_rate st
          = (inject_Z (AgentStatsDTO.successful_executions st)
             / inject_Z (AgentStatsDTO.total_executions st) * 100)%Q) /\
         (AgentStatsDTO.total_executions st = 0 -> AgentStatsDTO.success_rate st = 0%Q) /\
         (0 < AgentStatsDTO.total_executions st ->
          AgentStatsDTO.avg_cost_per_execution_usd st
          = (AgentStatsDTO.total_cost_usd st
             / inject_Z (AgentStatsDTO.total_executions st))%Q) /\
         (AgentStatsDTO.total_executions st = 0 ->
          AgentStatsDTO.avg_cost_per_execution_usd st = 0%Q)
     end) /\
  (representable (fst (month_window now start_date end_date)) ->
   exists cs,
     get_cost_summary now db user_id start_date end_date = Ok cs /\
     Forall (fun r => share_ok (cs_total_cost_usd cs) (cm_cost_usd r) (cm_percentage r))
            (cs_by_model cs) /\
     Forall (fun r => share_ok (cs_total_cost_usd cs) (ca_cost_usd r) (ca_percentage r))
            (cs_by_agent cs)) /\
  (exists models,
     compare_models now db user period start_date end_date = Ok models /\
     Forall model_rate_ok models) /\
  ~ divides_by_zero (get_overview now db user_id start_date end_date) /\
  ~ divides_by_zero (get_agent_stats now db agent_id user_id start_date end_date) /\
  ~ divides_by_zero (get_cost_summary now db user_id start_date end_date) /\
  ~ divides_by_zero (get_cost_forecast now db user_id) /\
  ~ divides_by_zero (compare_models now db user period start_date end_date) /\
  ~ divides_by_zero (check_budget_exceeded now alerts db user).
Proof.
  split.
  { intros Hfit Hrep.
    destruct (get_overview_run now db user_id start_date end_date Hfit Hrep)
      as (tops & costs & HFt & HFc & Hrun).
    eexists. split; [exact Hrun|]. cbn.
    repeat split; try assumption.
    - intros H. apply Z.gtb_lt in H. rewrite H. reflexivity.
    - intros H. rewrite H. reflexivity. }
  split.
  { intros Hrep. eapply get_agent_stats_ok, default_start_ok, Hrep. }
  split.
  { intros Hrep. eapply get_cost_summary_ok, default_start_ok, Hrep. }
  pose proof (compare_models_ok now db user period start_date end_date) as Hcmp.
  split; [exact Hcmp|].
  split; [apply get_overview_no_division|].
  split; [apply get_agent_stats_no_division|].
  split; [apply get_cost_summary_no_division|].
  split; [unfold divides_by_zero; rewrite get_cost_forecast_run; discriminate|].
  split; [eapply no_division_when_ok, Hcmp|].
  unfold divides_by_zero, check_budget_exceeded.
  destruct (check_alerts_cases now db user (get_active_by_user alerts user))
    as [(ex & ->) | ->]; discriminate.
Qed.


(** C4.  The budget check recomputes, for every active alert of the user,
    the owner's spend over the alert's rolling period, that is the sum of
    [cost_usd] over the owner's executions that started at or after
    now - period_days (of the alert's agent only, for an agent alert with a
    scope id), and reports the alert exactly when
    spend >= threshold * alert_at_percentage / 100; with threshold 100 and
    percentage 80 a spend of 79.99 is not reported and a spend of 80.00 is.
    The periods of the user's active alerts are periods Python can
    compute. *)
Theorem budget_exceeded_check (now : datetime) (alerts : list BudgetAlert.t)
  (db : table) (user_id : string) :
  (forall alert,
     In alert alerts -> BudgetAlert.user_id alert = user_id ->
     BudgetAlert.is_active alert = true -> period_representable now alert) ->
  let spend_of (alert : BudgetAlert.t) : Q :=
    fold_right Qplus 0%Q
      (map AgentExecution.cost_usd
         (filter
            (fun r =>
               match AgentExecution.user_id r with
               | Some u => String.eqb u user_id
               | None => false
               end
               && (now - BudgetAlert.period_days alert * 86400000000
                   <=? AgentExecution.started_at r)
               && match BudgetAlert.scope alert, BudgetAlert.scope_id alert with
                  | BudgetScope.agent, Some a =>
                      match AgentExecution.agent_id r with
                      | Some x => String.eqb x a
                      | None => false
                      end
                  | _, _ => true
                  end) db)) in
  exists exceeded,
    check_budget_exceeded now alerts db user_id = Ok exceeded /\
    (forall alert spend,
       In (alert, spend) exceeded <->
       (In alert alerts /\ BudgetAlert.user_id alert = user_id /\
        BudgetAlert.is_active alert = true) /\
       spend = spend_of alert /\
       (BudgetAlert.threshold_usd alert
        * inject_Z (BudgetAlert.alert_at_percentage alert) / 100 <= spend)%Q) /\
    (forall alert,
       In alert alerts -> BudgetAlert.user_id alert = user_id ->
       BudgetAlert.is_active alert = true ->
       BudgetAlert.threshold_usd alert == 100 ->
       BudgetAlert.alert_at_percentage alert = 80 ->
       (spend_of alert == 79.99 -> ~ In (alert, spend_of alert) exceeded) /\
       (spend_of alert == 80.00 -> In (alert, spend_of alert) exceeded)).
Proof.
  intros Hperiods spend_of. unfold check_budget_exceeded.
  assert (Hactive : forall alert,
             In alert (get_active_by_user alerts user_id) <->
             In alert alerts /\ BudgetAlert.user_id alert = user_id /\
             BudgetAlert.is_active alert = true).
  { intros alert. unfold get_active_by_user.
    rewrite filter_In, andb_true_iff, String.eqb_eq. tauto. }
  assert (Hspend : forall alert, current_spend now db user_id alert = spend_of alert).
  { intros alert. unfold current_spend, spend_since, spend_of.
    rewrite sum_cost_fold. f_equal. f_equal. apply filter_ext. intros r.
    unfold budget_filters, Sql.text_is, timedelta_days, microseconds_per_day.
    f_equal.
    destruct (BudgetAlert.scope alert), (BudgetAlert.scope_id alert); reflexivity. }
  destruct (check_alerts_spec now db user_id (get_active_by_user alerts user_id))
    as (ex & Hex & Hspec).
  { apply Forall_forall. intros alert Hin. apply Hactive in Hin.
    destruct Hin as (Hin & Hu & Ha). apply Hperiods; assumption. }
  exists ex. split; [exact Hex|]. split.
  - intros alert spend. rewrite Hspec, Hactive, Hspend. tauto.
  - intros alert Hin Hu Ha Hth Hpct. split; intros Hsp.
    + rewrite Hspec, Hspend. intros (_ & _ & Hle).
      rewrite Hth, Hpct, Hsp in Hle. revert Hle. apply Qlt_not_le. reflexivity.
    + rewrite Hspec, Hspend. split; [apply Hactive; auto|]. split; [reflexivity|].
      rewrite Hth, Hpct, Hsp. discriminate.
Qed.

(** C5 (as the code has it).  The overview aggregates exactly the
    executions whose [started_at] lies in the closed window [start, end]: an
    execution that starts at [end] is included.  A date that is supplied is
    the bound of the window; without an end date the window ends now,
    without a start date it starts 24 hours before its end, so without
    dates it is the 24 hours ending now. *)
Theorem overview_window_closed (now : datetime) (db : table)
  (user_id : option string) (start_date end_date : option datetime) :
  fits_in_memory db ->
  window_representable now start_date end_date ->
  let start := fst (overview_window now start_date end_date) in
  let stop := snd (overview_window now start_date end_date) in
  exists dto rows,
    get_overview now db user_id start_date end_date = Ok dto /\
    rows = filter (fun r => (start <=? AgentExecution.started_at r)
                            && (AgentExecution.started_at r <=? stop)
                            && user_filter user_id r) db /\
    (forall r, In r rows <->
               In r db /\
               start <= AgentExecution.started_at r <= stop /\
               user_filter user_id r = true) /\
    AnalyticsOverviewDTO.total_executions dto = Sql.count rows /\
    AnalyticsOverviewDTO.successful_executions dto
      = or_zero (count_status ExecutionStatus.success rows) /\
    AnalyticsOverviewDTO.failed_executions dto
      = or_zero (count_status ExecutionStatus.failure rows) /\
    AnalyticsOverviewDTO.avg_execution_time_ms dto = or_zero_num (avg_time rows) /\
    AnalyticsOverviewDTO.total_tokens dto = or_zero (sum_tokens rows) /\
    AnalyticsOverviewDTO.total_cost_usd dto = or_zero_num (sum_cost rows) /\
    (forall s, start_date = Some s -> start = s) /\
    (forall e, end_date = Some e -> stop = e) /\
    (end_date = None -> stop = now) /\
    (start_date = None -> start = stop - 24 * 3600000000) /\
    (start_date = None -> end_date = None ->
     start = now - 24 * 3600000000 /\ stop = now).
Proof.
  intros Hfit Hrep start stop.
  destruct (get_overview_run now db user_id start_date end_date Hfit Hrep)
    as (tops & costs & _ & _ & Hrun).
  fold start in Hrun. fold stop in Hrun.
  eexists. exists (filter (overview_filters user_id start stop) db).
  split; [exact Hrun|]. split; [reflexivity|]. split.
  { intros r. rewrite filter_In. unfold overview_filters.
    rewrite !andb_true_iff, !Z.leb_le. tauto. }
  cbn. repeat split; subst start stop; intros; subst; reflexivity.
Qed.

(** C6.  The overview's estimated monthly cost is total_cost * 30 when the
    window is exactly one day long, and total_cost * 30 / max(days, 1) for
    every other length, [days] being the whole days of the window: its
    length in microseconds divided by 86400000000, rounded down. *)
Theorem estimated_monthly_cost_formula (now : datetime) (db : table)
  (user_id : option string) (start_date end_date : option datetime) :
  fits_in_memory db ->
  window_representable now start_date end_date ->
  let start := fst (overview_window now start_date end_date) in
  let stop := snd (overview_window now start_date end_date) in
  let length := stop - start in
  let whole_days := length / 86400000000 in
  exists dto,
    get_overview now db user_id start_date end_date = Ok dto /\
    (length = 86400000000 ->
     AnalyticsOverviewDTO.estimated_monthly_cost_usd dto
     = (AnalyticsOverviewDTO.total_cost_usd dto * 30)%Q) /\
    (length <> 86400000000 ->
     AnalyticsOverviewDTO.estimated_monthly_cost_usd dto
     == AnalyticsOverviewDTO.total_cost_usd dto * 30
        / inject_Z (Z.max whole_days 1)).
Proof.
  intros Hfit Hrep start stop length whole_days.
  destruct (get_overview_run now db user_id start_date end_date Hfit Hrep)
    as (tops & costs & _ & _ & Hrun).
  fold start in Hrun. fold stop in Hrun. fold length in Hrun.
  change (days length) with whole_days in Hrun.
  eexists. split; [exact Hrun|]. cbn. split.
  - intros Hlen. unfold whole_days. rewrite Hlen. reflexivity.
  - intros _. destruct (whole_days =? 1) eqn:E; [|reflexivity].
    apply Z.eqb_eq in E. rewrite E.
    change (inject_Z (Z.max 1 1)) with 1%Q.
    unfold Qdiv. change (/ 1)%Q with 1%Q. rewrite Qmult_1_r. reflexivity.
Qed.


(** ** Pagination *)

Lemma ceil_div (total page_size : Z) :
  0 < page_size ->
  (total + page_size - 1) / page_size
  = Qceiling (inject_Z total / inject_Z page_size).
Proof.
  intros Hp. unfold Qceiling.
  assert (Hneg : (- (inject_Z total / inject_Z page_size)
                  == inject_Z (- total) / inject_Z page_size)%Q).
  { rewrite inject_Z_opp. unfold Qdiv. ring. }
  rewrite Hneg, <- Zdiv_Qdiv.
  pose proof (Z.div_mod (- total) page_size ltac:(lia)) as Hdm.
  pose proof (Z.mod_pos_bound (- total) page_size Hp) as Hmod.
  symmetry. apply Z.div_unique with (r := page_size - 1 - (- total) mod page_size).
  - left. lia.
  - lia.
Qed.

Lemma offset_limit_ok {A : Type} (off lim : Z) (l : list A) :
  0 <= off < 2 ^ 63 -> 0 <= lim < 2 ^ 63 ->
  Sql.offset_limit off lim l = Ok (firstn (Z.to_nat lim) (skipn (Z.to_nat off) l)).
Proof.
  intros Hoff Hlim. unfold Sql.offset_limit, Sql.int64_max.
  destruct (off <? 0) eqn:E1; [apply Z.ltb_lt in E1; lia|].
  destruct (lim <? 0) eqn:E2; [apply Z.ltb_lt in E2; lia|].
  destruct (2 ^ 63 - 1 <? off) eqn:E3; [apply Z.ltb_lt in E3; lia|].
  destruct (2 ^ 63 - 1 <? lim) eqn:E4; [apply Z.ltb_lt in E4; lia|].
  reflexivity.
Qed.

Lemma sort_column_key (sort_by : string) :
  is_column sort_by = true -> sort_column sort_by = Ok (sort_key sort_by).
Proof.
  unfold is_column, sort_column, sort_key.
  destruct (column sort_by) as [c|]; [reflexivity | discriminate].
Qed.

Lemma list_paginated_run (db : table) (f : list_filters) (page page_size : Z)
  (sort_by sort_order : string) :
  1 <= page -> 1 <= page_size < 2 ^ 63 -> (page - 1) * page_size < 2 ^ 63 ->
  is_column sort_by = true ->
  exists sorted,
    Permutation sorted (filter (list_where f) db) /\
    list_paginated db f page page_size sort_by sort_order
    = Ok {| PaginatedExecutionsDTO.items :=
              map summary_of
                (firstn (Z.to_nat page_size)
                   (skipn (Z.to_nat ((page - 1) * page_size)) sorted));
            PaginatedExecutionsDTO.total := Sql.count (filter (list_where f) db);
            PaginatedExecutionsDTO.page := page;
            PaginatedExecutionsDTO.page_size := page_size;
            PaginatedExecutionsDTO.total_pages :=
              (Sql.count (filter (list_where f) db) + page_size - 1) / page_size |}.
Proof.
  intros Hpage Hsize Hoff Hcol. unfold list_paginated. cbv zeta.
  rewrite (sort_column_key sort_by Hcol). cbn [Py.bind].
  match goal with
  | |- context [Sql.offset_limit _ _ ?l] => exists l
  end.
  split; [destruct (String.eqb sort_order "desc"); apply order_by_perm|].
  rewrite offset_limit_ok by nia. cbn [Py.bind].
  unfold Py.floordiv.
  destruct (page_size =? 0) eqn:E; [apply Z.eqb_eq in E; lia|].
  reflexivity.
Qed.

(** C8.  A paginated listing with page size p, sorted by a column of the
    table, returns at most p items, its total_pages is ceil(total / p), and
    a page beyond the last one returns no items while the total, which does
    not depend on the page, is the number of matching executions.  The
    offset and the page size are numbers the driver can bind (below
    [2^63]). *)
Theorem pagination (db : table) (f : list_filters) (page page_size : Z)
  (sort_by sort_order : string) :
  1 <= page -> 1 <= page_size < 2 ^ 63 -> (page - 1) * page_size < 2 ^ 63 ->
  is_column sort_by = true ->
  exists dto,
    list_paginated db f page page_size sort_by sort_order = Ok dto /\
    Z.of_nat (List.length (PaginatedExecutionsDTO.items dto)) <= page_size /\
    PaginatedExecutionsDTO.total dto = Sql.count (filter (list_where f) db) /\
    PaginatedExecutionsDTO.total_pages dto
    = Qceiling (inject_Z (PaginatedExecutionsDTO.total dto) / inject_Z page_size) /\
    (PaginatedExecutionsDTO.total_pages dto < page ->
     PaginatedExecutionsDTO.items dto = []).
Proof.
  intros Hpage Hsize Hoff Hcol.
  destruct (list_paginated_run db f page page_size sort_by sort_order
              Hpage Hsize Hoff Hcol) as (sorted & Hperm & Hrun).
  eexists. split; [exact Hrun|]. cbn.
  split.
  { rewrite length_map. pose proof (firstn_le_length (Z.to_nat page_size)
      (skipn (Z.to_nat ((page - 1) * page_size)) sorted)). lia. }
  split; [reflexivity|].
  split; [apply ceil_div; lia|].
  intros Hbeyond.
  set (total := Sql.count (filter (list_where f) db)) in *.
  assert (Hlen : Z.of_nat (List.length sorted) = total).
  { unfold total, Sql.count. f_equal. apply Permutation_length. exact Hperm. }
  assert (Htotal : total <= (page - 1) * page_size).
  { pose proof (Z.div_mod (total + page_size - 1) page_size ltac:(lia)) as Hdm.
    pose proof (Z.mod_pos_bound (total + page_size - 1) page_size ltac:(lia)) as Hmod.
    nia. }
  rewrite skipn_all2 by lia. rewrite firstn_nil. reflexivity.
Qed.

(** C9.  An export, JSON or CSV, carries at most 10,000 executions: it is
    one paginated query for page 1 with page size 10,000, so matching
    executions beyond the first 10,000 are left out, while the JSON export's
    total_records is the full number of matching executions. *)
Theorem export_truncates (now : datetime) (db : table) (user format period : string)
  (start_date end_date : option datetime) :
  let window := route_window now period start_date end_date in
  let filters := export_filters user (fst window) (snd window) in
  let matching := filter (list_where filters) db in
  exists ex paginated sorted,
    export_analytics_data now db user format period start_date end_date = Ok ex /\
    list_paginated db filters 1 10000 "started_at" "desc" = Ok paginated /\
    export_items ex = PaginatedExecutionsDTO.items paginated /\
    Permutation sorted matching /\
    export_items ex = map summary_of (firstn (Z.to_nat 10000) sorted) /\
    Z.of_nat (List.length (export_items ex)) <= 10000 /\
    (10000 < Sql.count matching ->
     Z.of_nat (List.length (export_items ex)) = 10000) /\
    (format <> "csv"%string ->
     ex = JsonExport (fst window) (snd window) (Sql.count matching) (export_items ex)).
Proof.
  intros window filters matching. unfold export_analytics_data.
  fold window. destruct window as [s e] eqn:Ew. cbn [fst snd] in *.
  destruct (list_paginated_run db filters 1 10000 "started_at" "desc")
    as (sorted & Hperm & Hrun); [lia | lia | lia | reflexivity |].
  fold filters. rewrite Hrun. cbn [Py.bind].
  change (Z.to_nat ((1 - 1) * 10000)) with 0%nat in *. cbn [skipn] in *.
  assert (Hitems : forall ex,
             export_items ex = map summary_of (firstn (Z.to_nat 10000) sorted) ->
             Z.of_nat (List.length (export_items ex)) <= 10000 /\
             (10000 < Sql.count matching ->
              Z.of_nat (List.length (export_items ex)) = 10000)).
  { intros ex ->. rewrite length_map. split.
    - pose proof (firstn_le_length (Z.to_nat 10000) sorted). lia.
    - intros Hmany. apply Permutation_length in Hperm.
      unfold Sql.count in Hmany. fold matching in Hperm.
      rewrite firstn_length_le by lia. lia. }
  destruct (String.eqb format "csv") eqn:Ef.
  - eexists. eexists. exists sorted.
    split; [reflexivity|]. split; [reflexivity|]. split; [reflexivity|].
    split; [exact Hperm|]. split; [reflexivity|].
    split; [apply Hitems; reflexivity|]. split; [apply Hitems; reflexivity|].
    intros Hne. apply String.eqb_eq in Ef. contradiction.
  - eexists. eexists. exists sorted.
    split; [reflexivity|]. split; [reflexivity|]. split; [reflexivity|].
    split; [exact Hperm|]. split; [reflexivity|].
    split; [apply Hitems; reflexivity|]. split; [apply Hitems; reflexivity|].
    intros _. reflexivity.
Qed.


(** C5, refuted as stated: an execution that starts exactly at [end] is
    counted by the overview, so the window is not half-open. *)
Lemma overview_window_not_half_open :
  ~ (forall (db : table) (start stop : datetime) (dto : AnalyticsOverviewDTO.t),
       get_overview stop db None (Some start) (Some stop) = Ok dto ->
       AnalyticsOverviewDTO.total_executions dto
       = Sql.count
           (filter (fun r => (start <=? AgentExecution.started_at r)
                             && (AgentExecution.started_at r <? stop)) db)).
Proof.
  intros H.
  destruct (get_overview_run 100 sample_db None (Some 0) (Some 100))
    as (tops & costs & _ & _ & Hrun);
    [reflexivity | unfold window_representable, representable; cbn; lia |].
  specialize (H sample_db 0 100 _ Hrun).
  vm_compute in H. discriminate H.
Qed.

(** * The code on sample data *)

(** [int(20 * 0.95)] is 19 and [int(100 * 0.99)] is 99, as in Python. *)
Example int_mul_0_95_20 : Float64.int_mul 20 Float64.lit_0_95 = Ok 19.
Proof. vm_compute. reflexivity. Qed.

Example int_mul_0_99_100 : Float64.int_mul 100 Float64.lit_0_99 = Ok 99.
Proof. vm_compute. reflexivity. Qed.

(** Far beyond any list a machine can hold the binary64 product does round
    across an integer: [int(142160700112801 * 0.99)] is one more than the
    exact floor. *)
Example int_mul_0_99_rounds_up :
  Float64.int_mul 142160700112801 Float64.lit_0_99 = Ok 140739093111673 /\
  99 * 142160700112801 / 100 = 140739093111672.
Proof. split; vm_compute; reflexivity. Qed.

(** The overview of the sample table over [0, 100]: four executions, three
    of them successful, positive times 10, 20, 30. *)
Example sample_overview :
  exists dto,
    get_overview 100 sample_db (Some "u1"%string) (Some 0) (Some 100) = Ok dto /\
    AnalyticsOverviewDTO.total_executions dto = 4 /\
    AnalyticsOverviewDTO.successful_executions dto = 3 /\
    AnalyticsOverviewDTO.success_rate dto == 75 /\
    AnalyticsOverviewDTO.p50_execution_time_ms dto = 20 /\
    AnalyticsOverviewDTO.p95_execution_time_ms dto = 30 /\
    AnalyticsOverviewDTO.p99_execution_time_ms dto = 30 /\
    AnalyticsOverviewDTO.total_cost_usd dto == 79.99 /\
    AnalyticsOverviewDTO.executions_change_percent dto = None /\
    AnalyticsOverviewDTO.active_agents_count dto = 2 /\
    map TopAgentDTO.execution_count (AnalyticsOverviewDTO.top_agents dto) = [2; 1].
Proof.
  eexists. split; [vm_compute; reflexivity|].
  cbn. repeat split; reflexivity.
Qed.

(** The sample alert (threshold 100 at 80 percent) against a spend of
    79.99 and against a spend of 80.00. *)
Example sample_budget_below :
  check_budget_exceeded 100 [sample_alert] sample_db "u1" = Ok [].
Proof. vm_compute. reflexivity. Qed.

Example sample_budget_reached :
  exists spend,
    check_budget_exceeded 100 [sample_alert]
      (sample_execution "e5" None 50 ExecutionStatus.success 5 0.01 :: sample_db) "u1"
    = Ok [(sample_alert, spend)] /\ spend == 80.00.
Proof. eexists. split; [vm_compute; reflexivity | reflexivity]. Qed.

(** Pages of size 3 over the four sample executions: two pages, the third
    is empty. *)
Example sample_pages :
  exists p1 p3,
    list_paginated sample_db sample_filters 1 3 "started_at" "desc" = Ok p1 /\
    list_paginated sample_db sample_filters 3 3 "started_at" "desc" = Ok p3 /\
    map AgentExecutionSummaryDTO.id (PaginatedExecutionsDTO.items p1)
      = ["e4"; "e3"; "e2"]%string /\
    PaginatedExecutionsDTO.total_pages p1 = 2 /\
    PaginatedExecutionsDTO.items p3 = [] /\
    PaginatedExecutionsDTO.total p3 = 4.
Proof.
  eexists. eexists. split; [vm_compute; reflexivity|].
  split; [vm_compute; reflexivity|]. cbn. repeat split; reflexivity.
Qed.

(** * The claims on sample data *)

(** C1, on the sample table: the percentile statement holds for its four
    executions. *)
Lemma overview_percentiles_witness :
  fits_in_memory sample_db /\
  window_representable 100 (Some 0) (Some 100) /\
  (let window := overview_window 100 (Some 0) (Some 100) in
  let rows := filter (overview_filters (Some "u1"%string) (fst window) (snd window)) sample_db in
  exists dto times,
    get_overview 100 sample_db (Some "u1"%string) (Some 0) (Some 100) = Ok dto /\
    Permutation times
      (filter (fun t => t >? 0) (map AgentExecution.execution_time_ms rows)) /\
    StronglySorted Z.le times /\
    let n := Z.of_nat (List.length times) in
    (n = 0 ->
     AnalyticsOverviewDTO.p50_execution_time_ms dto = 0 /\
     AnalyticsOverviewDTO.p95_execution_time_ms dto = 0 /\
     AnalyticsOverviewDTO.p99_execution_time_ms dto = 0) /\
    (0 < n ->
     nth_error times (Z.to_nat (Qfloor (0.50 * inject_Z n)))
       = Some (AnalyticsOverviewDTO.p50_execution_time_ms dto) /\
     nth_error times (Z.to_nat (Qfloor (0.95 * inject_Z n)))
       = Some (AnalyticsOverviewDTO.p95_execution_time_ms dto) /\
     nth_error times (Z.to_nat (Qfloor (0.99 * inject_Z n)))
       = Some (AnalyticsOverviewDTO.p99_execution_time_ms dto))).
Proof.
  split; [reflexivity|].
  split; [unfold window_representable, representable; cbn; lia|].
  apply (overview_percentiles 100 sample_db (Some "u1"%string) (Some 0) (Some 100));
    [reflexivity
    | unfold window_representable, representable; cbn; lia].
Defined.

(** C2, on the sample table: the overview returns and its ratios are the
    guarded ones. *)
Lemma ratios_guarded_witness :
  fits_in_memory sample_db /\
  window_representable 100 (Some 0) (Some 100) /\
  (exists dto,
     get_overview 100 sample_db (Some "u1"%string) (Some 0) (Some 100) = Ok dto /\
     (0 < AnalyticsOverviewDTO.total_executions dto ->
      AnalyticsOverviewDTO.success_rate dto
      = (inject_Z (AnalyticsOverviewDTO.successful_executions dto)
         / inject_Z (AnalyticsOverviewDTO.total_executions dto) * 100)%Q) /\
     (AnalyticsOverviewDTO.total_executions dto = 0 ->
      AnalyticsOverviewDTO.success_rate dto = 0%Q) /\
     Forall top_agent_rate_ok (AnalyticsOverviewDTO.top_agents dto) /\
     Forall (cost_share_ok (AnalyticsOverviewDTO.total_cost_usd dto))
            (AnalyticsOverviewDTO.cost_by_model dto)).
Proof.
  split; [reflexivity|].
  split; [unfold window_representable, representable; cbn; lia|].
  apply (proj1 (ratios_guarded 100 sample_db [sample_alert] (Some "u1"%string)
                  "u1" "a1" "7d" (Some 0) (Some 100)));
    [reflexivity | unfold window_representable, representable; cbn; lia].
Defined.


(** C4, on the sample table and the sample alert, whose period is 30 days. *)
Lemma budget_exceeded_check_witness :
  (forall alert,
     In alert [sample_alert] -> BudgetAlert.user_id alert = "u1"%string ->
     BudgetAlert.is_active alert = true -> period_representable 100 alert) /\
  (let spend_of (alert : BudgetAlert.t) : Q :=
    fold_right Qplus 0%Q
      (map AgentExecution.cost_usd
         (filter
            (fun r =>
               match AgentExecution.user_id r with
               | Some u => String.eqb u "u1"%string
               | None => false
               end
               && (100 - BudgetAlert.period_days alert * 86400000000
                   <=? AgentExecution.started_at r)
               && match BudgetAlert.scope alert, BudgetAlert.scope_id alert with
                  | BudgetScope.agent, Some a =>
                      match AgentExecution.agent_id r with
                      | Some x => String.eqb x a
                      | None => false
                      end
                  | _, _ => true
                  end) sample_db)) in
  exists exceeded,
    check_budget_exceeded 100 [sample_alert] sample_db "u1"%string = Ok exceeded /\
    (forall alert spend,
       In (alert, spend) exceeded <->
       (In alert [sample_alert] /\ BudgetAlert.user_id alert = "u1"%string /\
        BudgetAlert.is_active alert = true) /\
       spend = spend_of alert /\
       (BudgetAlert.threshold_usd alert
        * inject_Z (BudgetAlert.alert_at_percentage alert) / 100 <= spend)%Q) /\
    (forall alert,
       In alert [sample_alert] -> BudgetAlert.user_id alert = "u1"%string ->
       BudgetAlert.is_active alert = true ->
       BudgetAlert.threshold_usd alert == 100 ->
       BudgetAlert.alert_at_percentage alert = 80 ->
       (spend_of alert == 79.99 -> ~ In (alert, spend_of alert) exceeded) /\
       (spend_of alert == 80.00 -> In (alert, spend_of alert) exceeded))).
Proof.
  split; [intros alert [<- | []] _ _; unfold period_representable, representable; cbn; lia|].
  apply (budget_exceeded_check 100 [sample_alert] sample_db "u1"%string);
    [intros alert [<- | []] _ _; unfold period_representable, representable; cbn; lia].
Defined.

(** C5, on the sample table: the rows of the closed window [0, 100], asked
    for at time 200. *)
Lemma overview_window_closed_witness :
  fits_in_memory sample_db /\
  window_representable 200 (Some 0) (Some 100) /\
  (let start := fst (overview_window 200 (Some 0) (Some 100)) in
  let stop := snd (overview_window 200 (Some 0) (Some 100)) in
  exists dto rows,
    get_overview 200 sample_db (Some "u1"%string) (Some 0) (Some 100) = Ok dto /\
    rows = filter (fun r => (start <=? AgentExecution.started_at r)
                            && (AgentExecution.started_at r <=? stop)
                            && user_filter (Some "u1"%string) r) sample_db /\
    (forall r, In r rows <->
               In r sample_db /\
               start <= AgentExecution.started_at r <= stop /\
               user_filter (Some "u1"%string) r = true) /\
    AnalyticsOverviewDTO.total_executions dto = Sql.count rows /\
    AnalyticsOverviewDTO.successful_executions dto
      = or_zero (count_status ExecutionStatus.success rows) /\
    AnalyticsOverviewDTO.failed_executions dto
      = or_zero (count_status ExecutionStatus.failure rows) /\
    AnalyticsOverviewDTO.avg_execution_time_ms dto = or_zero_num (avg_time rows) /\
    AnalyticsOverviewDTO.total_tokens dto = or_zero (sum_tokens rows) /\
    AnalyticsOverviewDTO.total_cost_usd dto = or_zero_num (sum_cost rows) /\
    (forall s, (Some 0) = Some s -> start = s) /\
    (forall e, (Some 100) = Some e -> stop = e) /\
    ((Some 100) = None -> stop = 200) /\
    ((Some 0) = None -> start = stop - 24 * 3600000000) /\
    ((Some 0) = None -> (Some 100) = None ->
     start = 200 - 24 * 3600000000 /\ stop = 200)).
Proof.
  split; [reflexivity|].
  split; [unfold window_representable, representable; cbn; lia|].
  apply (overview_window_closed 200 sample_db (Some "u1"%string) (Some 0) (Some 100));
    [reflexivity
    | unfold window_representable, representable; cbn; lia].
Defined.

(** C6, on the sample table and a window of seven days: the estimate is the
    total cost times 30 over 7. *)
Lemma estimated_monthly_cost_formula_witness :
  fits_in_memory sample_db /\
  window_representable 604800000000 (Some 0) (Some 604800000000) /\
  (let start := fst (overview_window 604800000000 (Some 0) (Some 604800000000)) in
  let stop := snd (overview_window 604800000000 (Some 0) (Some 604800000000)) in
  let length := stop - start in
  let whole_days := length / 86400000000 in
  exists dto,
    get_overview 604800000000 sample_db (Some "u1"%string) (Some 0) (Some 604800000000) = Ok dto /\
    (length = 86400000000 ->
     AnalyticsOverviewDTO.estimated_monthly_cost_usd dto
     = (AnalyticsOverviewDTO.total_cost_usd dto * 30)%Q) /\
    (length <> 86400000000 ->
     AnalyticsOverviewDTO.estimated_monthly_cost_usd dto
     == AnalyticsOverviewDTO.total_cost_usd dto * 30
        / inject_Z (Z.max whole_days 1))).
Proof.
  split; [reflexivity|].
  split; [unfold window_representable, representable; cbn; lia|].
  apply (estimated_monthly_cost_formula 604800000000 sample_db (Some "u1"%string) (Some 0) (Some 604800000000));
    [reflexivity
    | unfold window_representable, representable; cbn; lia].
Defined.

(** C8, on the sample table: the first page of size 2. *)
Lemma pagination_witness :
  1 <= 1 /\
  1 <= 2 < 2 ^ 63 /\
  (1 - 1) * 2 < 2 ^ 63 /\
  is_column "started_at" = true /\
  (exists dto,
    list_paginated sample_db sample_filters 1 2 "started_at" "desc" = Ok dto /\
    Z.of_nat (List.length (PaginatedExecutionsDTO.items dto)) <= 2 /\
    PaginatedExecutionsDTO.total dto = Sql.count (filter (list_where sample_filters) sample_db) /\
    PaginatedExecutionsDTO.total_pages dto
    = Qceiling (inject_Z (PaginatedExecutionsDTO.total dto) / inject_Z 2) /\
    (PaginatedExecutionsDTO.total_pages dto < 1 ->
     PaginatedExecutionsDTO.items dto = [])).
Proof.
  split; [lia|].
  split; [lia|].
  split; [lia|].
  split; [reflexivity|].
  apply (pagination sample_db sample_filters 1 2 "started_at" "desc");
    [lia
    | lia
    | lia
    | reflexivity].
Defined.


(** * Further properties of the code *)

(** ** Sorting *)

Lemma insert_Sorted {A : Type} (leb : A -> A -> bool) (x : A) (l : list A) :
  (forall a b, leb a b = false -> leb b a = true) ->
  Sorted (fun a b => leb a b = true) l ->
  Sorted (fun a b => leb a b = true) (Sql.insert leb x l).
Proof.
  intros Htot. induction 1 as [|y ys Hs IH Hhd]; cbn [Sql.insert].
  - repeat constructor.
  - destruct (leb x y) eqn:E.
    + constructor; [constructor; assumption | constructor; exact E].
    + constructor; [exact IH|].
      destruct ys as [|z zs]; cbn [Sql.insert].
      * constructor. apply Htot, E.
      * destruct (leb x z); constructor.
        -- apply Htot, E.
        -- inversion Hhd; assumption.
Qed.

Lemma order_by_Sorted {A : Type} (leb : A -> A -> bool) (l : list A) :
  (forall a b, leb a b = false -> leb b a = true) ->
  Sorted (fun a b => leb a b = true) (Sql.order_by leb l).
Proof.
  intros Htot. induction l as [|x xs IH]; cbn [Sql.order_by].
  - constructor.
  - apply insert_Sorted; assumption.
Qed.

Lemma Sorted_skipn {A : Type} (R : A -> A -> Prop) (n : nat) (l : list A) :
  Sorted R l -> Sorted R (skipn n l).
Proof.
  revert l. induction n as [|n IH]; intros l Hs; [exact Hs|].
  destruct l as [|x xs]; [constructor|]. cbn [skipn]. apply IH.
  inversion Hs; assumption.
Qed.

Lemma Sorted_firstn {A : Type} (R : A -> A -> Prop) (n : nat) (l : list A) :
  Sorted R l -> Sorted R (firstn n l).
Proof.
  revert l. induction n as [|n IH]; intros l Hs; [constructor|].
  destruct l as [|x xs]; [constructor|]. cbn [firstn].
  inversion Hs as [|? ? Hxs Hhd]; subst.
  constructor; [apply IH; exact Hxs|].
  destruct xs as [|y ys]; [destruct n; constructor|].
  destruct n; [constructor|]. cbn [firstn]. constructor.
  inversion Hhd; assumption.
Qed.

Lemma value_leb_total (a b : Sql.value) :
  Sql.value_leb a b = false -> Sql.value_leb b a = true.
Proof.
  destruct a, b; cbn; try reflexivity; try discriminate; intros H.
  - apply Z.leb_gt in H. apply Z.leb_le. lia.
  - apply Qle_bool_iff. apply Qlt_le_weak, Qnot_le_lt.
    intros Hle. apply Qle_bool_iff in Hle. congruence.
  - destruct (String.leb_total s s0) as [H' | H']; congruence.
Qed.

Lemma listing_perm (db : table) (f : list_filters) (sort_by sort_order : string) :
  Permutation (listing db f sort_by sort_order) (filter (list_where f) db).
Proof.
  unfold listing. destruct (String.eqb sort_order "desc"); apply order_by_perm.
Qed.

Lemma listing_Sorted (db : table) (f : list_filters) (sort_by sort_order : string) :
  Sorted (listing_order sort_by sort_order) (listing db f sort_by sort_order).
Proof.
  unfold listing, listing_order.
  destruct (String.eqb sort_order "desc"); apply order_by_Sorted;
    intros a b; apply value_leb_total.
Qed.

(** [list_paginated], page by page, over the listing. *)
Lemma list_paginated_eq (db : table) (f : list_filters) (page page_size : Z)
  (sort_by sort_order : string) :
  1 <= page -> 1 <= page_size < 2 ^ 63 -> (page - 1) * page_size < 2 ^ 63 ->
  is_column sort_by = true ->
  list_paginated db f page page_size sort_by sort_order
  = Ok {| PaginatedExecutionsDTO.items :=
            map summary_of
              (firstn (Z.to_nat page_size)
                 (skipn (Z.to_nat ((page - 1) * page_size))
                    (listing db f sort_by sort_order)));
          PaginatedExecutionsDTO.total := Sql.count (filter (list_where f) db);
          PaginatedExecutionsDTO.page := page;
          PaginatedExecutionsDTO.page_size := page_size;
          PaginatedExecutionsDTO.total_pages :=
            (Sql.count (filter (list_where f) db) + page_size - 1) / page_size |}.
Proof.
  intros Hpage Hsize Hoff Hcol. unfold list_paginated, listing. cbv zeta.
  rewrite (sort_column_key sort_by Hcol). cbn [Py.bind].
  rewrite offset_limit_ok by nia. cbn [Py.bind].
  unfold Py.floordiv.
  destruct (page_size =? 0) eqn:E; [apply Z.eqb_eq in E; lia|].
  reflexivity.
Qed.

(** ** One order only, when no two rows tie *)

Lemma string_leb_trans (a b c : string) :
  String.leb a b = true -> String.leb b c = true -> String.leb a c = true.
Proof.
  unfold String.leb. revert b c.
  induction a as [|x a IH]; intros [|y b] [|z c]; cbn [String.compare];
    try reflexivity; try discriminate.
  unfold Ascii.compare.
  destruct (N.compare_spec (Ascii.N_of_ascii x) (Ascii.N_of_ascii y)) as [Hxy|Hxy|Hxy];
    destruct (N.compare_spec (Ascii.N_of_ascii y) (Ascii.N_of_ascii z)) as [Hyz|Hyz|Hyz];
    destruct (N.compare_spec (Ascii.N_of_ascii x) (Ascii.N_of_ascii z)) as [Hxz|Hxz|Hxz];
    try lia; try reflexivity; try discriminate.
  apply IH.
Qed.

Lemma value_leb_trans (a b c : Sql.value) :
  same_kind a b -> same_kind b c -> same_kind a c ->
  Sql.value_leb a b = true -> Sql.value_leb b c = true -> Sql.value_leb a c = true.
Proof.
  destruct a, b, c; cbn; try reflexivity; try discriminate; try contradiction;
    intros _ _ _ Hab Hbc.
  - apply Z.leb_le in Hab, Hbc. apply Z.leb_le. lia.
  - apply Qle_bool_iff in Hab, Hbc. apply Qle_bool_iff.
    eapply Qle_trans; eassumption.
  - eapply string_leb_trans; eassumption.
Qed.

Lemma sort_key_kind (sort_by : string) (a b : AgentExecution.t) :
  same_kind (sort_key sort_by a) (sort_key sort_by b).
Proof.
  unfold sort_key, column.
  repeat match goal with
         | |- context [if ?c then _ else _] => destruct c
         end;
    cbv beta; unfold opt_text, opt_int;
    repeat match goal with
           | |- context [match ?x with Some _ => _ | None => _ end] => destruct x
           end;
    exact I.
Qed.

Lemma listing_order_trans (sort_by sort_order : string) (a b c : AgentExecution.t) :
  listing_order sort_by sort_order a b -> listing_order sort_by sort_order b c ->
  listing_order sort_by sort_order a c.
Proof.
  unfold listing_order. destruct (String.eqb sort_order "desc"); intros Hab Hbc.
  - eapply value_leb_trans; try apply sort_key_kind; eassumption.
  - eapply value_leb_trans; try apply sort_key_kind; eassumption.
Qed.

Lemma sorted_perm_unique {A : Type} (R : A -> A -> Prop) (l l' : list A) :
  ForallOrdPairs (fun a b => ~ (R a b /\ R b a)) l ->
  StronglySorted R l -> StronglySorted R l' -> Permutation l l' -> l = l'.
Proof.
  intros Hties. revert l'.
  induction Hties as [|x xs Hx Hxs IH]; intros l' Hs Hs' Hperm.
  - apply Permutation_nil in Hperm. symmetry. exact Hperm.
  - destruct l' as [|y ys];
      [apply Permutation_sym, Permutation_nil in Hperm; discriminate|].
    apply StronglySorted_inv in Hs. destruct Hs as [Hs HRx].
    apply StronglySorted_inv in Hs'. destruct Hs' as [Hs' HRy].
    rewrite Forall_forall in Hx, HRx, HRy.
    assert (Hxy : x = y).
    { assert (Hin : In x (y :: ys))
        by (apply (Permutation_in _ Hperm); left; reflexivity).
      destruct Hin as [Hin | Hin]; [symmetry; exact Hin|].
      assert (Hin' : In y (x :: xs))
        by (apply (Permutation_in _ (Permutation_sym Hperm)); left; reflexivity).
      destruct Hin' as [Hin' | Hin']; [exact Hin'|].
      exfalso. apply (Hx y Hin'). split; [apply HRx, Hin' | apply HRy, Hin]. }
    subst y. f_equal. apply IH; try assumption.
    eapply Permutation_cons_inv. exact Hperm.
Qed.

Lemma no_ties_listing_order (sort_by sort_order : string) (rows : table) :
  no_ties sort_by rows ->
  ForallOrdPairs
    (fun a b => ~ (listing_order sort_by sort_order a b
                   /\ listing_order sort_by sort_order b a)) rows.
Proof.
  unfold no_ties, listing_order.
  induction 1 as [|x xs Hx Hxs IH]; constructor; [|exact IH].
  eapply Forall_impl; [|exact Hx]. intros y Hy [H1 H2]. cbv beta in Hy.
  destruct (String.eqb sort_order "desc"); rewrite H1, H2 in Hy; discriminate.
Qed.

Lemma ForallOrdPairs_perm {A : Type} (R : A -> A -> Prop) (l l' : list A) :
  (forall a b, R a b -> R b a) ->
  Permutation l l' -> ForallOrdPairs R l -> ForallOrdPairs R l'.
Proof.
  intros Hsym. induction 1 as [|x l l' Hp IH|x y l|l l' l'' Hp1 IH1 Hp2 IH2]; intros H.
  - exact H.
  - inversion H as [|? ? Hx Hl]; subst. constructor; [|apply IH; exact Hl].
    eapply Permutation_Forall; eassumption.
  - inversion H as [|? ? Hy Hl]; subst. inversion Hl as [|? ? Hx Hl']; subst.
    inversion Hy as [|? ? Hyx Hyl]; subst.
    constructor; [constructor; [apply Hsym; exact Hyx | exact Hx]|].
    constructor; assumption.
  - apply IH2, IH1, H.
Qed.

Lemma listing_unique (db : table) (f : list_filters) (sort_by sort_order : string)
  (l : table) :
  no_ties sort_by (filter (list_where f) db) ->
  Permutation l (filter (list_where f) db) ->
  Sorted (listing_order sort_by sort_order) l ->
  l = listing db f sort_by sort_order.
Proof.
  intros Hties Hperm Hsorted.
  assert (Htrans : Relations_1.Transitive (listing_order sort_by sort_order))
    by (intros a b c; apply listing_order_trans).
  apply (sorted_perm_unique (listing_order sort_by sort_order)).
  - apply (ForallOrdPairs_perm _ (filter (list_where f) db) l);
      [intros a b H [H1 H2]; apply H; split; assumption
      | apply Permutation_sym; exact Hperm
      | apply no_ties_listing_order; exact Hties].
  - apply Sorted_StronglySorted; assumption.
  - apply Sorted_StronglySorted; [exact Htrans | apply listing_Sorted].
  - eapply Permutation_trans; [exact Hperm | apply Permutation_sym, listing_perm].
Qed.

(** ** Paging through a listing *)

Lemma firstn_plus {A : Type} (a b : nat) (l : list A) :
  firstn (a + b) l = firstn a l ++ firstn b (skipn a l).
Proof.
  revert l. induction a as [|a IH]; intros l; [reflexivity|].
  destruct l as [|x xs]; cbn [Nat.add firstn skipn app].
  - rewrite firstn_nil. reflexivity.
  - rewrite IH. reflexivity.
Qed.

Lemma chunks_concat {A : Type} (p n : nat) (l : list A) :
  List.concat (map (fun k => firstn p (skipn ((k - 1) * p) l)) (seq 1 n))
  = firstn (n * p) l.
Proof.
  induction n as [|n IH]; [reflexivity|].
  rewrite seq_S, map_app, concat_app, IH. cbn [map List.concat].
  rewrite app_nil_r. replace (1 + n - 1)%nat with n by lia.
  replace (S n * p)%nat with (n * p + p)%nat by lia.
  rewrite firstn_plus. reflexivity.
Qed.

Lemma mapM_map {A B : Type} (f : A -> result B) (g : A -> B) (l : list A) :
  (forall x, In x l -> f x = Ok (g x)) -> mapM f l = Ok (map g l).
Proof.
  induction l as [|x xs IH]; intros Hf; [reflexivity|].
  cbn [mapM map]. rewrite (Hf x) by (left; reflexivity). cbn [Py.bind].
  rewrite IH by (intros y Hy; apply Hf; right; exact Hy). reflexivity.
Qed.

(** X1.  When no two matching executions tie on the sort column, the
    listing is the one order the database can return, and paging through it
    from page 1 to the last page returns every matching execution exactly
    once, in that order.  The sort column is a column of the table, the page
    size a number the driver can bind, the table one that fits in memory. *)
Theorem pages_cover_listing (db : table) (f : list_filters) (page_size : Z)
  (sort_by sort_order : string) :
  1 <= page_size < 2 ^ 63 ->
  fits_in_memory db ->
  is_column sort_by = true ->
  no_ties sort_by (filter (list_where f) db) ->
  let total := Sql.count (filter (list_where f) db) in
  let total_pages := (total + page_size - 1) / page_size in
  exists pages,
    mapM (fun k => list_paginated db f (Z.of_nat k) page_size sort_by sort_order)
         (seq 1 (Z.to_nat total_pages)) = Ok pages /\
    List.concat (map PaginatedExecutionsDTO.items pages)
    = map summary_of (listing db f sort_by sort_order) /\
    Permutation (listing db f sort_by sort_order) (filter (list_where f) db) /\
    (forall l,
       Permutation l (filter (list_where f) db) ->
       Sorted (listing_order sort_by sort_order) l ->
       l = listing db f sort_by sort_order) /\
    Forall (fun p => PaginatedExecutionsDTO.total p = total /\
                     PaginatedExecutionsDTO.total_pages p = total_pages) pages.
Proof.
  intros Hsize Hfit Hcol Hties total total_pages.
  set (all := listing db f sort_by sort_order).
  set (page_of := fun k : nat =>
         {| PaginatedExecutionsDTO.items :=
              map summary_of
                (firstn (Z.to_nat page_size)
                   (skipn (Z.to_nat ((Z.of_nat k - 1) * page_size)) all));
            PaginatedExecutionsDTO.total := total;
            PaginatedExecutionsDTO.page := Z.of_nat k;
            PaginatedExecutionsDTO.page_size := page_size;
            PaginatedExecutionsDTO.total_pages := total_pages |}).
  assert (Htotal : 0 <= total < 2 ^ 47).
  { pose proof (filter_count_le (list_where f) db). unfold fits_in_memory in Hfit.
    unfold total, Sql.count in *. lia. }
  assert (Hpages : 0 <= total_pages /\ (total_pages - 1) * page_size < total + 1
                   /\ total <= total_pages * page_size).
  { unfold total_pages.
    pose proof (Z.div_mod (total + page_size - 1) page_size ltac:(lia)) as Hdm.
    pose proof (Z.mod_pos_bound (total + page_size - 1) page_size ltac:(lia)) as Hmod.
    assert (0 <= (total + page_size - 1) / page_size) by (apply Z.div_pos; lia).
    nia. }
  exists (map page_of (seq 1 (Z.to_nat total_pages))).
  split.
  { apply mapM_map. intros k Hk. apply in_seq in Hk.
    apply list_paginated_eq; try assumption; try lia.
    assert ((Z.of_nat k - 1) * page_size <= (total_pages - 1) * page_size) by nia.
    lia. }
  split.
  { rewrite map_map.
    assert (Hchunk : forall k, In k (seq 1 (Z.to_nat total_pages)) ->
               PaginatedExecutionsDTO.items (page_of k)
               = map summary_of
                   (firstn (Z.to_nat page_size)
                      (skipn ((k - 1) * Z.to_nat page_size) all))).
    { intros k Hk. apply in_seq in Hk. cbn. do 3 f_equal. nia. }
    rewrite (map_ext_in _ _ _ Hchunk).
    rewrite <- (map_map (fun k => firstn (Z.to_nat page_size)
                                    (skipn ((k - 1) * Z.to_nat page_size) all))
                        (map summary_of)).
    rewrite <- concat_map, chunks_concat. f_equal.
    apply firstn_all2.
    assert (Hlen : Z.of_nat (List.length all) = total).
    { unfold total, Sql.count. f_equal. apply Permutation_length, listing_perm. }
    nia. }
  split; [apply listing_perm|].
  split; [intros l; apply listing_unique; exact Hties|].
  apply Forall_forall. intros p Hp. apply in_map_iff in Hp.
  destruct Hp as (k & <- & _). split; reflexivity.
Qed.

Lemma in_firstn {A : Type} (n : nat) (l : list A) (x : A) :
  In x (firstn n l) -> In x l.
Proof.
  intros H. rewrite <- (firstn_skipn n l). apply in_or_app. left. exact H.
Qed.

Lemma in_skipn {A : Type} (n : nat) (l : list A) (x : A) :
  In x (skipn n l) -> In x l.
Proof.
  intros H. rewrite <- (firstn_skipn n l). apply in_or_app. right. exact H.
Qed.

(** X2.  Every page of a listing sorted by a column of the table holds
    rows of the table that pass all the filters, in the order asked for:
    descending on the sort column exactly when the sort order is "desc",
    ascending for any other word. *)
Theorem page_rows_filtered_and_sorted (db : table) (f : list_filters)
  (page page_size : Z) (sort_by sort_order : string) :
  1 <= page -> 1 <= page_size < 2 ^ 63 -> (page - 1) * page_size < 2 ^ 63 ->
  is_column sort_by = true ->
  exists dto rows,
    list_paginated db f page page_size sort_by sort_order = Ok dto /\
    PaginatedExecutionsDTO.items dto = map summary_of rows /\
    Sorted (listing_order sort_by sort_order) rows /\
    (forall r, In r rows -> In r db /\ list_where f r = true).
Proof.
  intros Hpage Hsize Hoff Hcol.
  eexists. eexists. split; [apply list_paginated_eq; assumption|].
  cbn [PaginatedExecutionsDTO.items]. split; [reflexivity|]. split.
  - apply Sorted_firstn, Sorted_skipn, listing_Sorted.
  - intros r Hr. apply in_firstn, in_skipn in Hr.
    apply (Permutation_in _ (listing_perm db f sort_by sort_order)) in Hr.
    apply filter_In in Hr. exact Hr.
Qed.

(** ** Edge inputs of the listing *)

Lemma user_filter_blank (r : AgentExecution.t) :
  user_filter (Some ""%string) r = true.
Proof. reflexivity. Qed.

(** X3.  An empty user id is no user id: the listing and the overview
    called with the empty string are those of all users. *)
Theorem blank_user_id_is_unscoped (now : datetime) (db : table) (page page_size : Z)
  (sort_by sort_order : string) (start_date end_date : option datetime) :
  list_paginated db (owner_filters (Some ""%string)) page page_size sort_by sort_order
  = list_paginated db (owner_filters None) page page_size sort_by sort_order /\
  filter (list_where (owner_filters (Some ""%string))) db = db /\
  get_overview now db (Some ""%string) start_date end_date
  = get_overview now db None start_date end_date.
Proof.
  assert (Hall : forall r, list_where (owner_filters (Some ""%string)) r = true)
    by (intros r; reflexivity).
  split; [reflexivity|]. split.
  - induction db as [|r rs IH]; [reflexivity|].
    cbn [filter]. rewrite Hall. f_equal. exact IH.
  - reflexivity.
Qed.

(** X4.  The repository function itself does not guard the page size: for
    a listing sorted by a column of the table, with page size 0 the query
    runs and the page count then divides by zero. *)
Theorem page_size_zero_divides (db : table) (f : list_filters) (page : Z)
  (sort_by sort_order : string) :
  is_column sort_by = true ->
  list_paginated db f page 0 sort_by sort_order = Err ZeroDivisionError.
Proof.
  intros Hcol. unfold list_paginated. cbv zeta.
  rewrite (sort_column_key sort_by Hcol). cbn [Py.bind].
  rewrite Z.mul_0_r. reflexivity.
Qed.

Lemma route_window_fst_snd (now : datetime) (period : string)
  (start_date end_date : option datetime) :
  route_window now period start_date end_date
  = (fst (route_window now period start_date end_date),
     snd (route_window now period start_date end_date)).
Proof. apply surjective_pairing. Qed.

Lemma list_paginated_offset_refused (db : table) (f : list_filters) (page page_size : Z)
  (sort_by sort_order : string) :
  is_column sort_by = true -> 2 ^ 63 <= (page - 1) * page_size ->
  list_paginated db f page page_size sort_by sort_order = Err DBAPIError.
Proof.
  intros Hcol Hoff. unfold list_paginated. cbv zeta.
  rewrite (sort_column_key sort_by Hcol). cbn [Py.bind].
  unfold Sql.offset_limit, Sql.int64_max.
  destruct (2 ^ 63 - 1 <? (page - 1) * page_size) eqn:E; [|apply Z.ltb_ge in E; lia].
  rewrite !orb_true_r. cbn [orb]. reflexivity.
Qed.

(** X5.  [GET /executions] sorted by a column of the table: a query
    outside the bounds of page and page size is answered 422; a page so far
    out that its offset is beyond what the driver can bind ([2^63] and more)
    fails in the driver; every other query is answered with at most 100
    items, all of them executions of the caller that started inside the
    window. *)
Theorem list_executions_outcomes (now : datetime) (db : table) (user : string)
  (q : list_query) :
  user <> ""%string ->
  is_column (q_sort_by q) = true ->
  let window := route_window now (q_period q) (q_start_date q) (q_end_date q) in
  let offset := (q_page q - 1) * q_page_size q in
  match list_executions now db user q with
  | Success dto =>
      1 <= q_page q /\ 1 <= q_page_size q <= 100 /\ offset < 2 ^ 63 /\
      Z.of_nat (List.length (PaginatedExecutionsDTO.items dto)) <= 100 /\
      exists rows,
        PaginatedExecutionsDTO.items dto = map summary_of rows /\
        forall r, In r rows ->
                  In r db /\ AgentExecution.user_id r = Some user /\
                  fst window <= AgentExecution.started_at r <= snd window
  | HTTPException status_code _ =>
      status_code = 422 /\
      (q_page q < 1 \/ q_page_size q < 1 \/ 100 < q_page_size q)
  | Unhandled e =>
      e = DBAPIError /\
      1 <= q_page q /\ 1 <= q_page_size q <= 100 /\ 2 ^ 63 <= offset
  end.
Proof.
  intros Huser Hcol window offset. unfold list_executions.
  destruct (q_page q <? 1) eqn:E1; cbn [orb];
    [apply Z.ltb_lt in E1; split; [reflexivity | lia]|].
  destruct (q_page_size q <? 1) eqn:E2; cbn [orb];
    [apply Z.ltb_lt in E2; split; [reflexivity | lia]|].
  destruct (100 <? q_page_size q) eqn:E3;
    [apply Z.ltb_lt in E3; split; [reflexivity | lia]|].
  apply Z.ltb_ge in E1, E2, E3.
  rewrite route_window_fst_snd. fold window.
  destruct (Z_lt_le_dec offset (2 ^ 63)) as [Hoff | Hoff].
  2:{ rewrite list_paginated_offset_refused by assumption. cbn [respond].
      split; [reflexivity|]. lia. }
  rewrite list_paginated_eq by (try assumption; lia).
  cbn [respond PaginatedExecutionsDTO.items].
  split; [lia|]. split; [lia|]. split; [exact Hoff|]. split.
  { rewrite length_map.
    match goal with |- context [firstn ?n ?l] => pose proof (firstn_le_length n l) end.
    lia. }
  eexists. split; [reflexivity|].
  intros r Hr. apply in_firstn, in_skipn in Hr.
  match type of Hr with
  | In r (listing db ?f _ _) =>
      apply (Permutation_in _ (listing_perm db f _ _)) in Hr
  end.
  apply filter_In in Hr. destruct Hr as [Hin Hw]. split; [exact Hin|].
  unfold list_where in Hw. cbn in Hw. rewrite !andb_true_iff in Hw.
  destruct Hw as [[[[[[Hu _] _] _] _] Hs] He].
  apply Z.leb_le in Hs, He. split; [|lia].
  destruct (String.eqb user "") eqn:Eu; [apply String.eqb_eq in Eu; contradiction|].
  cbn in Hu. unfold Sql.text_is in Hu.
  destruct (AgentExecution.user_id r) as [u|]; [|discriminate].
  apply String.eqb_eq in Hu. congruence.
Qed.

(** ** Counts and rates of the overview *)

Lemma count_status_filter (s : ExecutionStatus.t) (rows : table) :
  or_zero (count_status s rows)
  = Sql.count (filter (fun r => ExecutionStatus.eqb (AgentExecution.status r) s) rows).
Proof.
  unfold count_status, Sql.sum_int, Sql.count.
  assert (H : fold_right Z.add 0 (map (case_status s) rows)
              = Z.of_nat (List.length
                  (filter (fun r => ExecutionStatus.eqb (AgentExecution.status r) s) rows))).
  { induction rows as [|r rs IH]; [reflexivity|].
    cbn [map fold_right filter]. rewrite IH. unfold case_status.
    destruct (ExecutionStatus.eqb (AgentExecution.status r) s); cbn [List.length]; lia. }
  destruct rows as [|r rs]; [reflexivity|].
  cbn [or_zero map]. exact H.
Qed.

Lemma filter_split_count {A : Type} (f g : A -> bool) (l : list A) :
  (forall x, f x = true -> g x = false) ->
  Sql.count (filter f l) + Sql.count (filter g l)
  + Sql.count (filter (fun x => negb (f x) && negb (g x)) l)
  = Sql.count l.
Proof.
  intros Hfg. unfold Sql.count.
  induction l as [|x xs IH]; [reflexivity|].
  cbn [filter]. specialize (Hfg x).
  destruct (f x) eqn:Ef; destruct (g x) eqn:Eg; cbn [negb andb List.length];
    try (specialize (Hfg eq_refl); discriminate); lia.
Qed.

Lemma percent_bounds (part total : Z) :
  0 <= part <= total -> 0 < total ->
  (0 <= inject_Z part / inject_Z total * 100 /\
   inject_Z part / inject_Z total * 100 <= 100)%Q.
Proof.
  intros Hpart Htotal.
  assert (Ht : (0 < inject_Z total)%Q).
  { change (inject_Z 0 < inject_Z total)%Q. rewrite <- Zlt_Qlt. exact Htotal. }
  assert (Hp : (0 <= inject_Z part)%Q).
  { change (inject_Z 0 <= inject_Z part)%Q. rewrite <- Zle_Qle. lia. }
  assert (Hle : (inject_Z part <= inject_Z total)%Q) by (rewrite <- Zle_Qle; lia).
  assert (H0 : (0 <= inject_Z part / inject_Z total)%Q).
  { apply Qle_shift_div_l; [exact Ht|]. rewrite Qmult_0_l. exact Hp. }
  assert (H1 : (inject_Z part / inject_Z total <= 1)%Q).
  { apply Qle_shift_div_r; [exact Ht|]. rewrite Qmult_1_l. exact Hle. }
  split.
  - apply Qmult_le_0_compat; [exact H0 | discriminate].
  - setoid_replace 100%Q with (1 * 100)%Q at 2 by reflexivity.
    apply Qmult_le_compat_r; [exact H1 | discriminate].
Qed.

(** X6.  In every overview the successful and the failed executions are
    disjoint parts of the total (the rest being the executions in any other
    status), and the success rate lies between 0 and 100.  The overview is
    one of a window whose start and whose comparison window Python can hold
    as dates. *)
Theorem overview_counts_consistent (now : datetime) (db : table)
  (user_id : option string) (start_date end_date : option datetime) :
  fits_in_memory db ->
  window_representable now start_date end_date ->
  let window := overview_window now start_date end_date in
  let rows := filter (overview_filters user_id (fst window) (snd window)) db in
  let other r :=
    negb (ExecutionStatus.eqb (AgentExecution.status r) ExecutionStatus.success)
    && negb (ExecutionStatus.eqb (AgentExecution.status r) ExecutionStatus.failure) in
  exists dto,
    get_overview now db user_id start_date end_date = Ok dto /\
    0 <= AnalyticsOverviewDTO.successful_executions dto /\
    0 <= AnalyticsOverviewDTO.failed_executions dto /\
    AnalyticsOverviewDTO.successful_executions dto
    + AnalyticsOverviewDTO.failed_executions dto
    + Sql.count (filter other rows)
    = AnalyticsOverviewDTO.total_executions dto /\
    (0 <= AnalyticsOverviewDTO.success_rate dto /\
     AnalyticsOverviewDTO.success_rate dto <= 100)%Q.
Proof.
  intros Hfit Hrep window rows other.
  destruct (get_overview_run now db user_id start_date end_date Hfit Hrep)
    as (tops & costs & _ & _ & Hrun).
  fold window in Hrun. fold rows in Hrun.
  eexists. split; [exact Hrun|]. cbn.
  rewrite !count_status_filter.
  pose proof (filter_split_count
    (fun r => ExecutionStatus.eqb (AgentExecution.status r) ExecutionStatus.success)
    (fun r => ExecutionStatus.eqb (AgentExecution.status r) ExecutionStatus.failure)
    rows) as Hsplit.
  cbv beta in Hsplit. fold other in Hsplit.
  assert (Hdisj : forall x : AgentExecution.t,
             ExecutionStatus.eqb (AgentExecution.status x) ExecutionStatus.success = true ->
             ExecutionStatus.eqb (AgentExecution.status x) ExecutionStatus.failure = false).
  { intros x. destruct (AgentExecution.status x); cbn; congruence. }
  specialize (Hsplit Hdisj).
  set (ns := Sql.count (filter _ rows)) in *.
  assert (0 <= ns) by (unfold ns, Sql.count; lia).
  split; [assumption|]. split; [unfold Sql.count; lia|]. split; [exact Hsplit|].
  destruct (Sql.count rows >? 0) eqn:E.
  - apply Z.gtb_lt in E. apply percent_bounds; [|exact E].
    unfold Sql.count in *. lia.
  - split; discriminate.
Qed.

(** ** Order of the percentiles *)

Lemma sorted_nth_le (l : list Z) :
  StronglySorted Z.le l ->
  forall i j, (i <= j < List.length l)%nat -> nth i l 0 <= nth j l 0.
Proof.
  induction 1 as [|x xs Hs IH Hall]; intros i j Hij; [cbn in Hij; lia|].
  destruct i as [|i], j as [|j]; cbn [nth]; try lia.
  - rewrite Forall_forall in Hall. apply Hall, nth_In. cbn in Hij. lia.
  - apply IH. cbn in Hij. lia.
Qed.

Lemma overview_times_positive (rows : table) (t : Z) :
  In t (overview_times rows) <->
  exists r, In r rows /\ AgentExecution.execution_time_ms r = t /\ 0 < t.
Proof.
  unfold overview_times. split.
  - intros H. apply (Permutation_in _ (order_by_perm _ _)) in H.
    apply in_map_iff in H. destruct H as (r & Ht & Hr).
    apply filter_In in Hr. destruct Hr as [Hin Hpos].
    exists r. apply Z.gtb_lt in Hpos. repeat split; [assumption.. | lia].
  - intros (r & Hin & Ht & Hpos).
    apply (Permutation_in _ (Permutation_sym (order_by_perm _ _))).
    apply in_map_iff. exists r. split; [exact Ht|].
    apply filter_In. split; [exact Hin | apply Z.gtb_lt; lia].
Qed.

(** X7.  When some execution of the window has a positive time, the three
    percentiles are positive times of executions of the window and
    p50 <= p95 <= p99; when none has, all three are 0.  The window is one
    whose start and whose comparison window Python can hold as dates. *)
Theorem percentiles_ordered (now : datetime) (db : table) (user_id : option string)
  (start_date end_date : option datetime) :
  fits_in_memory db ->
  window_representable now start_date end_date ->
  let window := overview_window now start_date end_date in
  let rows := filter (overview_filters user_id (fst window) (snd window)) db in
  let timed p := exists r, In r rows /\ AgentExecution.execution_time_ms r = p /\ 0 < p in
  exists dto,
    get_overview now db user_id start_date end_date = Ok dto /\
    ((exists r, In r rows /\ 0 < AgentExecution.execution_time_ms r) ->
     timed (AnalyticsOverviewDTO.p50_execution_time_ms dto) /\
     timed (AnalyticsOverviewDTO.p95_execution_time_ms dto) /\
     timed (AnalyticsOverviewDTO.p99_execution_time_ms dto) /\
     AnalyticsOverviewDTO.p50_execution_time_ms dto
       <= AnalyticsOverviewDTO.p95_execution_time_ms dto
       <= AnalyticsOverviewDTO.p99_execution_time_ms dto) /\
    ((forall r, In r rows -> AgentExecution.execution_time_ms r <= 0) ->
     AnalyticsOverviewDTO.p50_execution_time_ms dto = 0 /\
     AnalyticsOverviewDTO.p95_execution_time_ms dto = 0 /\
     AnalyticsOverviewDTO.p99_execution_time_ms dto = 0).
Proof.
  intros Hfit Hrep window rows timed.
  destruct (get_overview_run now db user_id start_date end_date Hfit Hrep)
    as (tops & costs & _ & _ & Hrun).
  fold window in Hrun. fold rows in Hrun.
  eexists. split; [exact Hrun|].
  cbn [AnalyticsOverviewDTO.p50_execution_time_ms
       AnalyticsOverviewDTO.p95_execution_time_ms
       AnalyticsOverviewDTO.p99_execution_time_ms].
  set (times := overview_times rows). set (n := Sql.count times).
  split.
  - intros (r & Hin & Hpos).
    assert (Hne : 0 < n).
    { assert (Ht : In (AgentExecution.execution_time_ms r) times)
        by (apply overview_times_positive; exists r; auto).
      unfold n, Sql.count. destruct times; [contradiction | cbn [List.length]; lia]. }
    assert (Hidx : forall i, 0 <= i < n -> (Z.to_nat i < List.length times)%nat)
      by (intros i Hi; unfold n, Sql.count in Hi; lia).
    assert (H50 : 0 <= n / 2 < n)
      by (split; [apply Z.div_pos; lia | apply Z.div_lt_upper_bound; lia]).
    assert (H95 : 0 <= 95 * n / 100 < n)
      by (split; [apply Z.div_pos; lia | apply Z.div_lt_upper_bound; lia]).
    assert (H99 : 0 <= 99 * n / 100 < n)
      by (split; [apply Z.div_pos; lia | apply Z.div_lt_upper_bound; lia]).
    assert (Hmem : forall i, 0 <= i < n -> timed (nth (Z.to_nat i) times 0)).
    { intros i Hi. apply overview_times_positive, nth_In, Hidx, Hi. }
    assert (Hs : StronglySorted Z.le times) by apply order_by_sorted.
    assert (H5095 : n / 2 <= 95 * n / 100).
    { apply Z.div_le_lower_bound; [lia|].
      pose proof (Z.mul_div_le n 2 ltac:(lia)). lia. }
    assert (H9599 : 95 * n / 100 <= 99 * n / 100)
      by (apply Z.div_le_mono; lia).
    repeat split; try (apply Hmem; assumption);
      apply (sorted_nth_le times Hs);
      (split; [lia | apply Hidx; assumption]).
  - intros Hnone.
    assert (Hempty : times = []).
    { destruct times as [|t ts] eqn:Et; [reflexivity|].
      assert (Ht : In t (overview_times rows)) by (fold times; rewrite Et; left; reflexivity).
      apply overview_times_positive in Ht. destruct Ht as (r & Hin & Hr & Hpos).
      specialize (Hnone r Hin). lia. }
    unfold n. rewrite Hempty. repeat split.
Qed.

(** ** Windows *)

(** X8.  The comparison window and the current window of the overview
    share no execution, and together they hold exactly the executions of the
    owner from the earlier of [start - length] and [start] to [end]. *)
Theorem overview_windows_adjacent (user_id : option string) (start stop : datetime)
  (db : table) :
  let length := stop - start in
  let current := filter (overview_filters user_id start stop) db in
  let previous := filter (prev_filters user_id (start - length) start) db in
  (forall r, In r current -> In r previous -> False) /\
  Sql.count previous + Sql.count current
  = Sql.count (filter (overview_filters user_id (Z.min start (start - length)) stop) db).
Proof.
  intros length current previous. split.
  - intros r Hc Hp. apply filter_In in Hc, Hp.
    destruct Hc as [_ Hc], Hp as [_ Hp].
    unfold overview_filters in Hc. unfold prev_filters in Hp.
    rewrite !andb_true_iff in Hc, Hp.
    destruct Hc as [[Hc _] _], Hp as [[_ Hp] _].
    apply Z.leb_le in Hc. apply Z.ltb_lt in Hp. lia.
  - unfold current, previous, Sql.count.
    induction db as [|r rs IH]; [reflexivity|].
    cbn [filter]. unfold overview_filters, prev_filters in *.
    destruct (user_filter user_id r); rewrite ?andb_true_r, ?andb_false_r.
    + destruct (start <=? AgentExecution.started_at r) eqn:E1;
        destruct (AgentExecution.started_at r <=? stop) eqn:E2;
        destruct (start - length <=? AgentExecution.started_at r) eqn:E3;
        destruct (AgentExecution.started_at r <? start) eqn:E4;
        destruct (Z.min start (start - length) <=? AgentExecution.started_at r) eqn:E5;
        cbn [andb List.length];
        try apply Z.leb_le in E5; try apply Z.leb_gt in E5;
        try apply Z.leb_le in E1; try apply Z.leb_gt in E1;
        try apply Z.leb_le in E2; try apply Z.leb_gt in E2;
        try apply Z.leb_le in E3; try apply Z.leb_gt in E3;
        try apply Z.ltb_lt in E4; try apply Z.ltb_ge in E4;
        unfold length in *; lia.
    + exact IH.
Qed.

(** X9.  An overview of a window without executions (an empty table, a
    window nothing falls in, a window whose end lies before its start),
    whose start and whose comparison window Python can hold as dates,
    returns, whatever the size of the table, with every count, rate,
    percentile and cost at 0 and both breakdowns empty; its execution change
    is absent when the comparison window is empty too and is -100 percent
    otherwise. *)
Theorem overview_of_empty_window (now : datetime) (db : table)
  (user_id : option string) (start_date end_date : option datetime) :
  let start := fst (overview_window now start_date end_date) in
  let stop := snd (overview_window now start_date end_date) in
  let prev_total :=
    Sql.count (filter (prev_filters user_id (start - (stop - start)) start) db) in
  window_representable now start_date end_date ->
  filter (overview_filters user_id start stop) db = [] ->
  exists dto,
    get_overview now db user_id start_date end_date = Ok dto /\
    AnalyticsOverviewDTO.total_executions dto = 0 /\
    AnalyticsOverviewDTO.successful_executions dto = 0 /\
    AnalyticsOverviewDTO.failed_executions dto = 0 /\
    AnalyticsOverviewDTO.success_rate dto = 0%Q /\
    AnalyticsOverviewDTO.avg_execution_time_ms dto = 0%Q /\
    AnalyticsOverviewDTO.p50_execution_time_ms dto = 0 /\
    AnalyticsOverviewDTO.p95_execution_time_ms dto = 0 /\
    AnalyticsOverviewDTO.p99_execution_time_ms dto = 0 /\
    AnalyticsOverviewDTO.total_tokens dto = 0 /\
    AnalyticsOverviewDTO.total_cost_usd dto = 0%Q /\
    AnalyticsOverviewDTO.estimated_monthly_cost_usd dto == 0 /\
    AnalyticsOverviewDTO.active_agents_count dto = 0 /\
    AnalyticsOverviewDTO.top_agents dto = [] /\
    AnalyticsOverviewDTO.cost_by_model dto = [] /\
    (prev_total = 0 -> AnalyticsOverviewDTO.executions_change_percent dto = None) /\
    (0 < prev_total ->
     exists change,
       AnalyticsOverviewDTO.executions_change_percent dto = Some change /\
       change == -100).
Proof.
  intros start stop prev_total Hrep Hempty. subst start stop prev_total.
  unfold get_overview.
  destruct (overview_dates now start_date end_date Hrep) as (Hstop & Hstart & Hprev).
  rewrite <- Hstop, Hstart. cbn [Py.bind]. rewrite Hprev.
  destruct (overview_window now start_date end_date) as [start stop].
  cbn [fst snd] in *. cbv zeta. rewrite Hempty.
  change (Sql.count (@nil AgentExecution.t) >? 0) with false. cbv iota.
  cbn [Py.bind overview_times filter map Sql.order_by p50 p95 p99 percentile
       top_agents_query model_cost_query Sql.group_by fold_left firstn mapM].
  set (prev_rows := filter (prev_filters user_id (start - (stop - start)) start) db).
  rewrite guarded_percent. cbn [Py.bind].
  rewrite estimated_monthly_cost_eq. cbn [Py.bind].
  rewrite !calc_change_eq. cbn [Py.bind].
  eexists. split; [reflexivity|].
  cbn [AnalyticsOverviewDTO.total_executions AnalyticsOverviewDTO.successful_executions
       AnalyticsOverviewDTO.failed_executions AnalyticsOverviewDTO.success_rate
       AnalyticsOverviewDTO.avg_execution_time_ms
       AnalyticsOverviewDTO.p50_execution_time_ms
       AnalyticsOverviewDTO.p95_execution_time_ms
       AnalyticsOverviewDTO.p99_execution_time_ms
       AnalyticsOverviewDTO.total_tokens AnalyticsOverviewDTO.total_cost_usd
       AnalyticsOverviewDTO.estimated_monthly_cost_usd
       AnalyticsOverviewDTO.active_agents_count AnalyticsOverviewDTO.top_agents
       AnalyticsOverviewDTO.cost_by_model
       AnalyticsOverviewDTO.executions_change_percent].
  do 10 (split; [reflexivity|]).
  split.
  { destruct (days (stop - start) =? 1); [reflexivity|].
    cbn [sum_cost map Sql.sum_num or_zero_num]. unfold Qdiv.
    rewrite !Qmult_0_l. reflexivity. }
  do 3 (split; [reflexivity|]).
  split.
  - intros H0. rewrite H0. reflexivity.
  - intros Hpos.
    assert (Hne : ~ inject_Z (Sql.count prev_rows) == 0)
      by (apply inject_Z_nonzero; lia).
    destruct (Qeq_bool (inject_Z (Sql.count prev_rows)) 0) eqn:E;
      [apply Qeq_bool_eq in E; contradiction|].
    eexists. split; [reflexivity|].
    change (inject_Z (Sql.count (@nil AgentExecution.t))) with 0%Q.
    field. exact Hne.
Qed.

(** ** Groups *)

Lemma mapM_inv {A B : Type} (f : A -> result B) (l : list A) (ys : list B) :
  mapM f l = Ok ys -> Forall2 (fun x y => f x = Ok y) l ys.
Proof.
  revert ys. induction l as [|x xs IH]; intros ys H; cbn [mapM] in H.
  - inversion H. constructor.
  - destruct (f x) as [y|e] eqn:Ey; cbn [Py.bind] in H; [|discriminate].
    destruct (mapM f xs) as [ys'|e] eqn:Eys; cbn [Py.bind] in H; [|discriminate].
    inversion H; subst. constructor; [exact Ey | apply IH; reflexivity].
Qed.

Lemma add_to_group_perm {K A : Type} (eqb : K -> K -> bool) (k : K) (a : A)
  (gs : list (K * list A)) :
  Permutation (List.concat (map snd (Sql.add_to_group eqb k a gs)))
              (a :: List.concat (map snd gs)).
Proof.
  induction gs as [|[k' l] gs IH]; cbn [Sql.add_to_group].
  - cbn. apply Permutation_refl.
  - destruct (eqb k k'); cbn [map snd List.concat].
    + rewrite <- app_assoc. cbn [app].
      apply Permutation_sym, Permutation_middle.
    + eapply perm_trans; [apply Permutation_app_head, IH|].
      apply Permutation_sym, Permutation_middle.
Qed.

(** The groups of a [GROUP BY] partition the rows. *)
Lemma group_by_perm {K A : Type} (eqb : K -> K -> bool) (key : A -> K) (l : list A) :
  Permutation (List.concat (map snd (Sql.group_by eqb key l))) l.
Proof.
  unfold Sql.group_by.
  assert (H : forall gs,
             Permutation
               (List.concat
                  (map snd (fold_left (fun gs a => Sql.add_to_group eqb (key a) a gs) l gs)))
               (List.concat (map snd gs) ++ l)).
  { induction l as [|x xs IH]; intros gs; cbn [fold_left].
    - rewrite app_nil_r. apply Permutation_refl.
    - eapply perm_trans; [apply IH|].
      eapply perm_trans; [apply Permutation_app_tail, add_to_group_perm|].
      cbn [app]. apply Permutation_middle. }
  apply (H []).
Qed.

Lemma count_concat {A : Type} (ls : list (list A)) :
  Sql.count (List.concat ls) = fold_right Z.add 0 (map Sql.count ls).
Proof.
  unfold Sql.count. induction ls as [|l ls IH]; [reflexivity|].
  cbn [List.concat map fold_right]. rewrite length_app, Nat2Z.inj_add, IH.
  reflexivity.
Qed.

Lemma sum_perm (l l' : list Z) :
  Permutation l l' -> fold_right Z.add 0 l = fold_right Z.add 0 l'.
Proof.
  induction 1; cbn [fold_right]; lia.
Qed.

Lemma sum_firstn_le (n : nat) (l : list Z) :
  Forall (fun z => 0 <= z) l ->
  fold_right Z.add 0 (firstn n l) <= fold_right Z.add 0 l.
Proof.
  intros H. revert n. induction H as [|x xs Hx Hxs IH]; intros n.
  - rewrite firstn_nil. lia.
  - destruct n as [|n]; cbn [firstn fold_right].
    + assert (0 <= fold_right Z.add 0 xs).
      { clear IH. induction Hxs; cbn [fold_right]; lia. }
      lia.
    + specialize (IH n). lia.
Qed.

(** The counts of the groups of a query add up to its rows. *)
Lemma group_counts (K : Type) (eqb : K -> K -> bool) (key : AgentExecution.t -> K)
  (rows : table) (leb : K * table -> K * table -> bool) :
  fold_right Z.add 0
    (map (fun g => Sql.count (snd g)) (Sql.order_by leb (Sql.group_by eqb key rows)))
  = Sql.count rows.
Proof.
  rewrite (sum_perm _ _ (Permutation_map _ (order_by_perm leb _))).
  transitivity (fold_right Z.add 0
                  (map Sql.count (map snd (Sql.group_by eqb key rows)))).
  { rewrite map_map. reflexivity. }
  rewrite <- count_concat.
  unfold Sql.count. f_equal. apply Permutation_length, group_by_perm.
Qed.

Lemma Forall2_Sorted {A B : Type} (R : A -> A -> Prop) (R' : B -> B -> Prop)
  (P : A -> B -> Prop) (l : list A) (l' : list B) :
  (forall a b a' b', P a a' -> P b b' -> R a b -> R' a' b') ->
  Forall2 P l l' -> Sorted R l -> Sorted R' l'.
Proof.
  intros HR HF. induction HF as [|a a' l l' Ha HF IH]; intros Hs; [constructor|].
  inversion Hs as [|? ? Hl Hhd]; subst.
  constructor; [apply IH; exact Hl|].
  destruct HF as [|b b' l l' Hb HF]; constructor.
  inversion Hhd; subst. eapply HR; eassumption.
Qed.

Lemma Sorted_impl {A : Type} (R R' : A -> A -> Prop) (l : list A) :
  (forall a b, R a b -> R' a b) -> Sorted R l -> Sorted R' l.
Proof.
  intros HR. induction 1 as [|x xs Hs IH Hhd]; constructor; [exact IH|].
  destruct Hhd; constructor. apply HR. assumption.
Qed.

Lemma Forall2_Forall {A B : Type} (P : A -> B -> Prop) (Q : A -> Prop) (Q' : B -> Prop)
  (l : list A) (l' : list B) :
  (forall a b, P a b -> Q a -> Q' b) ->
  Forall2 P l l' -> Forall Q l -> Forall Q' l'.
Proof.
  intros HQ HF. induction HF as [|a b l l' Hab HF IH]; intros Hl; constructor.
  - inversion Hl; subst. eapply HQ; eassumption.
  - apply IH. inversion Hl; assumption.
Qed.

Lemma Forall2_map_eq {A B C : Type} (P : A -> B -> Prop) (f : A -> C) (g : B -> C)
  (l : list A) (l' : list B) :
  (forall a b, P a b -> f a = g b) -> Forall2 P l l' -> map f l = map g l'.
Proof.
  intros Hfg. induction 1 as [|a b l l' Hab HF IH]; [reflexivity|].
  cbn [map]. rewrite (Hfg a b Hab), IH. reflexivity.
Qed.

(** The breakdowns of an overview are the rows of its two grouped
    queries. *)
Lemma get_overview_breakdowns (now : datetime) (db : table) (user_id : option string)
  (start_date end_date : option datetime) (dto : AnalyticsOverviewDTO.t) :
  fits_in_memory db ->
  window_representable now start_date end_date ->
  get_overview now db user_id start_date end_date = Ok dto ->
  let start := fst (overview_window now start_date end_date) in
  let stop := snd (overview_window now start_date end_date) in
  let rows := filter (overview_filters user_id start stop) db in
  AnalyticsOverviewDTO.total_executions dto = Sql.count rows /\
  AnalyticsOverviewDTO.total_cost_usd dto = or_zero_num (sum_cost rows) /\
  mapM top_agent (top_agents_query rows) = Ok (AnalyticsOverviewDTO.top_agents dto) /\
  mapM (cost_breakdown (or_zero_num (sum_cost rows))) (model_cost_query rows)
  = Ok (AnalyticsOverviewDTO.cost_by_model dto).
Proof.
  intros Hfit Hrep H. unfold get_overview in H.
  destruct (overview_dates now start_date end_date Hrep) as (Hstop & Hstart & Hprev).
  rewrite <- Hstop, Hstart in H. cbn [Py.bind] in H. rewrite Hprev in H.
  destruct (overview_window now start_date end_date) as [start stop].
  cbn [fst snd] in *. cbv zeta in *.
  set (rows := filter (overview_filters user_id start stop) db) in *.
  assert (Htimes : Sql.count (overview_times rows) < 2 ^ 47).
  { pose proof (overview_times_count rows).
    pose proof (filter_count_le (overview_filters user_id start stop) db) as Hle.
    unfold fits_in_memory in Hfit. fold rows in Hle. lia. }
  destruct (top_agents_ok rows) as (tops & Htops & _).
  destruct (cost_by_model_ok rows (or_zero_num (sum_cost rows))) as (costs & Hcosts & _).
  rewrite !guarded_percent in H. cbn [Py.bind] in H.
  rewrite p50_eq in H. cbn [Py.bind] in H.
  unfold p95, p99, Float64.lit_0_95, Float64.lit_0_99 in H.
  rewrite (percentile_eq 95) in H by (auto; lia). cbn [Py.bind] in H.
  rewrite (percentile_eq 99) in H by (auto; lia). cbn [Py.bind] in H.
  rewrite Htops in H. cbn [Py.bind] in H. rewrite Hcosts in H. cbn [Py.bind] in H.
  rewrite guarded_percent in H. cbn [Py.bind] in H.
  rewrite estimated_monthly_cost_eq in H. cbn [Py.bind] in H.
  rewrite !calc_change_eq in H. cbn [Py.bind] in H.
  inversion H; subst dto.
  cbn [AnalyticsOverviewDTO.total_executions AnalyticsOverviewDTO.total_cost_usd
       AnalyticsOverviewDTO.top_agents AnalyticsOverviewDTO.cost_by_model].
  repeat split; assumption.
Qed.

(** ** Top agents *)

Lemma top_agent_fields (g : agent_key * table) (t : TopAgentDTO.t) :
  top_agent g = Ok t ->
  TopAgentDTO.execution_count t = Sql.count (snd g) /\
  TopAgentDTO.success_count t = or_zero (count_status ExecutionStatus.success (snd g)) /\
  TopAgentDTO.failure_count t = or_zero (count_status ExecutionStatus.failure (snd g)) /\
  TopAgentDTO.agent_name t = or_unknown (fst (fst (fst g))).
Proof.
  destruct g as [[[name aid] atype] rows]. unfold top_agent.
  rewrite guarded_percent. cbn [Py.bind]. intros H. inversion H; subst t.
  cbn. repeat split.
Qed.

Lemma or_unknown_not_blank (x : option string) : or_unknown x <> ""%string.
Proof.
  unfold or_unknown. destruct x as [s|]; [|discriminate].
  destruct (String.eqb s "") eqn:E; [discriminate|].
  apply String.eqb_neq. exact E.
Qed.

Lemma status_counts_le (rows : table) :
  0 <= or_zero (count_status ExecutionStatus.success rows) /\
  0 <= or_zero (count_status ExecutionStatus.failure rows) /\
  or_zero (count_status ExecutionStatus.success rows)
  + or_zero (count_status ExecutionStatus.failure rows) <= Sql.count rows.
Proof.
  rewrite !count_status_filter.
  pose proof (filter_split_count
    (fun r => ExecutionStatus.eqb (AgentExecution.status r) ExecutionStatus.success)
    (fun r => ExecutionStatus.eqb (AgentExecution.status r) ExecutionStatus.failure)
    rows) as Hsplit.
  assert (Hdisj : forall x : AgentExecution.t,
             ExecutionStatus.eqb (AgentExecution.status x) ExecutionStatus.success = true ->
             ExecutionStatus.eqb (AgentExecution.status x) ExecutionStatus.failure = false).
  { intros x. destruct (AgentExecution.status x); cbn; congruence. }
  specialize (Hsplit Hdisj). unfold Sql.count in *. lia.
Qed.

(** X10.  The top agents of an overview are at most ten, ranked by
    execution count from high to low; each has at least one execution, a
    name that is not empty, success and failure counts within its execution
    count and a success rate between 0 and 100; their execution counts add
    up to no more than the executions of the window.  The window is one
    whose start and whose comparison window Python can hold as dates. *)
Theorem top_agents_ranked (now : datetime) (db : table) (user_id : option string)
  (start_date end_date : option datetime) :
  fits_in_memory db ->
  window_representable now start_date end_date ->
  exists dto,
    get_overview now db user_id start_date end_date = Ok dto /\
    (List.length (AnalyticsOverviewDTO.top_agents dto) <= 10)%nat /\
    Sorted (fun a b => TopAgentDTO.execution_count b <= TopAgentDTO.execution_count a)
           (AnalyticsOverviewDTO.top_agents dto) /\
    Forall (fun t =>
              1 <= TopAgentDTO.execution_count t /\
              0 <= TopAgentDTO.success_count t /\
              0 <= TopAgentDTO.failure_count t /\
              TopAgentDTO.success_count t + TopAgentDTO.failure_count t
                <= TopAgentDTO.execution_count t /\
              (0 <= TopAgentDTO.success_rate t /\ TopAgentDTO.success_rate t <= 100)%Q /\
              TopAgentDTO.agent_name t <> ""%string)
           (AnalyticsOverviewDTO.top_agents dto) /\
    fold_right Z.add 0
      (map TopAgentDTO.execution_count (AnalyticsOverviewDTO.top_agents dto))
    <= AnalyticsOverviewDTO.total_executions dto.
Proof.
  intros Hfit Hrep.
  destruct (get_overview_run now db user_id start_date end_date Hfit Hrep)
    as (tops & costs & Hrate & _ & Hrun).
  destruct (get_overview_breakdowns now db user_id start_date end_date _ Hfit Hrep Hrun)
    as (Htotal & _ & Htops & _).
  eexists. split; [exact Hrun|].
  cbn [AnalyticsOverviewDTO.top_agents AnalyticsOverviewDTO.total_executions] in *.
  set (rows := filter _ db) in *.
  apply mapM_inv in Htops.
  assert (Hfields : Forall2 (fun g t =>
             TopAgentDTO.execution_count t = Sql.count (snd g) /\
             TopAgentDTO.success_count t
               = or_zero (count_status ExecutionStatus.success (snd g)) /\
             TopAgentDTO.failure_count t
               = or_zero (count_status ExecutionStatus.failure (snd g)) /\
             TopAgentDTO.agent_name t = or_unknown (fst (fst (fst g))))
           (top_agents_query rows) tops).
  { eapply Forall2_impl; [|exact Htops]. intros g t. apply top_agent_fields. }
  split.
  { rewrite <- (Forall2_length Htops). unfold top_agents_query.
    apply firstn_le_length. }
  split.
  { eapply (Forall2_Sorted
              (fun a b : agent_key * table => Sql.count (snd b) <= Sql.count (snd a)));
      [|exact Hfields|].
    - intros a b ta tb (Ha & _) (Hb & _) Hab. rewrite Ha, Hb. exact Hab.
    - unfold top_agents_query. apply Sorted_firstn.
      eapply Sorted_impl;
        [|apply (order_by_Sorted
                   (fun a b : agent_key * table =>
                      Sql.count (snd b) <=? Sql.count (snd a)))].
      + intros a b H. apply Z.leb_le in H. exact H.
      + intros a b H. apply Z.leb_gt in H. apply Z.leb_le. lia. }
  split.
  { assert (Hne : Forall (fun g : agent_key * table => snd g <> []) (top_agents_query rows)).
    { apply Forall_forall. intros g Hg. unfold top_agents_query in Hg.
      apply in_firstn in Hg.
      apply (Permutation_in _ (order_by_perm _ _)) in Hg.
      pose proof (group_by_nonempty agent_key_eqb agent_key_of
                    (filter (fun r => Sql.is_not_null (AgentExecution.agent_name r)) rows))
        as Hall.
      rewrite Forall_forall in Hall. apply Hall, Hg. }
    assert (Hboth : Forall2 (fun g t =>
               (TopAgentDTO.execution_count t = Sql.count (snd g) /\
                TopAgentDTO.success_count t
                  = or_zero (count_status ExecutionStatus.success (snd g)) /\
                TopAgentDTO.failure_count t
                  = or_zero (count_status ExecutionStatus.failure (snd g)) /\
                TopAgentDTO.agent_name t = or_unknown (fst (fst (fst g)))) /\
               top_agent_rate_ok t) (top_agents_query rows) tops).
    { clear - Hfields Hrate. induction Hfields; [constructor|].
      inversion Hrate; subst. constructor; [split; assumption | auto]. }
    eapply Forall2_Forall; [|exact Hboth | exact Hne].
    intros g t ((Hc & Hs & Hf & Hn) & Hok) Hg. cbv beta in Hg.
    pose proof (status_counts_le (snd g)) as (H0 & H1 & H2).
    assert (1 <= Sql.count (snd g)).
    { unfold Sql.count. destruct (snd g) as [|x xs] eqn:E;
        [exfalso; apply Hg; exact E | cbn [List.length]; lia]. }
    rewrite Hc, Hs, Hf, Hn.
    repeat split; try lia; try apply or_unknown_not_blank.
    - destruct Hok as [Hok _]. rewrite Hok, Hc, Hs by lia.
      apply percent_bounds; lia.
    - destruct Hok as [Hok _]. rewrite Hok, Hc, Hs by lia.
      apply percent_bounds; lia. }
  rewrite <- (Forall2_map_eq _ (fun g : agent_key * table => Sql.count (snd g))
                TopAgentDTO.execution_count _ _
                (fun g t H => eq_sym (proj1 H)) Hfields).
  unfold top_agents_query. rewrite <- firstn_map.
  eapply Z.le_trans; [apply sum_firstn_le|].
  { apply Forall_forall. intros z Hz. apply in_map_iff in Hz.
    destruct Hz as (g & <- & _). unfold Sql.count. lia. }
  rewrite group_counts. apply filter_count_le.
Qed.

(** ** Sums of costs *)

Lemma Qsum_perm (l l' : list Q) :
  Permutation l l' -> fold_right Qplus 0%Q l == fold_right Qplus 0%Q l'.
Proof.
  induction 1 as [|x l l' Hp IH|x y l|l l' l'' H1 IH1 H2 IH2]; cbn [fold_right].
  - reflexivity.
  - rewrite IH. reflexivity.
  - ring.
  - rewrite IH1. exact IH2.
Qed.

Lemma Qsum_app (l l' : list Q) :
  fold_right Qplus 0%Q (l ++ l') == fold_right Qplus 0%Q l + fold_right Qplus 0%Q l'.
Proof.
  induction l as [|x l IH]; cbn [app fold_right]; [ring|]. rewrite IH. ring.
Qed.

Lemma group_costs_concat (groups : list table) :
  fold_right Qplus 0%Q (map (fun g => or_zero_num (sum_cost g)) groups)
  == or_zero_num (sum_cost (List.concat groups)).
Proof.
  induction groups as [|g gs IH]; cbn [map fold_right List.concat]; [reflexivity|].
  rewrite IH, !sum_cost_fold, map_app, Qsum_app. reflexivity.
Qed.

(** The costs of the groups of a query add up to the cost of its rows. *)
Lemma group_costs (K : Type) (eqb : K -> K -> bool) (key : AgentExecution.t -> K)
  (rows : table) (leb : K * table -> K * table -> bool) :
  fold_right Qplus 0%Q
    (map (fun g => or_zero_num (sum_cost (snd g)))
         (Sql.order_by leb (Sql.group_by eqb key rows)))
  == or_zero_num (sum_cost rows).
Proof.
  rewrite (Qsum_perm _ _ (Permutation_map _ (order_by_perm leb _))).
  transitivity (fold_right Qplus 0%Q
                  (map (fun g => or_zero_num (sum_cost g))
                       (map snd (Sql.group_by eqb key rows)))).
  { rewrite map_map. reflexivity. }
  rewrite group_costs_concat, !sum_cost_fold.
  apply Qsum_perm, Permutation_map, group_by_perm.
Qed.

Lemma cost_rows_sums {K B : Type} (total_cost : Q) (mk : K * table -> Q -> B)
  (cost_of : B -> Q) (count_of : B -> Z) (gs : list (K * table)) (rows : list B) :
  (forall g pct, cost_of (mk g pct) = or_zero_num (sum_cost (snd g))) ->
  (forall g pct, count_of (mk g pct) = Sql.count (snd g)) ->
  mapM (fun g => pct <- cost_percentage (sum_cost (snd g)) total_cost ;; Ok (mk g pct)) gs
  = Ok rows ->
  map cost_of rows = map (fun g => or_zero_num (sum_cost (snd g))) gs /\
  map count_of rows = map (fun g => Sql.count (snd g)) gs.
Proof.
  intros Hcost Hcount H. apply mapM_inv in H.
  induction H as [|g r gs rows Hg HF (IH1 & IH2)]; [repeat split|].
  destruct (cost_percentage (sum_cost (snd g)) total_cost) as [pct|e] eqn:E;
    cbn [Py.bind] in Hg; [|discriminate].
  inversion Hg; subst r. cbn [map].
  rewrite Hcost, Hcount, IH1, IH2. repeat split.
Qed.

(** The owner test of the repository functions, spelled out. *)
Lemma user_filter_explicit (user_id : option string) (r : AgentExecution.t) :
  user_filter user_id r
  = match user_id with
    | Some u =>
        String.eqb u ""
        || match AgentExecution.user_id r with
           | Some x => String.eqb x u
           | None => false
           end
    | None => true
    end.
Proof.
  destruct user_id as [u|]; [|reflexivity].
  unfold user_filter, truthy, Sql.text_is.
  destruct (String.eqb u ""); reflexivity.
Qed.

Lemma get_cost_summary_inv (now : datetime) (db : table) (user_id : option string)
  (start_date end_date : option datetime) (cs : cost_summary) :
  let stop := match end_date with Some e => e | None => now end in
  let start := match start_date with Some s => s | None => stop - timedelta_days 30 end in
  let rows := filter (overview_filters user_id start stop) db in
  let total := or_zero_num (sum_cost rows) in
  representable start ->
  get_cost_summary now db user_id start_date end_date = Ok cs ->
  cs_total_cost_usd cs = total /\
  cs_period_days cs = days (stop - start) /\
  (fold_right Qplus 0%Q (map cm_cost_usd (cs_by_model cs)) == total /\
   fold_right Z.add 0 (map cm_execution_count (cs_by_model cs)) = Sql.count rows) /\
  (fold_right Qplus 0%Q (map ca_cost_usd (cs_by_agent cs)) == total /\
   fold_right Z.add 0 (map ca_execution_count (cs_by_agent cs)) = Sql.count rows).
Proof.
  intros stop start rows total Hrep H. unfold get_cost_summary in H. cbv zeta in H.
  fold stop in H. rewrite (default_start_ok start_date stop _ Hrep) in H.
  cbn [Py.bind] in H.
  fold start in H. fold rows in H. fold total in H.
  match type of H with
  | Py.bind (mapM ?f ?gs) _ = _ =>
      destruct (mapM f gs) as [by_model|e] eqn:Em; cbn [Py.bind] in H; [|discriminate]
  end.
  match type of H with
  | Py.bind (mapM ?f ?gs) _ = _ =>
      destruct (mapM f gs) as [by_agent|e] eqn:Ea; cbn [Py.bind] in H; [|discriminate]
  end.
  inversion H; subst cs.
  cbn [cs_total_cost_usd cs_period_days cs_by_model cs_by_agent].
  split; [reflexivity|]. split; [reflexivity|].
  apply (cost_rows_sums total
           (fun (g : option string * table) pct =>
              {| cm_model := or_unknown (fst g);
                 cm_cost_usd := or_zero_num (sum_cost (snd g));
                 cm_execution_count := Sql.count (snd g);
                 cm_percentage := pct |})
           cm_cost_usd cm_execution_count) in Em;
    [|reflexivity..].
  apply (cost_rows_sums total
           (fun (g : (option string * option string) * table) pct =>
              {| ca_agent_name := or_unknown (fst (fst g));
                 ca_agent_id := snd (fst g);
                 ca_cost_usd := or_zero_num (sum_cost (snd g));
                 ca_execution_count := Sql.count (snd g);
                 ca_percentage := pct |})
           ca_cost_usd ca_execution_count) in Ea;
    [|reflexivity..].
  destruct Em as (Em1 & Em2), Ea as (Ea1 & Ea2).
  split; split.
  - rewrite Em1. apply group_costs.
  - rewrite Em2. apply group_counts.
  - rewrite Ea1. apply group_costs.
  - rewrite Ea2. apply group_counts.
Qed.

(** X11.  A cost summary is taken over the executions of the owner that
    started in the closed window, which starts 30 days before its end when
    no start is given.  Its total is the sum of their costs; the costs of
    the models, and likewise of the agents, add up to that total and their
    execution counts to the number of those executions.  When the total is
    positive, the percentage of every row is its own cost over the total
    times 100. *)
Theorem cost_summary_adds_up (now : datetime) (db : table) (user_id : option string)
  (start_date end_date : option datetime) :
  let stop := match end_date with Some e => e | None => now end in
  let start := match start_date with Some s => s | None => stop - 30 * 86400000000 end in
  let owned r :=
    match user_id with
    | Some u =>
        String.eqb u ""
        || match AgentExecution.user_id r with
           | Some x => String.eqb x u
           | None => false
           end
    | None => true
    end in
  let rows :=
    filter (fun r => (start <=? AgentExecution.started_at r)
                     && (AgentExecution.started_at r <=? stop)
                     && owned r) db in
  let total := fold_right Qplus 0%Q (map AgentExecution.cost_usd rows) in
  representable start ->
  exists cs,
    get_cost_summary now db user_id start_date end_date = Ok cs /\
    cs_total_cost_usd cs = total /\
    fold_right Qplus 0%Q (map cm_cost_usd (cs_by_model cs)) == total /\
    fold_right Qplus 0%Q (map ca_cost_usd (cs_by_agent cs)) == total /\
    fold_right Z.add 0 (map cm_execution_count (cs_by_model cs)) = Sql.count rows /\
    fold_right Z.add 0 (map ca_execution_count (cs_by_agent cs)) = Sql.count rows /\
    ((0 < total)%Q ->
     Forall (fun r => cm_percentage r = (cm_cost_usd r / total * 100)%Q)
            (cs_by_model cs) /\
     Forall (fun r => ca_percentage r = (ca_cost_usd r / total * 100)%Q)
            (cs_by_agent cs)).
Proof.
  intros stop start owned rows total Hrep.
  assert (Hrows : rows = filter (overview_filters user_id start stop) db).
  { apply filter_ext. intros r. unfold overview_filters, owned.
    rewrite user_filter_explicit. reflexivity. }
  assert (Htotal : total = or_zero_num (sum_cost rows))
    by (symmetry; apply sum_cost_fold).
  destruct (get_cost_summary_ok now db user_id start_date end_date start)
    as (cs & Hcs & HFm & HFa); [apply default_start_ok, Hrep|].
  destruct (get_cost_summary_inv now db user_id start_date end_date cs Hrep Hcs)
    as (Ht & _ & (Hm1 & Hm2) & (Ha1 & Ha2)).
  unfold timedelta_days, microseconds_per_day in Ht, Hm1, Hm2, Ha1, Ha2.
  fold stop start in Ht, Hm1, Hm2, Ha1, Ha2.
  rewrite <- Hrows in Ht, Hm1, Hm2, Ha1, Ha2. rewrite <- Htotal in Ht, Hm1, Ha1.
  exists cs. split; [exact Hcs|]. split; [exact Ht|].
  split; [exact Hm1|]. split; [exact Ha1|]. split; [exact Hm2|]. split; [exact Ha2|].
  intros Hpos. rewrite Ht in HFm, HFa. split.
  - eapply Forall_impl; [|exact HFm]. intros r [H _]. apply H, Hpos.
  - eapply Forall_impl; [|exact HFa]. intros r [H _]. apply H, Hpos.
Qed.

(** ** Statistics of one agent *)

Lemma group_by_nil {K A : Type} (eqb : K -> K -> bool) (key : A -> K) (l : list A) :
  Sql.group_by eqb key l = [] <-> l = [].
Proof.
  split; intros H.
  - pose proof (group_by_perm eqb key l) as Hp. rewrite H in Hp.
    apply Permutation_nil. exact Hp.
  - rewrite H. reflexivity.
Qed.

Lemma first_group_count {K A : Type} (eqb : K -> K -> bool) (key : A -> K) (l : list A)
  (k : K) (g : list A) (rest : list (K * list A)) :
  Sql.group_by eqb key l = (k, g) :: rest ->
  1 <= Sql.count g <= Sql.count l /\ (forall x, In x g -> In x l).
Proof.
  intros H. pose proof (group_by_perm eqb key l) as Hp.
  pose proof (group_by_nonempty eqb key l) as Hne.
  rewrite H in Hp, Hne. cbn [map snd List.concat] in Hp.
  inversion Hne as [|? ? Hg _]; subst. cbn [snd] in Hg.
  split.
  - apply Permutation_length in Hp. rewrite length_app in Hp.
    unfold Sql.count. destruct g; [contradiction | cbn [List.length] in *; lia].
  - intros x Hx. apply (Permutation_in _ Hp). apply in_or_app. left. exact Hx.
Qed.

Lemma fold_min_le (x : Z) (xs : list Z) : fold_right Z.min x xs <= x.
Proof. induction xs as [|y ys IH]; cbn [fold_right]; lia. Qed.

Lemma fold_max_ge (x : Z) (xs : list Z) : x <= fold_right Z.max x xs.
Proof. induction xs as [|y ys IH]; cbn [fold_right]; lia. Qed.

Lemma min_le_max (l : list Z) :
  l <> [] ->
  exists lo hi, Sql.min_int l = Some lo /\ Sql.max_int l = Some hi /\ lo <= hi.
Proof.
  destruct l as [|x xs]; [contradiction|]. intros _.
  exists (fold_right Z.min x xs), (fold_right Z.max x xs).
  split; [reflexivity|]. split; [reflexivity|].
  pose proof (fold_min_le x xs). pose proof (fold_max_ge x xs). lia.
Qed.

(** The statistics of one agent over the rows the query selects. *)
Lemma agent_stats_run (now : datetime) (db : table) (agent_id : string)
  (user_id : option string) (start_date end_date : option datetime) (start : datetime) :
  let stop := match end_date with Some e => e | None => now end in
  let rows := filter (agent_stats_filters agent_id user_id start stop) db in
  default_start start_date stop (timedelta_days 30) = Ok start ->
  exists stats,
    get_agent_stats now db agent_id user_id start_date end_date = Ok stats /\
    (stats = None <-> rows = []) /\
    forall st, stats = Some st ->
      AgentStatsDTO.agent_id st = agent_id /\
      1 <= AgentStatsDTO.total_executions st <= Sql.count rows /\
      0 <= AgentStatsDTO.successful_executions st /\
      0 <= AgentStatsDTO.failed_executions st /\
      AgentStatsDTO.successful_executions st + AgentStatsDTO.failed_executions st
        <= AgentStatsDTO.total_executions st /\
      AgentStatsDTO.min_execution_time_ms st <= AgentStatsDTO.max_execution_time_ms st /\
      (exists first last,
         AgentStatsDTO.first_executed_at st = Some first /\
         AgentStatsDTO.last_executed_at st = Some last /\
         start <= first <= last /\ last <= stop).
Proof.
  intros stop rows Hstart. unfold get_agent_stats. cbv zeta.
  fold stop. rewrite Hstart. cbn [Py.bind]. fold rows.
  destruct (Sql.group_by stats_key_eqb
              (fun r => (AgentExecution.agent_name r, AgentExecution.agent_type r)) rows)
    as [|[[name atype] stats] rest] eqn:Eg.
  - exists None. split; [reflexivity|]. split.
    + split; intros _; [apply group_by_nil in Eg; exact Eg | reflexivity].
    + intros st H. discriminate H.
  - rewrite guarded_percent. cbn [Py.bind]. rewrite guarded_div. cbn [Py.bind].
    eexists. split; [reflexivity|].
    destruct (first_group_count _ _ _ _ _ _ Eg) as [Hcount Hsub].
    split.
    + split; [discriminate|]. intros Hnil. rewrite Hnil in Eg. discriminate Eg.
    + intros st Hst. inversion Hst; subst st. clear Hst.
      cbn [AgentStatsDTO.agent_id AgentStatsDTO.total_executions
           AgentStatsDTO.successful_executions AgentStatsDTO.failed_executions
           AgentStatsDTO.min_execution_time_ms AgentStatsDTO.max_execution_time_ms
           AgentStatsDTO.first_executed_at AgentStatsDTO.last_executed_at].
      pose proof (status_counts_le stats) as (H0 & H1 & H2).
      assert (Hne : stats <> []).
      { intros E. rewrite E in Hcount. unfold Sql.count in Hcount.
        cbn [List.length] in Hcount. lia. }
      split; [reflexivity|]. split; [exact Hcount|].
      split; [exact H0|]. split; [exact H1|]. split; [exact H2|].
      split.
      * destruct (min_le_max (map AgentExecution.execution_time_ms stats))
          as (lo & hi & -> & -> & Hle);
          [destruct stats; [contradiction | discriminate]|].
        exact Hle.
      * destruct (min_le_max (map AgentExecution.started_at stats))
          as (lo & hi & Hlo & Hhi & Hle);
          [destruct stats; [contradiction | discriminate]|].
        exists lo, hi. split; [exact Hlo|]. split; [exact Hhi|].
        assert (Hwin : forall t, In t (map AgentExecution.started_at stats) ->
                                 start <= t <= stop).
        { intros t Ht. apply in_map_iff in Ht. destruct Ht as (r & <- & Hr).
          apply Hsub in Hr. unfold rows in Hr. apply filter_In in Hr.
          destruct Hr as [_ Hr]. unfold agent_stats_filters in Hr.
          rewrite !andb_true_iff, !Z.leb_le in Hr. lia. }
        assert (Hlo_in : In lo (map AgentExecution.started_at stats)).
        { destruct (map AgentExecution.started_at stats) as [|x xs];
            [discriminate|]. cbn [Sql.min_int] in Hlo. inversion Hlo.
          clear. induction xs as [|y ys IH]; cbn [fold_right]; [left; reflexivity|].
          destruct (Z.min_spec y (fold_right Z.min x ys)) as [[_ ->] | [_ ->]].
          - right. left. reflexivity.
          - destruct IH as [IH | IH]; [left; exact IH | right; right; exact IH]. }
        assert (Hhi_in : In hi (map AgentExecution.started_at stats)).
        { destruct (map AgentExecution.started_at stats) as [|x xs];
            [discriminate|]. cbn [Sql.max_int] in Hhi. inversion Hhi.
          clear. induction xs as [|y ys IH]; cbn [fold_right]; [left; reflexivity|].
          destruct (Z.max_spec y (fold_right Z.max x ys)) as [[_ ->] | [_ ->]].
          - destruct IH as [IH | IH]; [left; exact IH | right; right; exact IH].
          - right. left. reflexivity. }
        apply Hwin in Hlo_in, Hhi_in. lia.
Qed.

(** X12.  The statistics of an agent are taken over the executions of
    that agent and of the owner that started in the closed window, which
    starts 30 days before its end when no start is given.  They are absent
    exactly when there is no such execution.  When present they cover at
    least one and at most all of those executions (the first group by name
    and type), with successes and failures within the total, the shortest
    time no longer than the longest and the first execution no later than
    the last. *)
Theorem agent_stats_found (now : datetime) (db : table) (agent_id : string)
  (user_id : option string) (start_date end_date : option datetime) :
  let stop := match end_date with Some e => e | None => now end in
  let start := match start_date with Some s => s | None => stop - 30 * 86400000000 end in
  let owned r :=
    match user_id with
    | Some u =>
        String.eqb u ""
        || match AgentExecution.user_id r with
           | Some x => String.eqb x u
           | None => false
           end
    | None => true
    end in
  let rows :=
    filter (fun r => match AgentExecution.agent_id r with
                     | Some a => String.eqb a agent_id
                     | None => false
                     end
                     && (start <=? AgentExecution.started_at r)
                     && (AgentExecution.started_at r <=? stop)
                     && owned r) db in
  representable start ->
  exists stats,
    get_agent_stats now db agent_id user_id start_date end_date = Ok stats /\
    (stats = None <-> rows = []) /\
    forall st, stats = Some st ->
      AgentStatsDTO.agent_id st = agent_id /\
      1 <= AgentStatsDTO.total_executions st <= Sql.count rows /\
      0 <= AgentStatsDTO.successful_executions st /\
      0 <= AgentStatsDTO.failed_executions st /\
      AgentStatsDTO.successful_executions st + AgentStatsDTO.failed_executions st
        <= AgentStatsDTO.total_executions st /\
      AgentStatsDTO.min_execution_time_ms st <= AgentStatsDTO.max_execution_time_ms st /\
      (exists first last,
         AgentStatsDTO.first_executed_at st = Some first /\
         AgentStatsDTO.last_executed_at st = Some last /\
         start <= first <= last /\ last <= stop).
Proof.
  intros stop start owned rows Hrep.
  assert (Hrows : filter (agent_stats_filters agent_id user_id start stop) db = rows).
  { apply filter_ext. intros r. unfold agent_stats_filters, owned, Sql.text_is.
    rewrite user_filter_explicit. reflexivity. }
  pose proof (agent_stats_run now db agent_id user_id start_date end_date start
                (default_start_ok start_date stop (timedelta_days 30) Hrep)) as H.
  cbv zeta in H. fold stop in H. rewrite Hrows in H. exact H.
Qed.

(** X13.  [GET /agents/{agent_id}/stats] answers 404 exactly when the
    caller has no execution of the agent that started in the closed window
    of the route, answers with the statistics of that agent otherwise, and
    lets no exception escape. *)
Theorem agent_stats_route_not_found (now : datetime) (db : table)
  (user agent_id period : string) (start_date end_date : option datetime) :
  user <> ""%string ->
  let window := route_window now period start_date end_date in
  let rows :=
    filter (fun r => match AgentExecution.agent_id r with
                     | Some a => String.eqb a agent_id
                     | None => false
                     end
                     && (fst window <=? AgentExecution.started_at r)
                     && (AgentExecution.started_at r <=? snd window)
                     && match AgentExecution.user_id r with
                        | Some x => String.eqb x user
                        | None => false
                        end) db in
  match get_agent_stats_route now db user agent_id period start_date end_date with
  | Success st =>
      rows <> [] /\ AgentStatsDTO.agent_id st = agent_id /\
      1 <= AgentStatsDTO.total_executions st <= Sql.count rows
  | HTTPException status_code _ => status_code = 404 /\ rows = []
  | Unhandled _ => False
  end.
Proof.
  intros Huser window rows. unfold get_agent_stats_route.
  rewrite route_window_fst_snd. fold window.
  assert (Hrows : filter (agent_stats_filters agent_id (Some user)
                            (fst window) (snd window)) db = rows).
  { apply filter_ext. intros r. unfold agent_stats_filters, Sql.text_is.
    rewrite user_filter_explicit.
    destruct (String.eqb user "") eqn:E; [apply String.eqb_eq in E; contradiction|].
    reflexivity. }
  destruct (agent_stats_run now db agent_id (Some user)
              (Some (fst window)) (Some (snd window)) (fst window) eq_refl)
    as (stats & Hrun & Hnone & Hsome).
  cbv zeta in Hnone, Hsome. rewrite Hrows in Hnone, Hsome.
  rewrite Hrun. destruct stats as [st|].
  - destruct (Hsome st eq_refl) as (Hid & Htotal & _).
    split; [|split; assumption].
    intros Hnil. apply Hnone in Hnil. discriminate Hnil.
  - split; [reflexivity | apply Hnone; reflexivity].
Qed.

(** ** Trend of the forecast *)

Lemma Qlt_div_iff (a b p : Q) : (0 < p)%Q -> (a < b / p <-> a * p < b)%Q.
Proof.
  intros Hp. split; intros H.
  - apply (Qmult_lt_r _ _ p Hp) in H.
    assert (E : (b / p * p == b)%Q) by (field; intros H0; rewrite H0 in Hp; lra).
    rewrite E in H. exact H.
  - apply Qlt_shift_div_l; assumption.
Qed.

Lemma Qdiv_lt_iff (a b p : Q) : (0 < p)%Q -> (b / p < a <-> b < a * p)%Q.
Proof.
  intros Hp. split; intros H.
  - apply (Qmult_lt_r _ _ p Hp) in H.
    assert (E : (b / p * p == b)%Q) by (field; intros H0; rewrite H0 in Hp; lra).
    rewrite E in H. exact H.
  - apply Qlt_shift_div_r; assumption.
Qed.

Lemma num_gt_spec (x y : Q) : num_gt x y = true <-> (y < x)%Q.
Proof.
  unfold num_gt. rewrite negb_true_iff. split; intros H.
  - apply Qnot_le_lt. intros Hle. apply Qle_bool_iff in Hle. congruence.
  - destruct (Qle_bool x y) eqn:E; [|reflexivity].
    apply Qle_bool_iff in E. lra.
Qed.

Lemma num_lt_spec (x y : Q) : num_lt x y = true <-> (x < y)%Q.
Proof. apply (num_gt_spec y x). Qed.

(** X14.  With a positive cost in the previous seven days the forecast's
    trend reads off the two costs: "increasing" exactly when the current
    cost is more than 1.1 times the previous one, "decreasing" exactly when
    it is less than 0.9 times, "stable" in between.  The weekly projection
    is the current cost itself. *)
Theorem forecast_trend_thresholds (now : datetime) (db : table)
  (user_id : option string) :
  let current := or_zero_num (sum_cost (filter (forecast_current now user_id) db)) in
  let prev := or_zero_num (sum_cost (filter (forecast_prev now user_id) db)) in
  (0 < prev)%Q ->
  exists dto,
    get_cost_forecast now db user_id = Ok dto /\
    (CostForecastDTO.cost_trend dto = CostForecastDTO.increasing <->
     (1.1 * prev < current)%Q) /\
    (CostForecastDTO.cost_trend dto = CostForecastDTO.decreasing <->
     (current < 0.9 * prev)%Q) /\
    (CostForecastDTO.cost_trend dto = CostForecastDTO.stable <->
     (0.9 * prev <= current /\ current <= 1.1 * prev)%Q) /\
    CostForecastDTO.projected_weekly_cost_usd dto = current /\
    CostForecastDTO.projected_monthly_cost_usd dto == current * (30 # 7).
Proof.
  intros current prev Hpos.
  eexists. split; [apply get_cost_forecast_run|].
  fold current prev.
  cbn [CostForecastDTO.cost_trend CostForecastDTO.projected_weekly_cost_usd
       CostForecastDTO.projected_monthly_cost_usd].
  assert (Hp : positive_num prev = true) by (apply positive_num_spec; exact Hpos).
  rewrite Hp.
  set (change := ((current - prev) / prev * 100)%Q).
  assert (Hchange : (change == (current - prev) * 100 / prev)%Q).
  { unfold change. field. intros H0. rewrite H0 in Hpos. lra. }
  assert (Hup : (10 < change <-> 1.1 * prev < current)%Q).
  { rewrite Hchange, Qlt_div_iff by exact Hpos. split; intros H; lra. }
  assert (Hdown : (change < -10 <-> current < 0.9 * prev)%Q).
  { rewrite Hchange, Qdiv_lt_iff by exact Hpos. split; intros H; lra. }
  destruct (num_gt change 10) eqn:Eg; [|destruct (num_lt change (-10)) eqn:El].
  - apply num_gt_spec in Eg. apply Hup in Eg.
    repeat split; try congruence; try (intros; assumption);
      try reflexivity; try (intros H; exfalso; lra); try field.
  - apply num_lt_spec in El. apply Hdown in El.
    repeat split; try congruence; try (intros; assumption);
      try reflexivity; try (intros H; exfalso; lra); try field.
  - assert (Hng : ~ (1.1 * prev < current)%Q).
    { intros H. apply Hup, num_gt_spec in H. congruence. }
    assert (Hnl : ~ (current < 0.9 * prev)%Q).
    { intros H. apply Hdown, num_lt_spec in H. congruence. }
    repeat split; try congruence; try reflexivity;
      try (intros H; exfalso; tauto); try field; lra.
Qed.

(** ** Spend and scope *)

Lemma sum_filter_le (f g : AgentExecution.t -> bool) (rows : table) :
  Forall (fun r => (0 <= AgentExecution.cost_usd r)%Q) rows ->
  (forall r, f r = true -> g r = true) ->
  (or_zero_num (sum_cost (filter f rows)) <= or_zero_num (sum_cost (filter g rows)))%Q.
Proof.
  intros Hpos Hfg. rewrite !sum_cost_fold.
  induction Hpos as [|r rs Hr Hrs IH]; cbn [filter map fold_right]; [lra|].
  specialize (Hfg r).
  destruct (f r) eqn:Ef; destruct (g r) eqn:Eg; cbn [map fold_right];
    try (specialize (Hfg eq_refl); discriminate); lra.
Qed.

(** X15.  With costs that are not negative the spend of an alert under its
    scope is never more than the spend of the same alert without scope, so
    an alert reported under its scope would be reported without it. *)
Theorem scoped_spend_bounded (now : datetime) (db : table) (user_id : string)
  (alert : BudgetAlert.t) :
  Forall (fun r => (0 <= AgentExecution.cost_usd r)%Q) db ->
  (0 <= current_spend now db user_id alert)%Q /\
  (current_spend now db user_id alert
   <= current_spend now db user_id (unscoped alert))%Q /\
  forall exceeded exceeded',
    check_budget_exceeded now [alert] db user_id = Ok exceeded ->
    check_budget_exceeded now [unscoped alert] db user_id = Ok exceeded' ->
    exceeded <> [] -> exceeded' <> [].
Proof.
  intros Hpos.
  assert (Hle : (current_spend now db user_id alert
                 <= current_spend now db user_id (unscoped alert))%Q).
  { unfold current_spend, spend_since. apply sum_filter_le; [exact Hpos|].
    intros r Hr. unfold budget_filters in *. cbn.
    rewrite !andb_true_iff in Hr. destruct Hr as [[Hu Hp] _].
    rewrite Hu, Hp. reflexivity. }
  split.
  { unfold current_spend, spend_since. rewrite sum_cost_fold.
    match goal with
    | |- context [filter ?f db] =>
        assert (H : Forall (fun r => (0 <= AgentExecution.cost_usd r)%Q) (filter f db))
    end.
    { rewrite Forall_forall in *. intros r Hr. apply filter_In in Hr. apply Hpos, Hr. }
    induction H; cbn [map fold_right]; lra. }
  split; [exact Hle|].
  intros ex ex'. unfold check_budget_exceeded.
  replace (get_active_by_user [unscoped alert] user_id)
    with (if String.eqb (BudgetAlert.user_id alert) user_id && BudgetAlert.is_active alert
          then [unscoped alert] else []) by reflexivity.
  unfold get_active_by_user. cbn [filter].
  destruct (String.eqb (BudgetAlert.user_id alert) user_id && BudgetAlert.is_active alert);
    cbn [check_alerts]; [|intros H _ Hne; inversion H; subst; contradiction].
  change (period_start now (unscoped alert)) with (period_start now alert).
  destruct (period_start_cases now alert) as [-> | ->]; cbn [Py.bind]; [|discriminate].
  change (spend_since (now - timedelta_days (BudgetAlert.period_days alert))
                      db user_id (unscoped alert))
    with (current_spend now db user_id (unscoped alert)).
  fold (current_spend now db user_id alert).
  rewrite !alert_threshold_eq. cbn [Py.bind unscoped BudgetAlert.threshold_usd
                                    BudgetAlert.alert_at_percentage].
  intros H H' Hne. inversion H; subst ex. inversion H'; subst ex'. clear H H'.
  destruct (Qle_bool _ (current_spend now db user_id alert)) eqn:E;
    [|contradiction].
  apply Qle_bool_iff in E.
  match goal with
  | |- (if Qle_bool ?t ?s then _ else _) <> [] =>
      assert (E' : Qle_bool t s = true) by (apply Qle_bool_iff; lra);
      rewrite E'; discriminate
  end.
Qed.

(** ** Executions of a request and of a session *)

Lemma order_by_key_sorted {A : Type} (key : A -> Z) (l : list A) :
  StronglySorted (fun a b => key a <= key b)
    (Sql.order_by (fun a b => key a <=? key b) l).
Proof.
  apply Sorted_StronglySorted; [intros a b c Hab Hbc; lia|].
  eapply Sorted_impl; [|apply (order_by_Sorted (fun a b => key a <=? key b))].
  - intros a b H. apply Z.leb_le. exact H.
  - intros a b H. apply Z.leb_gt in H. apply Z.leb_le. lia.
Qed.

Lemma order_by_key_sorted_desc {A : Type} (key : A -> Z) (l : list A) :
  StronglySorted (fun a b => key b <= key a)
    (Sql.order_by (fun a b => key b <=? key a) l).
Proof.
  apply Sorted_StronglySorted; [intros a b c Hab Hbc; lia|].
  eapply Sorted_impl; [|apply (order_by_Sorted (fun a b => key b <=? key a))].
  - intros a b H. apply Z.leb_le. exact H.
  - intros a b H. apply Z.leb_gt in H. apply Z.leb_le. lia.
Qed.

Lemma StronglySorted_firstn {A : Type} (R : A -> A -> Prop) (n : nat) (l : list A) :
  StronglySorted R l -> StronglySorted R (firstn n l).
Proof.
  intros H. revert n. induction H as [|x xs Hs IH Hall]; intros n.
  - rewrite firstn_nil. constructor.
  - destruct n as [|n]; cbn [firstn]; constructor; [apply IH|].
    rewrite Forall_forall in *. intros y Hy. apply Hall, (in_firstn n), Hy.
Qed.

(** X16.  The executions of a request are all of them, oldest first; the
    executions of a session are the newest [limit] of them, newest first,
    for a limit the driver can bind (from 0 to below [2^63]). *)
Theorem request_and_session_listings (db : table) (request_id session_id : string)
  (limit : Z) :
  0 <= limit < 2 ^ 63 ->
  (Permutation (get_by_request_id db request_id)
     (filter (fun r => String.eqb (AgentExecution.request_id r) request_id) db) /\
   StronglySorted
     (fun a b => AgentExecution.started_at a <= AgentExecution.started_at b)
     (get_by_request_id db request_id)) /\
  exists rows others,
    get_by_session_id db session_id limit = Ok rows /\
    Z.of_nat (List.length rows) <= limit /\
    Permutation (rows ++ others)
      (filter (fun r => String.eqb (AgentExecution.session_id r) session_id) db) /\
    StronglySorted
      (fun a b => AgentExecution.started_at b <= AgentExecution.started_at a)
      (rows ++ others) /\
    (others <> [] -> Z.of_nat (List.length rows) = limit).
Proof.
  intros Hlimit. split.
  - split; [apply order_by_perm|].
    apply (order_by_key_sorted AgentExecution.started_at).
  - unfold get_by_session_id. rewrite offset_limit_ok by lia.
    change (Z.to_nat 0) with 0%nat. cbn [skipn].
    set (sorted := Sql.order_by _ _).
    exists (firstn (Z.to_nat limit) sorted), (skipn (Z.to_nat limit) sorted).
    split; [reflexivity|]. split.
    { pose proof (firstn_le_length (Z.to_nat limit) sorted). lia. }
    rewrite firstn_skipn. split; [apply order_by_perm|]. split.
    { apply (order_by_key_sorted_desc AgentExecution.started_at). }
    intros Hne.
    destruct (Nat.le_gt_cases (List.length sorted) (Z.to_nat limit)) as [Hle | Hgt].
    + rewrite skipn_all2 in Hne by exact Hle. contradiction.
    + rewrite firstn_length_le by lia. lia.
Qed.

(** ** Traces and token usages of an execution *)

(** X17.  The trace of an execution is every trace row of that execution
    by ascending step number; its token usages are every usage row of that
    execution by ascending step number, rows without a step number last. *)
Theorem execution_children_listed (trace_rows : list ExecutionTrace.t)
  (usage_rows : list TokenUsage.t) (execution_id : string) :
  Permutation (traces_by_execution trace_rows execution_id)
    (filter (fun t => String.eqb (ExecutionTrace.execution_id t) execution_id)
            trace_rows) /\
  StronglySorted
    (fun a b => ExecutionTrace.step_number a <= ExecutionTrace.step_number b)
    (traces_by_execution trace_rows execution_id) /\
  Permutation (token_usages_by_execution usage_rows execution_id)
    (filter (fun u => String.eqb (TokenUsage.execution_id u) execution_id)
            usage_rows) /\
  StronglySorted
    (fun a b => step_le (TokenUsage.step_number a) (TokenUsage.step_number b))
    (token_usages_by_execution usage_rows execution_id).
Proof.
  split; [apply order_by_perm|].
  split; [apply (order_by_key_sorted ExecutionTrace.step_number)|].
  split; [apply order_by_perm|].
  apply Sorted_StronglySorted.
  { intros a b c. unfold step_le.
    destruct (TokenUsage.step_number a), (TokenUsage.step_number b),
      (TokenUsage.step_number c); try tauto; lia. }
  unfold token_usages_by_execution.
  eapply Sorted_impl;
    [|apply (order_by_Sorted
               (fun a b => Sql.value_leb (opt_int (TokenUsage.step_number a))
                                         (opt_int (TokenUsage.step_number b))))].
  - intros a b. unfold step_le.
    destruct (TokenUsage.step_number a), (TokenUsage.step_number b);
      cbn; intros H; try exact I; try discriminate H.
    apply Z.leb_le. exact H.
  - intros a b. apply value_leb_total.
Qed.

(** ** Access to one execution *)

(** X18.  [GET /executions/{execution_id}] answers 404 exactly when no
    execution has the id and 403 exactly when the execution has an owner
    other than the caller; otherwise, the caller's own execution or one
    without owner, it returns that execution with exactly its trace rows and
    its token usage rows. *)
Theorem execution_details_access (db : database) (user execution_id : string) :
  match get_execution_details db user execution_id with
  | Success d =>
      In (d_execution d) (executions db) /\
      AgentExecution.id (d_execution d) = execution_id /\
      (AgentExecution.user_id (d_execution d) = None \/
       AgentExecution.user_id (d_execution d) = Some user) /\
      (forall t, In t (d_traces d) <->
                 In t (traces db) /\ ExecutionTrace.execution_id t = execution_id) /\
      (forall u, In u (d_token_usages d) <->
                 In u (token_usages db) /\ TokenUsage.execution_id u = execution_id)
  | HTTPException status_code _ =>
      (status_code = 404 /\
       forall e, In e (executions db) -> AgentExecution.id e <> execution_id) \/
      (status_code = 403 /\
       exists e owner,
         In e (executions db) /\ AgentExecution.id e = execution_id /\
         AgentExecution.user_id e = Some owner /\ owner <> user)
  | Unhandled _ => False
  end.
Proof.
  unfold get_execution_details, get_with_details.
  destruct (filter (fun r => String.eqb (AgentExecution.id r) execution_id)
                   (executions db)) as [|e rest] eqn:Ef.
  - left. split; [reflexivity|]. intros e Hin Hid.
    assert (Hf : In e []).
    { rewrite <- Ef. apply filter_In. split; [exact Hin|].
      apply String.eqb_eq. exact Hid. }
    contradiction.
  - assert (He : In e (executions db) /\ AgentExecution.id e = execution_id).
    { assert (Hin : In e (e :: rest)) by (left; reflexivity).
      rewrite <- Ef in Hin. apply filter_In in Hin.
      rewrite String.eqb_eq in Hin. exact Hin. }
    destruct He as [Hin Hid]. cbn [d_execution].
    assert (Hok :
      In e (executions db) /\ AgentExecution.id e = execution_id /\
      (forall t, In t (filter (fun t => String.eqb (ExecutionTrace.execution_id t)
                                                   (AgentExecution.id e)) (traces db)) <->
                 In t (traces db) /\ ExecutionTrace.execution_id t = execution_id) /\
      (forall u, In u (filter (fun u => String.eqb (TokenUsage.execution_id u)
                                                   (AgentExecution.id e))
                              (token_usages db)) <->
                 In u (token_usages db) /\ TokenUsage.execution_id u = execution_id)).
    { split; [exact Hin|]. split; [exact Hid|]. rewrite Hid.
      split; intros x; rewrite filter_In, String.eqb_eq; tauto. }
    destruct Hok as (H1 & H2 & H3 & H4).
    destruct (AgentExecution.user_id e) as [owner|] eqn:Eo.
    + destruct (String.eqb owner user) eqn:Eu; cbn [negb].
      * apply String.eqb_eq in Eu. subst owner.
        cbn [d_execution d_traces d_token_usages]. rewrite Eo.
        split; [exact H1|]. split; [exact H2|]. split; [right; reflexivity|].
        split; [exact H3 | exact H4].
      * right. split; [reflexivity|]. exists e, owner.
        apply String.eqb_neq in Eu. repeat split; assumption.
    + cbn [d_execution d_traces d_token_usages]. rewrite Eo.
      split; [exact H1|]. split; [exact H2|]. split; [left; reflexivity|].
      split; [exact H3 | exact H4].
Qed.

(** ** Budget alerts through the routes *)

(** X19.  Whatever store lies behind the repository: [PATCH] and [DELETE]
    on a budget alert change the store only for the owner of the alert; a
    missing alert is answered 404 and somebody else's alert 403, the store
    untouched in both cases.  [GET /budgets] lists exactly the caller's
    active alerts. *)
Theorem budget_routes_owner_only (store patch : Type)
  (crud_get : store -> string -> option BudgetAlert.t)
  (crud_update : store -> BudgetAlert.t -> patch -> store * BudgetAlert.t)
  (crud_delete : store -> string -> store)
  (db : store) (user alert_id : string) (alert_data : patch)
  (alerts : list BudgetAlert.t) :
  match snd (update_budget_alert store patch crud_get crud_update
               db user alert_id alert_data) with
  | Success updated =>
      exists alert,
        crud_get db alert_id = Some alert /\ BudgetAlert.user_id alert = user /\
        crud_update db alert alert_data
        = (fst (update_budget_alert store patch crud_get crud_update
                  db user alert_id alert_data), updated)
  | HTTPException status_code _ =>
      fst (update_budget_alert store patch crud_get crud_update
             db user alert_id alert_data) = db /\
      ((status_code = 404 /\ crud_get db alert_id = None) \/
       (status_code = 403 /\
        exists alert, crud_get db alert_id = Some alert /\
                      BudgetAlert.user_id alert <> user))
  | Unhandled _ => False
  end /\
  match snd (delete_budget_alert store crud_get crud_delete db user alert_id) with
  | Success deleted =>
      deleted = alert_id /\
      exists alert,
        crud_get db alert_id = Some alert /\ BudgetAlert.user_id alert = user /\
        fst (delete_budget_alert store crud_get crud_delete db user alert_id)
        = crud_delete db alert_id
  | HTTPException status_code _ =>
      fst (delete_budget_alert store crud_get crud_delete db user alert_id) = db /\
      ((status_code = 404 /\ crud_get db alert_id = None) \/
       (status_code = 403 /\
        exists alert, crud_get db alert_id = Some alert /\
                      BudgetAlert.user_id alert <> user))
  | Unhandled _ => False
  end /\
  (forall alert,
     In alert (list_budget_alerts alerts user) <->
     In alert alerts /\ BudgetAlert.user_id alert = user /\
     BudgetAlert.is_active alert = true).
Proof.
  unfold update_budget_alert, delete_budget_alert.
  destruct (crud_get db alert_id) as [alert|] eqn:Eget.
  - destruct (String.eqb (BudgetAlert.user_id alert) user) eqn:Eu; cbn [negb].
    + apply String.eqb_eq in Eu.
      destruct (crud_update db alert alert_data) as [db' updated] eqn:Eup.
      cbn [fst snd]. split; [|split].
      * exists alert. repeat split; assumption.
      * split; [reflexivity|]. exists alert. repeat split; assumption.
      * intros a. unfold list_budget_alerts, get_active_by_user.
        rewrite filter_In, andb_true_iff, String.eqb_eq. tauto.
    + apply String.eqb_neq in Eu. cbn [fst snd]. split; [|split].
      * split; [reflexivity|]. right. split; [reflexivity|].
        exists alert. split; [reflexivity | exact Eu].
      * split; [reflexivity|]. right. split; [reflexivity|].
        exists alert. split; [reflexivity | exact Eu].
      * intros a. unfold list_budget_alerts, get_active_by_user.
        rewrite filter_In, andb_true_iff, String.eqb_eq. tauto.
  - cbn [fst snd]. split; [|split].
    + split; [reflexivity|]. left. split; reflexivity.
    + split; [reflexivity|]. left. split; reflexivity.
    + intros a. unfold list_budget_alerts, get_active_by_user.
      rewrite filter_In, andb_true_iff, String.eqb_eq. tauto.
Qed.

(** ** Model comparison *)

Lemma group_by_keys {K A : Type} (eqb : K -> K -> bool) (key : A -> K) (l : list A) :
  Forall (fun g => exists r, In r l /\ fst g = key r) (Sql.group_by eqb key l).
Proof.
  unfold Sql.group_by.
  assert (H : forall (all : list A) gs,
             (forall x, In x l -> In x all) ->
             Forall (fun g : K * list A => exists r, In r all /\ fst g = key r) gs ->
             Forall (fun g : K * list A => exists r, In r all /\ fst g = key r)
               (fold_left (fun gs a => Sql.add_to_group eqb (key a) a gs) l gs)).
  { induction l as [|x xs IH]; intros all gs Hsub Hgs; cbn [fold_left]; [exact Hgs|].
    apply IH; [intros y Hy; apply Hsub; right; exact Hy|].
    assert (Hx : In x all) by (apply Hsub; left; reflexivity).
    clear IH Hsub. induction Hgs as [|[k' g] gs Hg Hgs IH]; cbn [Sql.add_to_group].
    - constructor; [|constructor]. exists x. split; [exact Hx | reflexivity].
    - destruct (eqb (key x) k'); constructor; assumption. }
  apply H; [intros x Hx; exact Hx | constructor].
Qed.

Lemma model_comparison_fields (g : option string * table) (m : model_comparison) :
  model_comparison_of g = Ok m ->
  mc_model_name m = fst g /\
  mc_execution_count m = Sql.count (snd g) /\
  mc_success_count m = or_zero (count_status ExecutionStatus.success (snd g)).
Proof.
  destruct g as [model rows]. unfold model_comparison_of.
  rewrite guarded_percent. cbn [Py.bind]. intros H. inversion H; subst m.
  cbn. repeat split.
Qed.

(** X20.  The model comparison is taken over the executions of the caller
    that started in the closed window of the route and have a model name.
    Every row carries a model name, one used by such an execution; it has
    at least one execution, successes within its executions and a success
    rate between 0 and 100; the rows are ranked by executions from high to
    low and their executions add up to the number of those executions. *)
Theorem compare_models_rows (now : datetime) (db : table) (user period : string)
  (start_date end_date : option datetime) :
  let window := route_window now period start_date end_date in
  let rows :=
    filter (fun r => match AgentExecution.user_id r with
                     | Some x => String.eqb x user
                     | None => false
                     end
                     && (fst window <=? AgentExecution.started_at r)
                     && (AgentExecution.started_at r <=? snd window)
                     && match AgentExecution.model_name r with
                        | Some _ => true
                        | None => false
                        end) db in
  exists models,
    compare_models now db user period start_date end_date = Ok models /\
    Forall (fun m =>
              (exists name r, mc_model_name m = Some name /\ In r rows /\
                              AgentExecution.model_name r = Some name) /\
              1 <= mc_execution_count m /\
              0 <= mc_success_count m <= mc_execution_count m /\
              (0 <= mc_success_rate m /\ mc_success_rate m <= 100)%Q) models /\
    Sorted (fun a b => mc_execution_count b <= mc_execution_count a) models /\
    fold_right Z.add 0 (map mc_execution_count models) = Sql.count rows.
Proof.
  intros window rows0.
  set (rows := filter (compare_filters user (fst window) (snd window)) db).
  change rows0 with rows. clear rows0.
  destruct (compare_models_ok now db user period start_date end_date)
    as (models & Hrun & Hrate).
  exists models. split; [exact Hrun|].
  unfold compare_models in Hrun. rewrite route_window_fst_snd in Hrun.
  fold window in Hrun. fold rows in Hrun.
  set (gs := Sql.order_by _ _) in Hrun.
  apply mapM_inv in Hrun.
  assert (Hfields : Forall2 (fun g m =>
             mc_model_name m = fst g /\
             mc_execution_count m = Sql.count (snd g) /\
             mc_success_count m
               = or_zero (count_status ExecutionStatus.success (snd g))) gs models).
  { eapply Forall2_impl; [|exact Hrun]. intros g m. apply model_comparison_fields. }
  assert (Hperm : Permutation gs
                    (Sql.group_by Sql.same_text AgentExecution.model_name rows))
    by apply order_by_perm.
  split; [|split].
  - assert (Hgs : Forall (fun g : option string * table =>
                            snd g <> [] /\
                            exists r, In r rows /\ fst g = AgentExecution.model_name r) gs).
    { eapply Permutation_Forall; [apply Permutation_sym, Hperm|].
      pose proof (group_by_nonempty Sql.same_text AgentExecution.model_name rows) as H1.
      pose proof (group_by_keys Sql.same_text AgentExecution.model_name rows) as H2.
      rewrite Forall_forall in *. intros g Hg. split; [apply H1 | apply H2]; exact Hg. }
    assert (Hboth : Forall2 (fun g m =>
               (mc_model_name m = fst g /\
                mc_execution_count m = Sql.count (snd g) /\
                mc_success_count m
                  = or_zero (count_status ExecutionStatus.success (snd g))) /\
               model_rate_ok m) gs models).
    { clear - Hfields Hrate. induction Hfields; [constructor|].
      inversion Hrate; subst. constructor; [split; assumption | auto]. }
    eapply Forall2_Forall; [|exact Hboth | exact Hgs].
    intros g m ((Hn & Hc & Hs) & Hok) (Hne & r & Hr & Hkey). cbv beta.
    pose proof (status_counts_le (snd g)) as (H0 & H1 & H2).
    assert (Hpos : 1 <= Sql.count (snd g)).
    { unfold Sql.count. destruct (snd g) as [|x xs] eqn:E;
        [exfalso; apply Hne; exact E | cbn [List.length]; lia]. }
    split.
    + assert (Hnn : Sql.is_not_null (AgentExecution.model_name r) = true).
      { unfold rows in Hr. apply filter_In in Hr. destruct Hr as [_ Hr].
        unfold compare_filters in Hr. rewrite !andb_true_iff in Hr. apply Hr. }
      destruct (AgentExecution.model_name r) as [name|] eqn:En; [|discriminate].
      exists name, r.
      split; [exact (eq_trans Hn Hkey)|]. split; [exact Hr | exact En].
    + rewrite Hc, Hs. split; [lia|]. split; [lia|].
      destruct Hok as [Hok _]. rewrite Hok, Hc, Hs by lia.
      apply percent_bounds; lia.
  - eapply (Forall2_Sorted
              (fun a b : option string * table => Sql.count (snd b) <= Sql.count (snd a)));
      [|exact Hfields|].
    + intros a b ma mb (_ & Ha & _) (_ & Hb & _) Hab. rewrite Ha, Hb. exact Hab.
    + unfold gs. eapply Sorted_impl;
        [|apply (order_by_Sorted
                   (fun a b : option string * table =>
                      Sql.count (snd b) <=? Sql.count (snd a)))].
      * intros a b H. apply Z.leb_le in H. exact H.
      * intros a b H. apply Z.leb_gt in H. apply Z.leb_le. lia.
  - rewrite <- (Forall2_map_eq _ (fun g : option string * table => Sql.count (snd g))
                  mc_execution_count _ _
                  (fun g m H => eq_sym (proj1 (proj2 H))) Hfields).
    unfold gs. apply group_counts.
Qed.

(** ** Export and windows of the routes *)

(** X21.  An export carries executions of the caller that started inside
    the window, newest first, and the same executions whatever the format
    asked for; any format other than "csv" is answered with JSON. *)
Theorem export_rows_of_caller (now : datetime) (db : table) (user format period : string)
  (start_date end_date : option datetime) :
  user <> ""%string ->
  let window := route_window now period start_date end_date in
  exists ex rows,
    export_analytics_data now db user format period start_date end_date = Ok ex /\
    export_items ex = map summary_of rows /\
    StronglySorted
      (fun a b => AgentExecution.started_at b <= AgentExecution.started_at a) rows /\
    (forall r, In r rows ->
               In r db /\ AgentExecution.user_id r = Some user /\
               fst window <= AgentExecution.started_at r <= snd window) /\
    (forall other,
       exists ex',
         export_analytics_data now db user other period start_date end_date = Ok ex' /\
         export_items ex' = export_items ex) /\
    (format <> "csv"%string -> exists s e n l, ex = JsonExport s e n l).
Proof.
  intros Huser window.
  unfold export_analytics_data. rewrite route_window_fst_snd. fold window.
  rewrite list_paginated_eq by (first [lia | reflexivity]). cbn [Py.bind].
  change (Z.to_nat ((1 - 1) * 10000)) with 0%nat. cbn [skipn].
  set (f := export_filters user (fst window) (snd window)).
  set (rows := firstn (Z.to_nat 10000) (listing db f "started_at" "desc")).
  assert (Hsorted : StronglySorted
            (fun a b => AgentExecution.started_at b <= AgentExecution.started_at a) rows).
  { unfold rows. apply StronglySorted_firstn.
    change (listing db f "started_at" "desc")
      with (Sql.order_by
              (fun a b => AgentExecution.started_at b <=? AgentExecution.started_at a)
              (filter (list_where f) db)).
    apply (order_by_key_sorted_desc AgentExecution.started_at). }
  assert (Hrows : forall r, In r rows ->
             In r db /\ AgentExecution.user_id r = Some user /\
             fst window <= AgentExecution.started_at r <= snd window).
  { intros r Hr. unfold rows in Hr. apply in_firstn in Hr.
    apply (Permutation_in _ (listing_perm db f _ _)) in Hr.
    apply filter_In in Hr. destruct Hr as [Hin Hw]. split; [exact Hin|].
    unfold list_where, f in Hw. cbn in Hw. rewrite !andb_true_iff in Hw.
    destruct Hw as [[Hu Hs] He]. apply Z.leb_le in Hs, He. split; [|lia].
    destruct (String.eqb user "") eqn:Eu; [apply String.eqb_eq in Eu; contradiction|].
    cbn in Hu. destruct Hu as [[[[Hu _] _] _] _].
    destruct (AgentExecution.user_id r) as [u|]; [|discriminate].
    apply String.eqb_eq in Hu. congruence. }
  assert (Hany : forall fmt,
             exists ex',
               (if String.eqb fmt "csv"
                then Ok (CsvExport (map summary_of rows))
                else Ok (JsonExport (fst window) (snd window)
                           (Sql.count (filter (list_where f) db))
                           (map summary_of rows))) = Ok ex' /\
               export_items ex' = map summary_of rows).
  { intros fmt. destruct (String.eqb fmt "csv"); eexists; split; reflexivity. }
  cbn [PaginatedExecutionsDTO.items PaginatedExecutionsDTO.total].
  destruct (Hany format) as (ex & Hex & Hitems).
  exists ex, rows. split; [exact Hex|]. split; [exact Hitems|].
  split; [exact Hsorted|]. split; [exact Hrows|]. split.
  - intros other. destruct (Hany other) as (ex' & Hex' & Hitems').
    exists ex'. split; [exact Hex' | congruence].
  - intros Hfmt. apply String.eqb_neq in Hfmt. rewrite Hfmt in Hex.
    inversion Hex. do 4 eexists. reflexivity.
Qed.

Lemma parse_period_cases (now : datetime) (period : string) :
  snd (parse_period now period) = now /\
  (fst (parse_period now period) = now - timedelta_hours 24 \/
   fst (parse_period now period) = now - timedelta_days 7 \/
   fst (parse_period now period) = now - timedelta_days 30 \/
   fst (parse_period now period) = now - timedelta_days 90).
Proof.
  unfold parse_period.
  destruct (String.eqb period "24h"); [cbn; auto|].
  destruct (String.eqb period "7d"); [cbn; auto|].
  destruct (String.eqb period "30d"); [cbn; auto|].
  destruct (String.eqb period "90d"); cbn; auto.
Qed.

(** X22.  A route takes its window from the two dates only when both are
    given; a start or an end date given alone is dropped and the window is
    the one of the period: it ends now and is 24 hours, 7, 30 or 90 days
    long, 24 hours for any period that is not "7d", "30d" or "90d".  The
    overview route then always calls the repository with both dates, so the
    repository's own default never applies. *)
Theorem route_window_rules (now : datetime) (db : table) (user period : string)
  (start_date end_date : option datetime) :
  let window := route_window now period start_date end_date in
  (forall s e, start_date = Some s -> end_date = Some e -> window = (s, e)) /\
  (start_date = None \/ end_date = None ->
   window = route_window now period None None /\
   snd window = now /\ fst window < snd window /\
   (snd window - fst window = timedelta_hours 24 \/
    snd window - fst window = timedelta_days 7 \/
    snd window - fst window = timedelta_days 30 \/
    snd window - fst window = timedelta_days 90) /\
   (period <> "7d"%string -> period <> "30d"%string -> period <> "90d"%string ->
    snd window - fst window = timedelta_hours 24)) /\
  get_analytics_overview now db user period start_date end_date
  = respond (get_overview now db (Some user) (Some (fst window)) (Some (snd window))).
Proof.
  intros window. split; [|split].
  - intros s e -> ->. reflexivity.
  - intros Hnone.
    assert (Hw : window = parse_period now period).
    { unfold window, route_window.
      destruct Hnone as [-> | ->]; [reflexivity|].
      destruct start_date; reflexivity. }
    split; [rewrite Hw; reflexivity|]. rewrite Hw.
    destruct (parse_period_cases now period) as [Hsnd Hfst].
    split; [exact Hsnd|]. rewrite Hsnd.
    unfold timedelta_hours, timedelta_days, microseconds_per_day in *.
    split; [lia|]. split; [lia|].
    intros H7 H30 H90. unfold parse_period.
    apply String.eqb_neq in H7, H30, H90. rewrite H7, H30, H90.
    destruct (String.eqb period "24h"); cbn [fst snd]; unfold timedelta_hours; lia.
  - unfold get_analytics_overview. rewrite route_window_fst_snd. reflexivity.
Qed.

(** ** Dates out of range *)

(** X23.  A window so long that its comparison window would start before
    the year 1 (or after the year 9999) makes the overview raise
    [OverflowError]: no overview is returned, whatever the table holds. *)
Theorem overview_overflow (now : datetime) (db : table) (user_id : option string)
  (start_date end_date : option datetime) :
  let start := fst (overview_window now start_date end_date) in
  let stop := snd (overview_window now start_date end_date) in
  fits_in_memory db ->
  ~ representable (start - (stop - start)) ->
  get_overview now db user_id start_date end_date = Err OverflowError.
Proof.
  intros start stop Hfit Hnot. unfold get_overview. cbv zeta.
  change (match end_date with Some e => e | None => now end) with stop.
  destruct (default_start_cases start_date stop (timedelta_hours 24)) as [-> | ->];
    [|reflexivity].
  change (match start_date with Some s => s | None => stop - timedelta_hours 24 end)
    with start.
  cbn [Py.bind].
  set (rows := filter (overview_filters user_id start stop) db).
  assert (Htimes : Sql.count (overview_times rows) < 2 ^ 47).
  { pose proof (overview_times_count rows).
    pose proof (filter_count_le (overview_filters user_id start stop) db) as Hle.
    unfold fits_in_memory in Hfit. fold rows in Hle. lia. }
  destruct (top_agents_ok rows) as (tops & Htops & _).
  destruct (cost_by_model_ok rows (or_zero_num (sum_cost rows))) as (costs & Hcosts & _).
  rewrite guarded_percent. cbn [Py.bind].
  rewrite p50_eq. cbn [Py.bind].
  unfold p95, p99, Float64.lit_0_95, Float64.lit_0_99.
  rewrite (percentile_eq 95) by (auto; lia). cbn [Py.bind].
  rewrite (percentile_eq 99) by (auto; lia). cbn [Py.bind].
  rewrite Htops. cbn [Py.bind]. rewrite Hcosts. cbn [Py.bind].
  destruct (datetime_sub start (stop - start)) as [d|e] eqn:E.
  - apply datetime_sub_inv in E. destruct E as [-> E]. contradiction.
  - destruct (datetime_sub_cases start (stop - start)) as [H | H];
      rewrite H in E; [discriminate|]. inversion E. reflexivity.
Qed.

Lemma period_start_refused (now : datetime) (alert : BudgetAlert.t) :
  ~ period_representable now alert -> period_start now alert = Err OverflowError.
Proof.
  intros Hnot. unfold period_start, timedelta_of_days, timedelta_max_days.
  destruct (Z.abs (BudgetAlert.period_days alert) <=? 999999999) eqn:E;
    [|reflexivity].
  cbn [Py.bind]. apply Z.leb_le in E.
  destruct (datetime_sub now (timedelta_days (BudgetAlert.period_days alert)))
    as [d|e] eqn:Ed.
  - exfalso. apply Hnot. apply datetime_sub_inv in Ed. destruct Ed as [-> Ed].
    split; [lia | exact Ed].
  - destruct (datetime_sub_cases now (timedelta_days (BudgetAlert.period_days alert)))
      as [H | H]; rewrite H in Ed; [discriminate | symmetry; exact Ed].
Qed.

Lemma check_alerts_refused (now : datetime) (db : table) (user_id : string)
  (alerts : list BudgetAlert.t) (alert : BudgetAlert.t) :
  In alert alerts -> period_start now alert = Err OverflowError ->
  check_alerts now db user_id alerts = Err OverflowError.
Proof.
  intros Hin Herr. induction alerts as [|a rest IH]; [contradiction|].
  cbn [check_alerts]. destruct Hin as [-> | Hin].
  - rewrite Herr. reflexivity.
  - destruct (period_start_cases now a) as [-> | ->]; [|reflexivity].
    cbn [Py.bind]. rewrite alert_threshold_eq. cbn [Py.bind].
    rewrite (IH Hin). reflexivity.
Qed.

(** X24.  One active alert of the user with a period Python cannot compute
    (more than 999999999 days, or reaching before the year 1 or after the
    year 9999) makes the whole budget check raise [OverflowError]: no alert
    of the user is reported, whatever the spend. *)
Theorem budget_check_overflow (now : datetime) (alerts : list BudgetAlert.t)
  (db : table) (user_id : string) (alert : BudgetAlert.t) :
  In alert alerts -> BudgetAlert.user_id alert = user_id ->
  BudgetAlert.is_active alert = true ->
  ~ period_representable now alert ->
  check_budget_exceeded now alerts db user_id = Err OverflowError.
Proof.
  intros Hin Huser Hactive Hnot. unfold check_budget_exceeded.
  apply (check_alerts_refused now db user_id _ alert).
  - unfold get_active_by_user. apply filter_In. split; [exact Hin|].
    rewrite Hactive, andb_true_r. apply String.eqb_eq. exact Huser.
  - apply period_start_refused. exact Hnot.
Qed.

(** * Further properties on sample data *)

(** X1, on the sample table, whose executions start at four different times,
    cut into pages of two. *)
Lemma pages_cover_listing_witness :
  1 <= 2 < 2 ^ 63 /\
  fits_in_memory sample_db /\
  is_column "started_at" = true /\
  no_ties "started_at" (filter (list_where sample_filters) sample_db) /\
  (let total := Sql.count (filter (list_where sample_filters) sample_db) in
  let total_pages := (total + 2 - 1) / 2 in
  exists pages,
    mapM (fun k => list_paginated sample_db sample_filters (Z.of_nat k) 2 "started_at" "desc")
         (seq 1 (Z.to_nat total_pages)) = Ok pages /\
    List.concat (map PaginatedExecutionsDTO.items pages)
    = map summary_of (listing sample_db sample_filters "started_at" "desc") /\
    Permutation (listing sample_db sample_filters "started_at" "desc") (filter (list_where sample_filters) sample_db) /\
    (forall l,
       Permutation l (filter (list_where sample_filters) sample_db) ->
       Sorted (listing_order "started_at" "desc") l ->
       l = listing sample_db sample_filters "started_at" "desc") /\
    Forall (fun p => PaginatedExecutionsDTO.total p = total /\
                     PaginatedExecutionsDTO.total_pages p = total_pages) pages).
Proof.
  split; [lia|].
  split; [reflexivity|].
  split; [reflexivity|].
  split; [unfold no_ties;
     change (filter (list_where sample_filters) sample_db) with sample_db;
     unfold sample_db;
     repeat first [apply FOP_nil | apply Forall_nil | apply FOP_cons
                  | apply Forall_cons; [reflexivity|]]|].
  apply (pages_cover_listing sample_db sample_filters 2 "started_at" "desc");
    [lia
    | reflexivity
    | reflexivity
    | unfold no_ties;
     change (filter (list_where sample_filters) sample_db) with sample_db;
     unfold sample_db;
     repeat first [apply FOP_nil | apply Forall_nil | apply FOP_cons
                  | apply Forall_cons; [reflexivity|]]].
Defined.

(** X2, on the first page of two of the sample table. *)
Lemma page_rows_filtered_and_sorted_witness :
  1 <= 1 /\
  1 <= 2 < 2 ^ 63 /\
  (1 - 1) * 2 < 2 ^ 63 /\
  is_column "started_at" = true /\
  (exists dto rows,
    list_paginated sample_db sample_filters 1 2 "started_at" "desc" = Ok dto /\
    PaginatedExecutionsDTO.items dto = map summary_of rows /\
    Sorted (listing_order "started_at" "desc") rows /\
    (forall r, In r rows -> In r sample_db /\ list_where sample_filters r = true)).
Proof.
  split; [lia|].
  split; [lia|].
  split; [lia|].
  split; [reflexivity|].
  apply (page_rows_filtered_and_sorted sample_db sample_filters 1 2 "started_at" "desc");
    [lia
    | lia
    | lia
    | reflexivity].
Defined.

(** X4, on the sample table sorted by cost. *)
Lemma page_size_zero_divides_witness :
  is_column "cost_usd" = true /\
  (list_paginated sample_db sample_filters 1 0 "cost_usd" "asc" = Err ZeroDivisionError).
Proof.
  split; [reflexivity|].
  apply (page_size_zero_divides sample_db sample_filters 1 "cost_usd" "asc");
    [reflexivity].
Defined.

(** X5, on the sample query of user u1. *)
Lemma list_executions_outcomes_witness :
  "u1"%string <> ""%string /\
  is_column (q_sort_by sample_query) = true /\
  (let window := route_window 100 (q_period sample_query) (q_start_date sample_query) (q_end_date sample_query) in
  let offset := (q_page sample_query - 1) * q_page_size sample_query in
  match list_executions 100 sample_db "u1"%string sample_query with
  | Success dto =>
      1 <= q_page sample_query /\ 1 <= q_page_size sample_query <= 100 /\ offset < 2 ^ 63 /\
      Z.of_nat (List.length (PaginatedExecutionsDTO.items dto)) <= 100 /\
      exists rows,
        PaginatedExecutionsDTO.items dto = map summary_of rows /\
        forall r, In r rows ->
                  In r sample_db /\ AgentExecution.user_id r = Some "u1"%string /\
                  fst window <= AgentExecution.started_at r <= snd window
  | HTTPException status_code _ =>
      status_code = 422 /\
      (q_page sample_query < 1 \/ q_page_size sample_query < 1 \/ 100 < q_page_size sample_query)
  | Unhandled e =>
      e = DBAPIError /\
      1 <= q_page sample_query /\ 1 <= q_page_size sample_query <= 100 /\ 2 ^ 63 <= offset
  end).
Proof.
  split; [discriminate|].
  split; [reflexivity|].
  apply (list_executions_outcomes 100 sample_db "u1"%string sample_query);
    [discriminate
    | reflexivity].
Defined.

(** X6, on the sample table: the counts of its overview. *)
Lemma overview_counts_consistent_witness :
  fits_in_memory sample_db /\
  window_representable 100 (Some 0) (Some 100) /\
  (let window := overview_window 100 (Some 0) (Some 100) in
  let rows := filter (overview_filters (Some "u1"%string) (fst window) (snd window)) sample_db in
  let other r :=
    negb (ExecutionStatus.eqb (AgentExecution.status r) ExecutionStatus.success)
    && negb (ExecutionStatus.eqb (AgentExecution.status r) ExecutionStatus.failure) in
  exists dto,
    get_overview 100 sample_db (Some "u1"%string) (Some 0) (Some 100) = Ok dto /\
    0 <= AnalyticsOverviewDTO.successful_executions dto /\
    0 <= AnalyticsOverviewDTO.failed_executions dto /\
    AnalyticsOverviewDTO.successful_executions dto
    + AnalyticsOverviewDTO.failed_executions dto
    + Sql.count (filter other rows)
    = AnalyticsOverviewDTO.total_executions dto /\
    (0 <= AnalyticsOverviewDTO.success_rate dto /\
     AnalyticsOverviewDTO.success_rate dto <= 100)%Q).
Proof.
  split; [reflexivity|].
  split; [unfold window_representable, representable; cbn; lia|].
  apply (overview_counts_consistent 100 sample_db (Some "u1"%string) (Some 0) (Some 100));
    [reflexivity
    | unfold window_representable, representable; cbn; lia].
Defined.

(** X7, on the sample table: the percentiles of its overview. *)
Lemma percentiles_ordered_witness :
  fits_in_memory sample_db /\
  window_representable 100 (Some 0) (Some 100) /\
  (let window := overview_window 100 (Some 0) (Some 100) in
  let rows := filter (overview_filters (Some "u1"%string) (fst window) (snd window)) sample_db in
  let timed p := exists r, In r rows /\ AgentExecution.execution_time_ms r = p /\ 0 < p in
  exists dto,
    get_overview 100 sample_db (Some "u1"%string) (Some 0) (Some 100) = Ok dto /\
    ((exists r, In r rows /\ 0 < AgentExecution.execution_time_ms r) ->
     timed (AnalyticsOverviewDTO.p50_execution_time_ms dto) /\
     timed (AnalyticsOverviewDTO.p95_execution_time_ms dto) /\
     timed (AnalyticsOverviewDTO.p99_execution_time_ms dto) /\
     AnalyticsOverviewDTO.p50_execution_time_ms dto
       <= AnalyticsOverviewDTO.p95_execution_time_ms dto
       <= AnalyticsOverviewDTO.p99_execution_time_ms dto) /\
    ((forall r, In r rows -> AgentExecution.execution_time_ms r <= 0) ->
     AnalyticsOverviewDTO.p50_execution_time_ms dto = 0 /\
     AnalyticsOverviewDTO.p95_execution_time_ms dto = 0 /\
     AnalyticsOverviewDTO.p99_execution_time_ms dto = 0)).
Proof.
  split; [reflexivity|].
  split; [unfold window_representable, representable; cbn; lia|].
  apply (percentiles_ordered 100 sample_db (Some "u1"%string) (Some 0) (Some 100));
    [reflexivity
    | unfold window_representable, representable; cbn; lia].
Defined.

(** X9, on the sample table and a window after its last execution. *)
Lemma overview_of_empty_window_witness :
  let start := fst (overview_window 300 (Some 200) (Some 300)) in
  let stop := snd (overview_window 300 (Some 200) (Some 300)) in
  let prev_total :=
    Sql.count (filter (prev_filters (Some "u1"%string) (start - (stop - start)) start) sample_db) in
  (window_representable 300 (Some 200) (Some 300)) /\
  (filter (overview_filters (Some "u1"%string) start stop) sample_db = []) /\
  (exists dto,
    get_overview 300 sample_db (Some "u1"%string) (Some 200) (Some 300) = Ok dto /\
    AnalyticsOverviewDTO.total_executions dto = 0 /\
    AnalyticsOverviewDTO.successful_executions dto = 0 /\
    AnalyticsOverviewDTO.failed_executions dto = 0 /\
    AnalyticsOverviewDTO.success_rate dto = 0%Q /\
    AnalyticsOverviewDTO.avg_execution_time_ms dto = 0%Q /\
    AnalyticsOverviewDTO.p50_execution_time_ms dto = 0 /\
    AnalyticsOverviewDTO.p95_execution_time_ms dto = 0 /\
    AnalyticsOverviewDTO.p99_execution_time_ms dto = 0 /\
    AnalyticsOverviewDTO.total_tokens dto = 0 /\
    AnalyticsOverviewDTO.total_cost_usd dto = 0%Q /\
    AnalyticsOverviewDTO.estimated_monthly_cost_usd dto == 0 /\
    AnalyticsOverviewDTO.active_agents_count dto = 0 /\
    AnalyticsOverviewDTO.top_agents dto = [] /\
    AnalyticsOverviewDTO.cost_by_model dto = [] /\
    (prev_total = 0 -> AnalyticsOverviewDTO.executions_change_percent dto = None) /\
    (0 < prev_total ->
     exists change,
       AnalyticsOverviewDTO.executions_change_percent dto = Some change /\
       change == -100)).
Proof.
  intros start stop prev_total.
  split; [unfold window_representable, representable; cbn; lia|].
  split; [reflexivity|].
  apply (overview_of_empty_window 300 sample_db (Some "u1"%string) (Some 200) (Some 300));
    [unfold window_representable, representable; cbn; lia
    | reflexivity].
Defined.

(** X10, on the sample table: the top agents of its overview. *)
Lemma top_agents_ranked_witness :
  fits_in_memory sample_db /\
  window_representable 100 (Some 0) (Some 100) /\
  (exists dto,
    get_overview 100 sample_db (Some "u1"%string) (Some 0) (Some 100) = Ok dto /\
    (List.length (AnalyticsOverviewDTO.top_agents dto) <= 10)%nat /\
    Sorted (fun a b => TopAgentDTO.execution_count b <= TopAgentDTO.execution_count a)
           (AnalyticsOverviewDTO.top_agents dto) /\
    Forall (fun t =>
              1 <= TopAgentDTO.execution_count t /\
              0 <= TopAgentDTO.success_count t /\
              0 <= TopAgentDTO.failure_count t /\
              TopAgentDTO.success_count t + TopAgentDTO.failure_count t
                <= TopAgentDTO.execution_count t /\
              (0 <= TopAgentDTO.success_rate t /\ TopAgentDTO.success_rate t <= 100)%Q /\
              TopAgentDTO.agent_name t <> ""%string)
           (AnalyticsOverviewDTO.top_agents dto) /\
    fold_right Z.add 0
      (map TopAgentDTO.execution_count (AnalyticsOverviewDTO.top_agents dto))
    <= AnalyticsOverviewDTO.total_executions dto).
Proof.
  split; [reflexivity|].
  split; [unfold window_representable, representable; cbn; lia|].
  apply (top_agents_ranked 100 sample_db (Some "u1"%string) (Some 0) (Some 100));
    [reflexivity
    | unfold window_representable, representable; cbn; lia].
Defined.

(** X11, on the sample table and the 30 days that end at 100. *)
Lemma cost_summary_adds_up_witness :
  let stop := match (Some 100) with Some e => e | None => 100 end in
  let start := match None with Some s => s | None => stop - 30 * 86400000000 end in
  let owned r :=
    match (Some "u1"%string) with
    | Some u =>
        String.eqb u ""
        || match AgentExecution.user_id r with
           | Some x => String.eqb x u
           | None => false
           end
    | None => true
    end in
  let rows :=
    filter (fun r => (start <=? AgentExecution.started_at r)
                     && (AgentExecution.started_at r <=? stop)
                     && owned r) sample_db in
  let total := fold_right Qplus 0%Q (map AgentExecution.cost_usd rows) in
  (representable start) /\
  (exists cs,
    get_cost_summary 100 sample_db (Some "u1"%string) None (Some 100) = Ok cs /\
    cs_total_cost_usd cs = total /\
    fold_right Qplus 0%Q (map cm_cost_usd (cs_by_model cs)) == total /\
    fold_right Qplus 0%Q (map ca_cost_usd (cs_by_agent cs)) == total /\
    fold_right Z.add 0 (map cm_execution_count (cs_by_model cs)) = Sql.count rows /\
    fold_right Z.add 0 (map ca_execution_count (cs_by_agent cs)) = Sql.count rows /\
    ((0 < total)%Q ->
     Forall (fun r => cm_percentage r = (cm_cost_usd r / total * 100)%Q)
            (cs_by_model cs) /\
     Forall (fun r => ca_percentage r = (ca_cost_usd r / total * 100)%Q)
            (cs_by_agent cs))).
Proof.
  intros stop start owned rows total.
  split; [unfold representable; cbv; split; intro H; discriminate H|].
  apply (cost_summary_adds_up 100 sample_db (Some "u1"%string) None (Some 100));
    [unfold representable; cbv; split; intro H; discriminate H].
Defined.

(** X12, on agent a1 of the sample table and the 30 days that end at 100. *)
Lemma agent_stats_found_witness :
  let stop := match (Some 100) with Some e => e | None => 100 end in
  let start := match None with Some s => s | None => stop - 30 * 86400000000 end in
  let owned r :=
    match (Some "u1"%string) with
    | Some u =>
        String.eqb u ""
        || match AgentExecution.user_id r with
           | Some x => String.eqb x u
           | None => false
           end
    | None => true
    end in
  let rows :=
    filter (fun r => match AgentExecution.agent_id r with
                     | Some a => String.eqb a "a1"%string
                     | None => false
                     end
                     && (start <=? AgentExecution.started_at r)
                     && (AgentExecution.started_at r <=? stop)
                     && owned r) sample_db in
  (representable start) /\
  (exists stats,
    get_agent_stats 100 sample_db "a1"%string (Some "u1"%string) None (Some 100) = Ok stats /\
    (stats = None <-> rows = []) /\
    forall st, stats = Some st ->
      AgentStatsDTO.agent_id st = "a1"%string /\
      1 <= AgentStatsDTO.total_executions st <= Sql.count rows /\
      0 <= AgentStatsDTO.successful_executions st /\
      0 <= AgentStatsDTO.failed_executions st /\
      AgentStatsDTO.successful_executions st + AgentStatsDTO.failed_executions st
        <= AgentStatsDTO.total_executions st /\
      AgentStatsDTO.min_execution_time_ms st <= AgentStatsDTO.max_execution_time_ms st /\
      (exists first last,
         AgentStatsDTO.first_executed_at st = Some first /\
         AgentStatsDTO.last_executed_at st = Some last /\
         start <= first <= last /\ last <= stop)).
Proof.
  intros stop start owned rows.
  split; [unfold representable; cbv; split; intro H; discriminate H|].
  apply (agent_stats_found 100 sample_db "a1"%string (Some "u1"%string) None (Some 100));
    [unfold representable; cbv; split; intro H; discriminate H].
Defined.

(** X13, on agent a1 of the sample table, asked for by user u1. *)
Lemma agent_stats_route_not_found_witness :
  "u1"%string <> ""%string /\
  (let window := route_window 100 "24h"%string (Some 0) (Some 100) in
  let rows :=
    filter (fun r => match AgentExecution.agent_id r with
                     | Some a => String.eqb a "a1"%string
                     | None => false
                     end
                     && (fst window <=? AgentExecution.started_at r)
                     && (AgentExecution.started_at r <=? snd window)
                     && match AgentExecution.user_id r with
                        | Some x => String.eqb x "u1"%string
                        | None => false
                        end) sample_db in
  match get_agent_stats_route 100 sample_db "u1"%string "a1"%string "24h"%string (Some 0) (Some 100) with
  | Success st =>
      rows <> [] /\ AgentStatsDTO.agent_id st = "a1"%string /\
      1 <= AgentStatsDTO.total_executions st <= Sql.count rows
  | HTTPException status_code _ => status_code = 404 /\ rows = []
  | Unhandled _ => False
  end).
Proof.
  split; [discriminate|].
  apply (agent_stats_route_not_found 100 sample_db "u1"%string "a1"%string "24h"%string (Some 0) (Some 100));
    [discriminate].
Defined.

(** X14, on the sample table eight days later, when all its cost lies in the
    previous week. *)
Lemma forecast_trend_thresholds_witness :
  let current := or_zero_num (sum_cost (filter (forecast_current 691200000000 (Some "u1"%string)) sample_db)) in
  let prev := or_zero_num (sum_cost (filter (forecast_prev 691200000000 (Some "u1"%string)) sample_db)) in
  ((0 < prev)%Q) /\
  (exists dto,
    get_cost_forecast 691200000000 sample_db (Some "u1"%string) = Ok dto /\
    (CostForecastDTO.cost_trend dto = CostForecastDTO.increasing <->
     (1.1 * prev < current)%Q) /\
    (CostForecastDTO.cost_trend dto = CostForecastDTO.decreasing <->
     (current < 0.9 * prev)%Q) /\
    (CostForecastDTO.cost_trend dto = CostForecastDTO.stable <->
     (0.9 * prev <= current /\ current <= 1.1 * prev)%Q) /\
    CostForecastDTO.projected_weekly_cost_usd dto = current /\
    CostForecastDTO.projected_monthly_cost_usd dto == current * (30 # 7)).
Proof.
  intros current prev.
  split; [reflexivity|].
  apply (forecast_trend_thresholds 691200000000 sample_db (Some "u1"%string));
    [reflexivity].
Defined.

(** X15, on the sample table, none of whose costs is negative. *)
Lemma scoped_spend_bounded_witness :
  Forall (fun r => (0 <= AgentExecution.cost_usd r)%Q) sample_db /\
  ((0 <= current_spend 100%Z sample_db "u1"%string sample_alert)%Q /\
  (current_spend 100%Z sample_db "u1"%string sample_alert
   <= current_spend 100%Z sample_db "u1"%string (unscoped sample_alert))%Q /\
  forall exceeded exceeded',
    check_budget_exceeded 100%Z [sample_alert] sample_db "u1"%string = Ok exceeded ->
    check_budget_exceeded 100%Z [unscoped sample_alert] sample_db "u1"%string = Ok exceeded' ->
    exceeded <> [] -> exceeded' <> []).
Proof.
  split; [repeat (apply Forall_cons; [vm_compute; discriminate|]); apply Forall_nil|].
  apply (scoped_spend_bounded 100 sample_db "u1"%string sample_alert);
    [repeat (apply Forall_cons; [vm_compute; discriminate|]); apply Forall_nil].
Defined.

(** X16, on the sample table with a limit of two. *)
Lemma request_and_session_listings_witness :
  0 <= 2 < 2 ^ 63 /\
  ((Permutation (get_by_request_id sample_db "req"%string)
     (filter (fun r => String.eqb (AgentExecution.request_id r) "req"%string) sample_db) /\
   StronglySorted
     (fun a b => AgentExecution.started_at a <= AgentExecution.started_at b)
     (get_by_request_id sample_db "req"%string)) /\
  exists rows others,
    get_by_session_id sample_db "ses"%string 2 = Ok rows /\
    Z.of_nat (List.length rows) <= 2 /\
    Permutation (rows ++ others)
      (filter (fun r => String.eqb (AgentExecution.session_id r) "ses"%string) sample_db) /\
    StronglySorted
      (fun a b => AgentExecution.started_at b <= AgentExecution.started_at a)
      (rows ++ others) /\
    (others <> [] -> Z.of_nat (List.length rows) = 2)).
Proof.
  split; [lia|].
  apply (request_and_session_listings sample_db "req"%string "ses"%string 2);
    [lia].
Defined.

(** X23, on a window from the year 1000 to the year 2026: the start is a date
    Python can hold, the start of the comparison window is not. *)
Lemma overview_overflow_witness :
  let start := fst (overview_window 1790000000000000 (Some (-30610224000000000)) (Some 1790000000000000)) in
  let stop := snd (overview_window 1790000000000000 (Some (-30610224000000000)) (Some 1790000000000000)) in
  (fits_in_memory sample_db) /\
  (~ representable (start - (stop - start))) /\
  (get_overview 1790000000000000 sample_db (Some "u1"%string) (Some (-30610224000000000)) (Some 1790000000000000) = Err OverflowError).
Proof.
  intros start stop.
  split; [reflexivity|].
  split; [unfold representable; cbv; intros [H _]; apply H; reflexivity|].
  apply (overview_overflow 1790000000000000 sample_db (Some "u1"%string) (Some (-30610224000000000)) (Some 1790000000000000));
    [reflexivity
    | unfold representable; cbv; intros [H _]; apply H; reflexivity].
Defined.

(** X24, on the sample alert next to one with a period of a million days. *)
Lemma budget_check_overflow_witness :
  In sample_long_alert [sample_alert; sample_long_alert] /\
  BudgetAlert.user_id sample_long_alert = "u1"%string /\
  BudgetAlert.is_active sample_long_alert = true /\
  ~ period_representable 100 sample_long_alert /\
  (check_budget_exceeded 100 [sample_alert; sample_long_alert] sample_db "u1"%string = Err OverflowError).
Proof.
  split; [right; left; reflexivity|].
  split; [reflexivity|].
  split; [reflexivity|].
  split; [unfold period_representable, representable; cbv; intros [_ [H _]]; apply H; reflexivity|].
  apply (budget_check_overflow 100 [sample_alert; sample_long_alert] sample_db "u1"%string sample_long_alert);
    [right; left; reflexivity
    | reflexivity
    | reflexivity
    | unfold period_representable, representable; cbv; intros [_ [H _]]; apply H; reflexivity].
Defined.

(** X21, on a JSON export of the sample table for user u1. *)
Lemma export_rows_of_caller_witness :
  "u1"%string <> ""%string /\
  (let window := route_window 100 "24h"%string (Some 0) (Some 100) in
  exists ex rows,
    export_analytics_data 100 sample_db "u1"%string "json"%string "24h"%string (Some 0) (Some 100) = Ok ex /\
    export_items ex = map summary_of rows /\
    StronglySorted
      (fun a b => AgentExecution.started_at b <= AgentExecution.started_at a) rows /\
    (forall r, In r rows ->
               In r sample_db /\ AgentExecution.user_id r = Some "u1"%string /\
               fst window <= AgentExecution.started_at r <= snd window) /\
    (forall other,
       exists ex',
         export_analytics_data 100 sample_db "u1"%string other "24h"%string (Some 0) (Some 100) = Ok ex' /\
         export_items ex' = export_items ex) /\
    ("json"%string <> "csv"%string -> exists s e n l, ex = JsonExport s e n l)).
Proof.
  split; [discriminate|].
  apply (export_rows_of_caller 100 sample_db "u1"%string "json"%string "24h"%string (Some 0) (Some 100));
    [discriminate].
Defined.
